(** * mistk test harness: the metric evaluator

    A shallow embedding of [perform_assessment]
    (test-harness/mistk_test_harness/evaluator.py) and the properties of
    its pipeline: format guard, CSV ingestion, reconciliation by rowid,
    matrix construction, metric dispatch, result normalisation and the
    JSON report.

    Library calls (csv, pandas, numpy, scikit-learn, importlib, json) are
    modelled by their documented contracts on the values this function
    hands them.  Strings are byte strings: Python compares [str] by code
    point, which on UTF-8 bytes is the byte-wise lexicographic order of
    [String.compare].  Floats are binary64 values; turning a token into
    a float is numpy's and is taken from the world the run lives in.

    The function is a computation that leaves a trace: log records, file
    accesses and metric calls, in order, ended by a value or by the
    exception that escaped.  The descriptor objects are kept in a store
    so that an assignment through an alias is seen by every holder. *)

From Stdlib Require Import String Ascii List Bool Arith ZArith Lia.
From Stdlib Require Import Sorted Permutation OrderedTypeEx DecimalString Floats.
Import ListNotations.
Open Scope string_scope.
Set Warnings "-register-all".

(* ------------------------------------------------------------------ *)
(** ** Python values and helpers *)

Module Py.

(** [needle in hay] on two [str]: substring containment. *)
Fixpoint str_in (needle hay : string) : bool :=
  String.prefix needle hay ||
  match hay with
  | EmptyString => false
  | String _ hay' => str_in needle hay'
  end.

(** [str.isspace] on one ASCII character: TAB, LF, VT, FF, CR, FS, GS,
    RS, US and space. *)
Definition isspace (c : ascii) : bool :=
  let n := nat_of_ascii c in
  (((9 <=? n) && (n <=? 13)) || ((28 <=? n) && (n <=? 32)))%nat.

(** [s.split()] with no separator: maximal runs of non-blank characters.
    [cur] is the token being read, most recent character first. *)
Definition rev_string (cs : list ascii) : string :=
  fold_left (fun acc c => String c acc) cs EmptyString.

Definition flush (cur : list ascii) (out : list string) : list string :=
  match cur with
  | [] => out
  | _ :: _ => rev_string cur :: out
  end.

Fixpoint split_go (s : string) (cur : list ascii) : list string :=
  match s with
  | EmptyString => flush cur []
  | String c s' =>
      if isspace c then flush cur (split_go s' [])
      else split_go s' (c :: cur)
  end.

Definition split (s : string) : list string := split_go s [].

(** A [dict] with [str] keys: insertion ordered, one entry per key. *)
Definition dict (V : Type) : Type := list (string * V).

Fixpoint get {V} (d : dict V) (k : string) : option V :=
  match d with
  | [] => None
  | (k', v) :: d' => if String.eqb k k' then Some v else get d' k
  end.

(** [d[k] = v]: an existing key keeps its position and takes the new
    value, a new key goes last. *)
Fixpoint set {V} (d : dict V) (k : string) (v : V) : dict V :=
  match d with
  | [] => [(k, v)]
  | (k', v') :: d' =>
      if String.eqb k k' then (k, v) :: d' else (k', v') :: set d' k v
  end.

Definition keys {V} (d : dict V) : list string := map fst d.

Definition mem {V} (d : dict V) (k : string) : bool :=
  match get d k with Some _ => true | None => false end.

(** Truth value of a [dict]: empty is falsy. *)
Definition truthy_dict {V} (d : dict V) : bool :=
  match d with [] => false | _ :: _ => true end.

(** Truth value of an optional [str]: [None] and the empty string are
    falsy. *)
Definition truthy_str (o : option string) : option string :=
  match o with
  | Some EmptyString => None
  | Some s => Some s
  | None => None
  end.

(** [os.path.join(a, b)] for a relative [b] on POSIX. *)
Fixpoint ends_with_slash (s : string) : bool :=
  match s with
  | EmptyString => false
  | String c EmptyString => Ascii.eqb c "/"
  | String _ s' => ends_with_slash s'
  end.

Definition path_join (a b : string) : string :=
  match a with
  | EmptyString => b
  | _ => if ends_with_slash a then a ++ b else a ++ "/" ++ b
  end.

(** [str(n)] for integers. *)
Definition str_of_nat (n : nat) : string :=
  NilZero.string_of_uint (Nat.to_uint n).

Definition str_of_Z (z : Z) : string :=
  NilZero.string_of_int (Z.to_int z).

(** JSON-safe native values, as [tolist] and [json.load] yield them. *)
Inductive value : Type :=
| VNone
| VBool (b : bool)
| VInt (z : Z)
| VFloat (x : float)
| VStr (s : string)
| VList (l : list value)
| VDict (d : list (string * value)).

(** The exceptions a callee can raise.  [except Exception] catches the
    subclasses of [Exception]; [KeyboardInterrupt], [SystemExit] and
    [GeneratorExit] derive from [BaseException] only. *)
Inductive exc : Type :=
| KeyboardInterrupt
| SystemExit
| GeneratorExit
| StdException (cls msg : string)
| OutOfModel (what : string).

Definition isinstance_Exception (e : exc) : bool :=
  match e with
  | StdException _ _ => true
  | _ => false
  end.

End Py.


(* ------------------------------------------------------------------ *)
(** ** Matrices, metric descriptors and callables *)

(** One row of a matrix handed to a metric. *)
Inductive row_value : Type :=
| Indicator (bits : list bool)     (* a row of [label_mlb.transform] *)
| Floats (xs : list float)         (* [np.array(item, dtype=np.float64)] *)
| Tokens (ts : list string)        (* a cell after [str.split()] *)
| Raw (s : string)                 (* a cell of [.values], unparsed *)
| NaN.                             (* a null cell *)

Definition matrix : Type := list row_value.

(** What a keyword argument of a metric call holds: a value from the
    descriptor's [default_args], or one of the five objects the data
    parameters bind, named after the variable it comes from. *)
Inductive arg_value : Type :=
| Default (v : Py.value)
| TruthLabels (m : matrix)         (* [truth_labels_matrix] *)
| TruthBounds (m : matrix)         (* [truth_df['bounds'].values] *)
| PredictionLabels (m : matrix)    (* [results_labels_matrix] *)
| PredictionScores (m : matrix)    (* [confidence_matrix] *)
| PredictionBounds (m : matrix).   (* [results_df['bounds'].values] *)

(** What a metric callable returns, by the four cases the normaliser
    tells apart. *)
Inductive raw_result : Type :=
| NdArray (tolist : list Py.value)   (* [numpy.ndarray], one dimension or more *)
| NpGeneric (asscalar : Py.value)    (* a numpy scalar *)
| Sequence (items : list Py.value)   (* [tuple] or [list] *)
| Native (v : Py.value).

Inductive call_outcome : Type :=
| Returns (r : raw_result)
| Raises (e : Py.exc).

Definition callable : Type := Py.dict arg_value -> call_outcome.

(** A module object: [hasattr]/[getattr] by attribute name. *)
Definition module : Type := string -> option callable.

Record DataParameters : Type := {
  truth_labels : option string;
  truth_bounds : option string;
  prediction_labels : option string;
  prediction_scores : option string;
  prediction_bounds : option string }.

Record Metric : Type := {
  package : string;
  method : string;
  default_args : option (Py.dict arg_value);
  data_parameters : DataParameters }.

(** An entry of metrics.json, and [utils.deserialize_model(_, Metric)]
    on it. *)
Record MetricDict : Type := {
  json_package : string;
  json_method : string;
  json_default_args : option (Py.dict Py.value);
  json_data_parameters : DataParameters }.

Definition deserialize_model (metric_dict : MetricDict) : Metric :=
  {| package := json_package metric_dict;
     method := json_method metric_dict;
     default_args :=
       option_map (map (fun kv => (fst kv, Default (snd kv))))
         (json_default_args metric_dict);
     data_parameters := json_data_parameters metric_dict |}.

(* ------------------------------------------------------------------ *)
(** ** Effects: an event trace and exceptions *)

Inductive level : Type := INFO | DEBUG | WARN | ERROR.

Inductive event : Type :=
| Log (lvl : level) (msg : string)
| LogException (msg : string) (e : Py.exc)   (* [logging.error(.., exc_info=True)] *)
| LogResult (r : raw_result)                 (* ["Result is " + str(evalResult)] *)
| Call (package method : string) (args : Py.dict arg_value) (o : call_outcome)
                                             (* the call of line 213 and how it ended *)
| OpenRead (path : string)
| WriteFile (path : string) (eval_dict : Py.dict Py.value).

Inductive result (A : Type) : Type :=
| Ok (a : A)
| Raised (e : Py.exc).
Arguments Ok {A} a.
Arguments Raised {A} e.

(** A computation: the events it performed, in order, and how it ended. *)
Definition M (A : Type) : Type := (list event * result A)%type.

Definition ret {A} (a : A) : M A := ([], Ok a).
Definition raise {A} (e : Py.exc) : M A := ([], Raised e).
Definition emit (ev : event) : M unit := ([ev], Ok tt).

Definition bind {A B} (c : M A) (k : A -> M B) : M B :=
  match c with
  | (t, Ok a) => let (t', r) := k a in ((t ++ t')%list, r)
  | (t, Raised e) => (t, Raised e)
  end.

Notation "x <- c ;; k" := (bind c (fun x => k))
  (at level 61, c at next level, right associativity).
Notation "c ;;; k" := (bind c (fun _ => k))
  (at level 61, right associativity).

Definition trace {A} (c : M A) : list event := fst c.
Definition outcome {A} (c : M A) : result A := snd c.

(** What the run reads from outside: the CSV files as [csv.reader] yields
    them together with the sniffer's verdict on a header ([None] for a
    file that cannot be opened or sniffed), the two configuration
    resources next to the source file ([None] when missing or
    malformed), the importable packages, the clock ([int(time.time())]),
    and numpy's string-to-float conversion. *)
Record World : Type := {
  csv_files : string -> option (bool * list (list string));
  defaults_json : option (Py.dict (list string));
  metrics_json : option (list MetricDict);
  import_module : string -> option module;
  time_time : Z;
  np_float64 : string -> option float }.

(* ------------------------------------------------------------------ *)
(** ** The format guard (lines 44-47) *)

Definition unsupported_msg (eval_input_format : string) : string :=
  "EvaluationInputFormat " ++ eval_input_format ++
  " is not supported by this Metric Evaluator, only 'predictions' are supported".

Definition check_format (eval_input_format : string) : M unit :=
  if negb (Py.str_in eval_input_format "predictions") then
    emit (Log ERROR (unsupported_msg eval_input_format)) ;;;
    raise (Py.StdException "Exception" (unsupported_msg eval_input_format))
  else ret tt.

(* ------------------------------------------------------------------ *)
(** ** Tabular ingestion (lines 49-94) *)

(** A data frame built from CSV rows: [width] is the number of columns
    the data supplied (the longest row); cells beyond a row's end are
    null.  [columns] names the positions. *)
Record DataFrame : Type := {
  columns : list string;
  width : nat;
  rows : list (list string) }.

Definition pandas_DataFrame (possible_cols : list string)
    (data : list (list string)) : DataFrame :=
  {| columns := possible_cols;
     width := fold_right (fun r n => Nat.max (length r) n) 0 data;
     rows := data |}.

Fixpoint position (name : string) (cols : list string) : nat :=
  match cols with
  | [] => 0
  | c :: cols' => if String.eqb name c then 0 else S (position name cols')
  end.

Definition cell (df : DataFrame) (name : string) (r : list string) : option string :=
  nth_error r (position name (columns df)).

(** [df[name]] as the list of its cells. *)
Definition series (df : DataFrame) (name : string) : list (option string) :=
  map (cell df name) (rows df).

(** [df[name].dtype == 'object']: the column came from the file; a
    column created by [df[name] = np.nan] is float64. *)
Definition dtype_object (df : DataFrame) (name : string) : bool :=
  (position name (columns df) <? width df)%nat.

Definition isnull (c : option string) : bool :=
  match c with None => true | Some _ => false end.

Definition hasnans (df : DataFrame) (name : string) : bool :=
  existsb isnull (series df name).

Definition results_cols : list string := ["rowid"; "labels"; "confidence"; "bounds"].
Definition truth_cols : list string := ["rowid"; "labels"; "bounds"].

(** Lines 55-62: the rows after the header, if the sniffer saw one. *)
Definition csv_rows (has_header : bool) (lines : list (list string))
    : M (list (list string)) :=
  if has_header
  then match lines with
       | [] => raise (Py.StdException "StopIteration" "")
       | _ :: rest => ret rest
       end
  else ret lines.

Definition read_table (w : World) (what path : string)
    (possible_cols : list string) : M DataFrame :=
  emit (Log INFO ("Reading " ++ what ++ " from " ++ path)) ;;;
  emit (OpenRead path) ;;;
  match csv_files w path with
  | None => raise (Py.StdException "OSError" path)
  | Some (has_header, lines) =>
      data <- csv_rows has_header lines ;;
      ret (pandas_DataFrame possible_cols data)
  end.

(* ------------------------------------------------------------------ *)
(** ** Reconciliation (lines 96-101) *)

Definition cell_eqb (a b : option string) : bool :=
  match a, b with
  | Some x, Some y => String.eqb x y
  | None, None => true
  | _, _ => false
  end.

(** [Series.isin]: the cell, as it is, occurs among the values.  A
    string is compared as a string.  A null cell is [None] in a textual
    column and the float NaN in a column the file did not supply; a null
    is found among the values only when these hold a null of its kind. *)
Definition isin (same_null : bool) (c : option string) (values : list (option string))
    : bool :=
  match c with
  | Some _ => existsb (cell_eqb c) values
  | None => same_null && existsb isnull values
  end.

Definition rowid_matches (truth_df results_df : DataFrame) (r : list string) : bool :=
  isin (Bool.eqb (dtype_object truth_df "rowid") (dtype_object results_df "rowid"))
    (cell truth_df "rowid" r) (series results_df "rowid").

(** [truth_df.loc[truth_df['rowid'].isin(results_df['rowid'])]] *)
Definition match_truth (truth_df results_df : DataFrame) : DataFrame :=
  {| columns := columns truth_df;
     width := width truth_df;
     rows := filter (rowid_matches truth_df results_df) (rows truth_df) |}.

(** The order [sort_values] puts the keys in: strings ascending, nulls
    last. *)
Definition key_leb (a b : option string) : bool :=
  match a, b with
  | Some x, Some y => String.leb x y
  | Some _, None => true
  | None, Some _ => false
  | None, None => true
  end.

Section Sorting.
Context {A : Type} (key : A -> option string).

Fixpoint insert_row (x : A) (l : list A) : list A :=
  match l with
  | [] => [x]
  | y :: l' => if key_leb (key x) (key y) then x :: y :: l'
               else y :: insert_row x l'
  end.

Definition sort_rows (l : list A) : list A := fold_right insert_row [] l.

(** Ascending by key. *)
Definition by_key (x y : A) : Prop := key_leb (key x) (key y) = true.
End Sorting.

(** [df.sort_values(by=name, inplace=True)].  Rows with equal keys keep
    their order here; pandas leaves their order unspecified. *)
Definition sort_values (df : DataFrame) (by_ : string) : DataFrame :=
  {| columns := columns df;
     width := width df;
     rows := sort_rows (cell df by_) (rows df) |}.

Definition reconcile (truth_df results_df : DataFrame) : DataFrame * DataFrame :=
  (sort_values (match_truth truth_df results_df) "rowid",
   sort_values results_df "rowid").

(* ------------------------------------------------------------------ *)
(** ** Matrix construction (lines 103-158) *)

Definition is_classification (eval_type : string) : bool :=
  String.eqb eval_type "MultilabelClassification" ||
  String.eqb eval_type "MulticlassClassification".

(** The shape numpy gives a parsed column when it makes an array of it:
    two-dimensional when there is a first row and every row is a token
    list of its length, one-dimensional (an array of row objects, or the
    empty array) otherwise. *)
Inductive shape : Type :=
| OneDim
| TwoDim (width : nat).

Definition tolist_shape (y : list (option (list string))) : shape :=
  match y with
  | Some r :: y' =>
      if forallb (fun o => match o with
                           | Some r' => (length r' =? length r)%nat
                           | None => false
                           end) y'
      then TwoDim (length r)
      else OneDim
  | _ => OneDim
  end.

(** [df[name].str.split().values.tolist()] for a textual column: a null
    cell stays null.  A column that is not textual is all null and is
    turned into a column vector, of shape (0, 1) when the frame is
    empty; with rows, its NaN labels are outside the model. *)
Definition parsed_column (df : DataFrame) (name : string)
    : M (shape * list (option (list string))) :=
  if dtype_object df name
  then let y := map (option_map Py.split) (series df name) in ret (tolist_shape y, y)
  else match rows df with
       | [] => ret (TwoDim 1, [])
       | _ :: _ => raise (Py.OutOfModel ("numeric column " ++ name))
       end.

(** [np.append(a, b, axis=0)]: the rows of [a] followed by those of [b],
    for two arrays of the same number of dimensions and, when
    two-dimensional, of the same width (rows of unequal lengths make a
    one-dimensional array of lists, as numpy did before 1.24). *)
Definition np_append_axis0 (a b : shape * list (option (list string)))
    : M (list (option (list string))) :=
  match fst a, fst b with
  | OneDim, OneDim => ret (snd a ++ snd b)%list
  | TwoDim k, TwoDim k' =>
      if (k =? k')%nat then ret (snd a ++ snd b)%list
      else raise (Py.StdException "ValueError"
                    "all the input array dimensions except for the concatenation axis must match exactly")
  | _, _ => raise (Py.StdException "ValueError"
                     "all the input arrays must have same number of dimensions")
  end.

(** Iterating the rows as token lists; a null row is a float and is not
    iterable. *)
Fixpoint iterable_rows (y : list (option (list string))) : M (list (list string)) :=
  match y with
  | [] => ret []
  | None :: _ => raise (Py.StdException "TypeError" "'float' object is not iterable")
  | Some row :: y' => rest <- iterable_rows y' ;; ret (row :: rest)
  end.

(** [sorted(set(tokens))], the vocabulary [MultiLabelBinarizer.fit]
    stores in [classes_]. *)
Fixpoint insert_label (x : string) (l : list string) : list string :=
  match l with
  | [] => [x]
  | y :: l' =>
      match String.compare x y with
      | Lt => x :: y :: l'
      | Eq => y :: l'
      | Gt => y :: insert_label x l'
      end
  end.

Definition sorted_set (tokens : list string) : list string :=
  fold_right insert_label [] tokens.

Definition mlb_fit (y : list (list string)) : list string :=
  sorted_set (concat y).

(** [MultiLabelBinarizer.transform]: one indicator row per record, one
    column per class. *)
Definition mlb_transform (classes : list string) (y : list (list string)) : matrix :=
  map (fun row => Indicator (map (fun c => existsb (String.eqb c) row) classes)) y.

(** [l.index(x)] *)
Fixpoint list_index (x : string) (l : list string) : option nat :=
  match l with
  | [] => None
  | y :: l' => if String.eqb x y then Some 0
               else option_map S (list_index x l')
  end.

(** [a[n] = v] for [n] within bounds. *)
Fixpoint set_nth {A} (n : nat) (v : A) (a : list A) : list A :=
  match a, n with
  | [], _ => []
  | _ :: a', 0 => v :: a'
  | x :: a', S n' => x :: set_nth n' v a'
  end.

(** What [label_classes.index(col)] raises when [col] is not in the list:
    ValueError with the message [repr(col) + " is not in list"]. *)
Definition not_in_list (col : string) : Py.exc :=
  Py.StdException "ValueError" ("'" ++ col ++ "' is not in list").

Definition is_not_in_list (e : Py.exc) : bool :=
  match e with
  | Py.StdException cls (String c _) => String.eqb cls "ValueError" && Ascii.eqb c "'"
  | _ => false
  end.

(** Lines 124-126: the inner loop over one row's label tokens; [confs]
    is [parsed_confidence[row_index]]. *)
Fixpoint fill_confidence_row (w : World) (label_classes confs row : list string)
    (col_index : nat) (confidence_row : list float) : M (list float) :=
  match row with
  | [] => ret confidence_row
  | col :: row' =>
      match list_index col label_classes with
      | None => raise (not_in_list col)
      | Some label_pos =>
          match nth_error confs col_index with
          | None => raise (Py.StdException "IndexError" "list index out of range")
          | Some tok =>
              match np_float64 w tok with
              | None => raise (Py.StdException "ValueError"
                                 ("could not convert string to float: " ++ tok))
              | Some x =>
                  fill_confidence_row w label_classes confs row' (S col_index)
                    (set_nth label_pos x confidence_row)
              end
          end
      end
  end.

(** Lines 120-127: the outer loop; row [row_index] of the labels meets
    row [row_index] of the confidences. *)
Fixpoint build_confidence (w : World) (label_classes : list string)
    (parsed_results_labels parsed_confidence : list (list string)) : M matrix :=
  match parsed_results_labels with
  | [] => ret []
  | row :: labels' =>
      match parsed_confidence with
      | [] => raise (Py.StdException "IndexError" "list index out of range")
      | confs :: confidence' =>
          confidence_row <- fill_confidence_row w label_classes confs row 0
                              (repeat 0%float (length label_classes)) ;;
          rest <- build_confidence w label_classes labels' confidence' ;;
          ret (Floats confidence_row :: rest)
      end
  end.

(** [np.array(item, dtype=np.float64)] on a list of tokens. *)
Fixpoint float_tokens (w : World) (ts : list string) : M (list float) :=
  match ts with
  | [] => ret []
  | tok :: ts' =>
      match np_float64 w tok with
      | None => raise (Py.StdException "ValueError"
                         ("could not convert string to float: " ++ tok))
      | Some x => rest <- float_tokens w ts' ;; ret (x :: rest)
      end
  end.

Fixpoint float_rows (w : World) (cells : list (option string)) : M matrix :=
  match cells with
  | [] => ret []
  | None :: cells' => rest <- float_rows w cells' ;; ret (NaN :: rest)
  | Some s :: cells' =>
      xs <- float_tokens w (Py.split s) ;;
      rest <- float_rows w cells' ;;
      ret (Floats xs :: rest)
  end.

(** [df[name].values]: the cells as they are. *)
Definition values (df : DataFrame) (name : string) : matrix :=
  map (fun c => match c with Some s => Raw s | None => NaN end) (series df name).

(** The regression branch for one column (lines 129-148). *)
Definition regression_column (w : World) (df : DataFrame) (name : string) : M matrix :=
  if dtype_object df name then float_rows w (series df name)
  else ret (values df name).

(** The default branch for one column (lines 150-158). *)
Definition token_column (df : DataFrame) (name : string) : matrix :=
  if dtype_object df name
  then map (fun c => match c with Some s => Tokens (Py.split s) | None => NaN end)
         (series df name)
  else values df name.

Definition has_column (df : DataFrame) (name : string) : bool :=
  existsb (String.eqb name) (columns df).

(** The variables the branches leave behind.  [confidence_matrix] is
    unassigned when the classification branch skips it; [label_classes]
    is [label_mlb.classes_.tolist()], fitted in the classification
    branch only. *)
Record Matrices : Type := {
  truth_labels_matrix : matrix;
  results_labels_matrix : matrix;
  confidence_matrix : option matrix;
  label_classes : list string }.

Definition build_matrices (w : World) (eval_type : string)
    (truth_df results_df : DataFrame) : M Matrices :=
  if is_classification eval_type then
    parsed_truth <- parsed_column truth_df "labels" ;;
    parsed_results <- parsed_column results_df "labels" ;;
    appended <- np_append_axis0 parsed_truth parsed_results ;;
    y <- iterable_rows appended ;;
    let classes := mlb_fit y in
    parsed_truth_labels <- iterable_rows (snd parsed_truth) ;;
    parsed_results_labels <- iterable_rows (snd parsed_results) ;;
    confidence <-
      (if has_column results_df "confidence" && negb (hasnans results_df "confidence")
       then
         parsed <- parsed_column results_df "confidence" ;;
         parsed_confidence <- iterable_rows (snd parsed) ;;
         cm <- build_confidence w classes parsed_results_labels parsed_confidence ;;
         ret (Some cm)
       else ret None) ;;
    ret {| truth_labels_matrix := mlb_transform classes parsed_truth_labels;
           results_labels_matrix := mlb_transform classes parsed_results_labels;
           confidence_matrix := confidence;
           label_classes := classes |}
  else if String.eqb eval_type "Regression" then
    t <- regression_column w truth_df "labels" ;;
    r <- regression_column w results_df "labels" ;;
    c <- regression_column w results_df "confidence" ;;
    ret {| truth_labels_matrix := t;
           results_labels_matrix := r;
           confidence_matrix := Some c;
           label_classes := [] |}
  else
    ret {| truth_labels_matrix := token_column truth_df "labels";
           results_labels_matrix := token_column results_df "labels";
           confidence_matrix := Some (token_column results_df "confidence");
           label_classes := [] |}.

(* ------------------------------------------------------------------ *)
(** ** Metric registry (lines 160-177) *)

Definition metric_key (m : Metric) : string := package m ++ "." ++ method m.

(** [metric_objects]: the catalog keyed by [package.method]; a later
    entry with the same key replaces the earlier one.  The dictionary is
    also the store of the descriptor objects: a metric in [metrics_list]
    is a reference to one of them, written as its key. *)
Definition load_metric_objects (metric_dict_list : list MetricDict) : Py.dict Metric :=
  fold_left (fun d metric_dict =>
               let metric_object := deserialize_model metric_dict in
               Py.set d (metric_key metric_object) metric_object)
    metric_dict_list [].

Definition select_metrics (default_metrics : Py.dict (list string))
    (eval_type : string) (metric_objects : Py.dict Metric) : list string :=
  filter (Py.mem metric_objects)
    (match Py.get default_metrics eval_type with
     | Some names => names
     | None => []
     end).

Definition load_config (w : World) : M (Py.dict (list string) * list MetricDict) :=
  emit (OpenRead "defaults.json") ;;;
  match defaults_json w with
  | None => raise (Py.StdException "OSError" "defaults.json")
  | Some default_metrics =>
      emit (OpenRead "metrics.json") ;;;
      match metrics_json w with
      | None => raise (Py.StdException "OSError" "metrics.json")
      | Some metric_dict_list => ret (default_metrics, metric_dict_list)
      end
  end.

(* ------------------------------------------------------------------ *)
(** ** Dispatch (lines 179-246) *)

(** The tables and matrices the loop reads. *)
Record Data : Type := {
  truth_df : DataFrame;
  results_df : DataFrame;
  matrices : Matrices }.

(** The objects the loop updates: the result mapping, the module cache
    and the descriptor objects. *)
Record State : Type := {
  eval_dict : Py.dict Py.value;
  modules_cache : Py.dict module;
  metric_objects : Py.dict Metric }.

(** A module object is truthy. *)
Definition module_truthy (m : module) : bool := true.

(** Lines 181-190.  [None] is the [continue] of line 187. *)
Definition resolve_module (w : World) (metric : Metric) (st : State)
    : M (option (module * State)) :=
  match Py.get (modules_cache st) (package metric) with
  | None =>
      match import_module w (package metric) with
      | None => raise (Py.StdException "ModuleNotFoundError"
                         ("No module named '" ++ package metric ++ "'"))
      | Some module =>
          if module_truthy module then
            ret (Some (module,
                       {| eval_dict := eval_dict st;
                          modules_cache := Py.set (modules_cache st) (package metric) module;
                          metric_objects := metric_objects st |}))
          else
            emit (Log WARN ("Cannot load " ++ package metric)) ;;;
            ret None
      end
  | Some module =>
      emit (Log DEBUG "Loading cached module") ;;;
      ret (Some (module, st))
  end.

(** [if param and available: args[param] = v] *)
Definition bind_arg (param : option string) (available : bool) (v : arg_value)
    (args : Py.dict arg_value) : Py.dict arg_value :=
  match Py.truthy_str param with
  | Some name => if available then Py.set args name v else args
  | None => args
  end.

(** Lines 197-210 on the dictionary [args]. *)
Definition bind_data (dt : Data) (dp : DataParameters) (args : Py.dict arg_value)
    : M (Py.dict arg_value) :=
  let args := bind_arg (truth_labels dp) true
                (TruthLabels (truth_labels_matrix (matrices dt))) args in
  let args := bind_arg (truth_bounds dp) (negb (hasnans (truth_df dt) "bounds"))
                (TruthBounds (values (truth_df dt) "bounds")) args in
  let args := bind_arg (prediction_labels dp) true
                (PredictionLabels (results_labels_matrix (matrices dt))) args in
  args <-
    (match Py.truthy_str (prediction_scores dp) with
     | Some name =>
         if has_column (results_df dt) "confidence" &&
            negb (hasnans (results_df dt) "confidence")
         then match confidence_matrix (matrices dt) with
              | Some cm => ret (Py.set args name (PredictionScores cm))
              | None => raise (Py.StdException "UnboundLocalError" "confidence_matrix")
              end
         else ret args
     | None => ret args
     end) ;;
  ret (bind_arg (prediction_bounds dp) (negb (hasnans (results_df dt) "bounds"))
         (PredictionBounds (values (results_df dt) "bounds")) args).

(** Line 196, [args = metric.default_args or {}]: a non-empty
    [default_args] is used as it is, so [args] is the descriptor's own
    dictionary; otherwise [args] is a new empty one. *)
Definition args_aliased (metric : Metric) : bool :=
  match default_args metric with
  | Some d => Py.truthy_dict d
  | None => false
  end.

Definition initial_args (metric : Metric) : Py.dict arg_value :=
  match default_args metric with
  | Some d => if Py.truthy_dict d then d else []
  | None => []
  end.

(** The descriptor object after the assignments into [args]. *)
Definition store_args (ref : string) (metric : Metric) (args : Py.dict arg_value)
    (st : State) : State :=
  if args_aliased metric then
    {| eval_dict := eval_dict st;
       modules_cache := modules_cache st;
       metric_objects :=
         Py.set (metric_objects st) ref
           {| package := package metric;
              method := method metric;
              default_args := Some args;
              data_parameters := data_parameters metric |} |}
  else st.

(** Lines 224-227: the mapping from label to value. *)
Definition label_dict (label_classes : list string) (evalResultAsList : list Py.value)
    : Py.dict Py.value :=
  fold_left (fun d lv => Py.set d (fst lv) (snd lv))
    (combine label_classes evalResultAsList) [].

(** Lines 218-242: the value stored under the metric's method name. *)
Definition normalize (eval_type : string) (label_classes : list string)
    (evalResult : raw_result) : Py.value :=
  match evalResult with
  | NdArray evalResultAsList =>
      if is_classification eval_type then
        if (length evalResultAsList =? length label_classes)%nat
        then Py.VDict (label_dict label_classes evalResultAsList)
        else Py.VList evalResultAsList
      else Py.VList evalResultAsList
  | NpGeneric evalResultAsScalar => evalResultAsScalar
  | Sequence items => Py.VList items
  | Native v => v
  end.

Definition set_eval_dict (st : State) (k : string) (v : Py.value) : State :=
  {| eval_dict := Py.set (eval_dict st) k v;
     modules_cache := modules_cache st;
     metric_objects := metric_objects st |}.

(** Lines 192-244 once the module is at hand. *)
Definition call_metric (eval_type : string) (dt : Data) (ref : string)
    (metric : Metric) (module : module) (st : State) : M State :=
  match module (method metric) with
  | Some method_ =>
      emit (Log DEBUG ("Calling " ++ method metric ++ " in " ++ package metric)) ;;;
      args <- bind_data dt (data_parameters metric) (initial_args metric) ;;
      let st := store_args ref metric args st in
      emit (Call (package metric) (method metric) args (method_ args)) ;;;
      match method_ args with
      | Raises e =>
          if Py.isinstance_Exception e then
            emit (LogException ("Something bad happened calling " ++ method metric) e) ;;;
            ret st
          else raise e
      | Returns evalResult =>
          emit (LogResult evalResult) ;;;
          ret (set_eval_dict st (method metric)
                 (normalize eval_type (label_classes (matrices dt)) evalResult))
      end
  | None =>
      emit (Log WARN (method metric ++ " does not exist in " ++ package metric)) ;;;
      ret st
  end.

(** One iteration of the loop of line 179. *)
Definition process_metric (w : World) (eval_type : string) (dt : Data)
    (counter : nat) (ref : string) (st : State) : M State :=
  match Py.get (metric_objects st) ref with
  | None => raise (Py.OutOfModel ("no metric object " ++ ref))
  | Some metric =>
      emit (Log INFO (package metric ++ " : " ++ method metric)) ;;;
      resolved <- resolve_module w metric st ;;
      match resolved with
      | None => ret st
      | Some (module, st) =>
          st <- call_metric eval_type dt ref metric module st ;;
          emit (Log INFO ("Completed metric " ++ Py.str_of_nat (counter + 1))) ;;;
          ret st
      end
  end.

Fixpoint run_metrics (w : World) (eval_type : string) (dt : Data)
    (counter : nat) (metrics_list : list string) (st : State) : M State :=
  match metrics_list with
  | [] => ret st
  | ref :: rest =>
      st <- process_metric w eval_type dt counter ref st ;;
      run_metrics w eval_type dt (S counter) rest st
  end.

(* ------------------------------------------------------------------ *)
(** ** The report (lines 248-252) and the whole function *)

Definition report_filename (w : World) (evaluation_path : string) : string :=
  evaluation_path ++ "/eval_results_" ++ Py.str_of_Z (time_time w) ++ ".json".

Definition write_report (w : World) (evaluation_path : string) (st : State) : M unit :=
  emit (Log INFO ("Writing eval results to " ++ report_filename w evaluation_path)) ;;;
  emit (WriteFile (report_filename w evaluation_path) (eval_dict st)).

(** Lines 48-177: ingestion, reconciliation, matrices and configuration. *)
Definition prepare (w : World) (eval_type eval_input_path ground_truth_path : string)
    : M (Data * list string * State) :=
  results <- read_table w "results"
               (Py.path_join eval_input_path "predictions.csv") results_cols ;;
  truth <- read_table w "ground truth"
             (Py.path_join ground_truth_path "ground_truth.csv") truth_cols ;;
  let truth_sorted := fst (reconcile truth results) in
  let results_sorted := snd (reconcile truth results) in
  mx <- build_matrices w eval_type truth_sorted results_sorted ;;
  cfg <- load_config w ;;
  let objects := load_metric_objects (snd cfg) in
  ret ({| truth_df := truth_sorted; results_df := results_sorted; matrices := mx |},
       select_metrics (fst cfg) eval_type objects,
       {| eval_dict := []; modules_cache := []; metric_objects := objects |}).

(** The function.  It returns nothing; the final state is given back so
    that its effect on the objects it owned can be stated. *)
Definition perform_assessment (w : World)
    (eval_type eval_input_path eval_input_format ground_truth_path evaluation_path : string)
    : M State :=
  check_format eval_input_format ;;;
  p <- prepare w eval_type eval_input_path ground_truth_path ;;
  let '(dt, metrics_list, st0) := p in
  st <- run_metrics w eval_type dt 0 metrics_list st0 ;;
  write_report w evaluation_path st ;;;
  ret st.

(* ------------------------------------------------------------------ *)
(** ** Reading a trace *)

Definition is_write (ev : event) : bool :=
  match ev with WriteFile _ _ => true | _ => false end.

Definition is_file_access (ev : event) : bool :=
  match ev with OpenRead _ | WriteFile _ _ => true | _ => false end.

Definition is_call (ev : event) : bool :=
  match ev with Call _ _ _ _ => true | _ => false end.

(** The event is a call of a method named [meth] that returned. *)
Definition returned (meth : string) (ev : event) : bool :=
  match ev with
  | Call _ m _ (Returns _) => String.eqb m meth
  | _ => false
  end.

(** The event is a call of a method named [meth]. *)
Definition called (pkg meth : string) (ev : event) : bool :=
  match ev with
  | Call p m _ _ => String.eqb p pkg && String.eqb m meth
  | _ => false
  end.

(** What the last call of a method named [meth] that returned gave
    back, if there was one. *)
Fixpoint last_return (meth : string) (t : list event) : option raw_result :=
  match t with
  | [] => None
  | ev :: t' =>
      match last_return meth t' with
      | Some r => Some r
      | None =>
          match ev with
          | Call _ m _ (Returns r) => if String.eqb m meth then Some r else None
          | _ => None
          end
      end
  end.

(** The computation does not end in the error of a failed vocabulary
    lookup. *)
Definition lookup_safe {A} (c : M A) : Prop :=
  forall e, outcome c = Raised e -> is_not_in_list e = false.

(** Token [tok] stands at position [k] of the row and nowhere after. *)
Definition last_occurrence (row : list string) (k : nat) (tok : string) : Prop :=
  nth_error row k = Some tok /\
  forall k', k < k' -> nth_error row k' <> Some tok.

(** The confidence row [xs] holds, in the column of the [k]-th label
    token, the [k]-th confidence token as a number, for every [k]. *)
Definition positionally_aligned (w : World) (label_classes labels confs : list string)
    (xs : list float) : Prop :=
  forall k tok conf,
    nth_error labels k = Some tok ->
    nth_error confs k = Some conf ->
    exists pos x,
      list_index tok label_classes = Some pos /\
      np_float64 w conf = Some x /\
      nth_error xs pos = Some x.

(** The computation calls no metric. *)
Definition no_calls {A} (c : M A) : Prop := existsb is_call (trace c) = false.

(** Every exception a call raised in the trace is an [Exception]. *)
Definition raises_only_Exception (ev : event) : bool :=
  match ev with
  | Call _ _ _ (Raises e) => Py.isinstance_Exception e
  | _ => true
  end.

(** No argument of the call holds the confidence matrix. *)
Definition binds_scores (v : arg_value) : bool :=
  match v with PredictionScores _ => true | _ => false end.

Definition scores_free (args : Py.dict arg_value) : bool :=
  forallb (fun kv => negb (binds_scores (snd kv))) args.

Definition call_without_scores (ev : event) : bool :=
  match ev with
  | Call _ _ args _ => scores_free args
  | _ => true
  end.

(** The package of the referenced descriptor can be imported. *)
Definition importable (w : World) (objects : Py.dict Metric) (ref : string) : bool :=
  match Py.get objects ref with
  | Some metric =>
      match import_module w (package metric) with
      | Some _ => true
      | None => false
      end
  | None => false
  end.

(* ------------------------------------------------------------------ *)
(** ** Invariants of the dispatch loop *)

(** The parts of a descriptor the loop never assigns. *)
Definition descriptor (m : Metric) : string * string * DataParameters :=
  (package m, method m, data_parameters m).

Definition same_descriptors (objects objects' : Py.dict Metric) : Prop :=
  forall ref, option_map descriptor (Py.get objects' ref) =
              option_map descriptor (Py.get objects ref).

(** A cached module is the one importing its package gives. *)
Definition cache_sound (w : World) (st : State) : Prop :=
  forall pkg m, Py.get (modules_cache st) pkg = Some m -> import_module w pkg = Some m.

(** [confidence_matrix] is assigned whenever line 206 can read it. *)
Definition confidence_ready (dt : Data) : Prop :=
  has_column (results_df dt) "confidence" &&
  negb (hasnans (results_df dt) "confidence") = true ->
  confidence_matrix (matrices dt) <> None.

(** No descriptor holds the confidence matrix among its [default_args]. *)
Definition metric_scores_free (m : Metric) : Prop :=
  match default_args m with
  | Some d => scores_free d = true
  | None => True
  end.

Definition store_scores_free (objects : Py.dict Metric) : Prop :=
  Forall (fun kv => metric_scores_free (snd kv)) objects.

(* ------------------------------------------------------------------ *)
(** ** Example worlds

    Small runs used to exercise the definitions: a multilabel task over
    the labels [a], [b] and [c] with two labels in every row, a catalog of six metrics in three packages
    (one of which cannot be imported), and callables that return, raise
    an [Exception], or are interrupted. *)

Module Examples.

Definition parse_float (tok : string) : option float :=
  if tok =? "0.125" then Some 0.125%float
  else if tok =? "0.25" then Some 0.25%float
  else if tok =? "0.5" then Some 0.5%float
  else if tok =? "0.75" then Some 0.75%float
  else if tok =? "1" then Some 1%float
  else None.

Definition predictions : list (list string) :=
  [["3"; "a b"; "0.5 0.25"]; ["1"; "b a"; "1 0.125"]; ["2"; "b c"; "0.75 0.5"]].

Definition predictions_missing_confidence : list (list string) :=
  [["3"; "a b"; "0.5 0.25"]; ["1"; "b a"]; ["2"; "b c"; "0.75 0.5"]].

Definition predictions_repeated_label : list (list string) :=
  [["1"; "a a"; "0.125 1"]].

Definition ground_truth : list (list string) :=
  [["2"; "b c"]; ["4"; "a c"]; ["1"; "a b"]; ["3"; "a c"]].

Definition labels_dp : DataParameters :=
  {| truth_labels := Some "y_true"; truth_bounds := None;
     prediction_labels := Some "y_pred"; prediction_scores := None;
     prediction_bounds := None |}.

Definition scores_dp : DataParameters :=
  {| truth_labels := Some "y_true"; truth_bounds := None;
     prediction_labels := None; prediction_scores := Some "y_score";
     prediction_bounds := None |}.

Definition entry (pkg meth : string) (defaults : option (Py.dict Py.value))
    (dp : DataParameters) : MetricDict :=
  {| json_package := pkg; json_method := meth;
     json_default_args := defaults; json_data_parameters := dp |}.

Definition catalog : list MetricDict :=
  [ entry "sklearn.metrics" "accuracy_score" (Some [("normalize", Py.VBool true)]) labels_dp;
    entry "sklearn.metrics" "hamming_loss" None labels_dp;
    entry "sklearn.metrics" "f1_score" (Some [("average", Py.VNone)]) labels_dp;
    entry "sklearn.metrics" "roc_auc_score" (Some []) scores_dp;
    entry "sklearn.metrics" "slow_score" None labels_dp;
    entry "other.metrics" "accuracy_score" None labels_dp;
    entry "nopkg" "score" None labels_dp ].

Definition sklearn_metrics : module := fun name =>
  if name =? "accuracy_score" then
    Some (fun _ => Returns (NpGeneric (Py.VFloat 0.5)))
  else if name =? "hamming_loss" then
    Some (fun _ => Raises (Py.StdException "ValueError" "bad input shape"))
  else if name =? "f1_score" then
    Some (fun _ => Returns (NdArray [Py.VFloat 1; Py.VFloat 0.5; Py.VFloat 0.25]))
  else if name =? "roc_auc_score" then
    Some (fun args => if Py.mem args "y_score"
                      then Returns (NpGeneric (Py.VFloat 0.75))
                      else Raises (Py.StdException "TypeError" "missing y_score"))
  else if name =? "slow_score" then
    Some (fun _ => Raises Py.KeyboardInterrupt)
  else None.

Definition other_metrics : module := fun name =>
  if name =? "accuracy_score" then
    Some (fun _ => Returns (Native (Py.VFloat 0.25)))
  else None.

Definition imports (pkg : string) : option module :=
  if pkg =? "sklearn.metrics" then Some sklearn_metrics
  else if pkg =? "other.metrics" then Some other_metrics
  else None.

(** The world in which the predictions file holds [preds] and the
    default metric set of the multilabel type is [selected]. *)
Definition world (preds : list (list string)) (selected : list string) : World :=
  {| csv_files := fun path =>
       if path =? "in/predictions.csv" then Some (false, preds)
       else if path =? "gt/ground_truth.csv" then Some (false, ground_truth)
       else None;
     defaults_json := Some [("MultilabelClassification", selected)];
     metrics_json := Some catalog;
     import_module := imports;
     time_time := 1540000000;
     np_float64 := parse_float |}.

(** A loop state as line 160-171 leave it, and tables without rows. *)
Definition state0 : State :=
  {| eval_dict := []; modules_cache := [];
     metric_objects := load_metric_objects catalog |}.

Definition no_rows : Data :=
  {| truth_df := pandas_DataFrame truth_cols [];
     results_df := pandas_DataFrame results_cols [];
     matrices := {| truth_labels_matrix := []; results_labels_matrix := [];
                    confidence_matrix := Some []; label_classes := [] |} |}.

Definition run (preds : list (list string)) (selected : list string)
    (eval_input_format : string) : M State :=
  perform_assessment (world preds selected)
    "MultilabelClassification" "in" eval_input_format "gt" "out".

End Examples.

(* ------------------------------------------------------------------ *)
(** ** Further predicates on traces, arguments and tokens *)

(** The computation writes no file. *)
Definition no_writes {A} (c : M A) : Prop := existsb is_write (trace c) = false.

(** The argument is the [bounds] column of the predictions, or of the
    ground truth. *)
Definition binds_prediction_bounds (v : arg_value) : bool :=
  match v with PredictionBounds _ => true | _ => false end.

Definition binds_truth_bounds (v : arg_value) : bool :=
  match v with TruthBounds _ => true | _ => false end.

(** No value of the dictionary satisfies [p]. *)
Definition slot_free (p : arg_value -> bool) (args : Py.dict arg_value) : bool :=
  forallb (fun kv => negb (p (snd kv))) args.

Definition call_free (p : arg_value -> bool) (ev : event) : bool :=
  match ev with
  | Call _ _ args _ => slot_free p args
  | _ => true
  end.

Definition store_slot_free (p : arg_value -> bool) (objects : Py.dict Metric) : Prop :=
  Forall (fun kv => match default_args (snd kv) with
                    | Some d => slot_free p d = true
                    | None => True
                    end) objects.

(** The matrix row is the cell's tokens turned into floats, one by one;
    a null cell gives the NaN row. *)
Definition parsed_floats (w : World) (c : option string) (row : row_value) : Prop :=
  match c with
  | Some s => exists xs, row = Floats xs /\
                         Forall2 (fun tok x => np_float64 w tok = Some x) (Py.split s) xs
  | None => row = NaN
  end.

(** A token: not empty and without a blank character. *)
Definition is_word (tok : string) : Prop :=
  tok <> "" /\ Forall (fun c => Py.isspace c = false) (list_ascii_of_string tok).

(** The argument names the data parameters of a descriptor can assign. *)
Definition data_parameter_names (dp : DataParameters) : list string :=
  concat (map (fun p => match Py.truthy_str p with Some name => [name] | None => [] end)
            [truth_labels dp; truth_bounds dp; prediction_labels dp;
             prediction_scores dp; prediction_bounds dp]).

(* ------------------------------------------------------------------ *)
(** ** Further example worlds *)

Module Regression.

Definition predictions : list (list string) :=
  [["2"; "0.25 0.75"; "0.5 0.5"]; ["1"; "0.5"; "1"]].

Definition ground_truth : list (list string) :=
  [["1"; "0.5"]; ["2"; "0.25 1"]].

Definition mean_squared_error : callable :=
  fun _ => Returns (NpGeneric (Py.VFloat 0.125)).

Definition world (preds : list (list string)) : World :=
  {| csv_files := fun path =>
       if path =? "in/predictions.csv" then Some (true, ["rowid"; "labels"; "confidence"] :: preds)
       else if path =? "gt/ground_truth.csv" then Some (false, ground_truth)
       else None;
     defaults_json := Some [("Regression", ["sklearn.metrics.mean_squared_error"])];
     metrics_json :=
       Some [Examples.entry "sklearn.metrics" "mean_squared_error" None Examples.labels_dp];
     import_module := fun pkg =>
       if pkg =? "sklearn.metrics"
       then Some (fun name => if name =? "mean_squared_error"
                              then Some mean_squared_error else None)
       else None;
     time_time := 1540000000;
     np_float64 := Examples.parse_float |}.

End Regression.

Module Bounds.

(** Predictions with a bounds column that one row leaves out, and a
    descriptor that asks for both bounds columns. *)
Definition predictions : list (list string) :=
  [["1"; "a b"; "1 0.5"; "0 0 4 4"]; ["2"; "b c"; "0.5 0.25"]].

Definition ground_truth : list (list string) :=
  [["1"; "a b"; "0 0 5 5"]; ["2"; "b c"]].

Definition bounds_dp : DataParameters :=
  {| truth_labels := Some "y_true"; truth_bounds := Some "true_boxes";
     prediction_labels := Some "y_pred"; prediction_scores := Some "y_score";
     prediction_bounds := Some "pred_boxes" |}.

Definition iou : callable :=
  fun args => if Py.mem args "pred_boxes" && Py.mem args "true_boxes"
              then Returns (NpGeneric (Py.VFloat 0.5))
              else Raises (Py.StdException "TypeError" "missing boxes").

Definition world : World :=
  {| csv_files := fun path =>
       if path =? "in/predictions.csv" then Some (false, predictions)
       else if path =? "gt/ground_truth.csv" then Some (false, ground_truth)
       else None;
     defaults_json := Some [("MultilabelClassification", ["detect.metrics.iou"])];
     metrics_json :=
       Some [Examples.entry "detect.metrics" "iou" (Some [("threshold", Py.VFloat 0.5)]) bounds_dp];
     import_module := fun pkg =>
       if pkg =? "detect.metrics"
       then Some (fun name => if name =? "iou" then Some iou else None)
       else None;
     time_time := 1540000000;
     np_float64 := Examples.parse_float |}.

End Bounds.

(* ================================================================== *)
(** * Properties *)

(** The helpers on a few inputs. *)

Example split_tokens : Py.split "  a b   cd " = ["a"; "b"; "cd"].
Proof. reflexivity. Qed.

Example split_blank : Py.split "   " = [] /\ Py.split "" = [].
Proof. split; reflexivity. Qed.

Example str_in_substring :
  Py.str_in "pred" "predictions" = true /\
  Py.str_in "" "predictions" = true /\
  Py.str_in "predictions" "predictions" = true /\
  Py.str_in "json" "predictions" = false /\
  Py.str_in "predictions.csv" "predictions" = false.
Proof. repeat split; reflexivity. Qed.

Example str_of_numbers :
  Py.str_of_nat 12 = "12" /\ Py.str_of_Z 1540000000 = "1540000000".
Proof. split; reflexivity. Qed.

Example path_join_cases :
  Py.path_join "in" "predictions.csv" = "in/predictions.csv" /\
  Py.path_join "in/" "predictions.csv" = "in/predictions.csv" /\
  Py.path_join "" "predictions.csv" = "predictions.csv".
Proof. repeat split; reflexivity. Qed.

Example sort_nulls_last :
  sort_rows (fun r => nth_error r 0) [["9"]; []; ["10"]; ["2"; "x"]] =
  [["10"]; ["2"; "x"]; ["9"]; []].
Proof. reflexivity. Qed.

Example vocabulary_sorted_set :
  mlb_fit [["b"; "a"]; ["c"; "b"]] = ["a"; "b"; "c"].
Proof. reflexivity. Qed.

Example append_needs_equal_widths :
  outcome (np_append_axis0 (TwoDim 1, [Some ["a"]]) (OneDim, [Some ["a"]; Some ["a"; "b"]])) =
  Raised (Py.StdException "ValueError"
            "all the input arrays must have same number of dimensions").
Proof. reflexivity. Qed.

(* ------------------------------------------------------------------ *)
(** ** The order on identifiers and the sort *)

Lemma str_leb_iff (a b : string) :
  String.leb a b = true <-> a = b \/ String_as_OT.lt a b.
Proof.
  unfold String.leb.
  destruct (String.compare a b) eqn:E.
  - apply String_as_OT.cmp_eq in E. tauto.
  - apply String_as_OT.cmp_lt in E. tauto.
  - split; [discriminate|].
    intros [->|H].
    + assert (String.compare b b = Eq) by (apply String_as_OT.cmp_eq; reflexivity).
      congruence.
    + apply String_as_OT.cmp_lt in H. unfold String_as_OT.cmp in H. congruence.
Qed.

Lemma str_leb_trans (a b c : string) :
  String.leb a b = true -> String.leb b c = true -> String.leb a c = true.
Proof.
  rewrite !str_leb_iff.
  intros [->|Hab] [->|Hbc]; auto.
  right. eapply String_as_OT.lt_trans; eassumption.
Qed.

Lemma key_leb_trans (a b c : option string) :
  key_leb a b = true -> key_leb b c = true -> key_leb a c = true.
Proof.
  destruct a, b, c; simpl; try congruence.
  apply str_leb_trans.
Qed.

Lemma key_leb_total (a b : option string) :
  key_leb a b = true \/ key_leb b a = true.
Proof.
  destruct a, b; simpl; auto using String.leb_total.
Qed.

Section SortFacts.
Context {A : Type} (key : A -> option string).

Lemma insert_row_perm (x : A) (l : list A) :
  Permutation (x :: l) (insert_row key x l).
Proof.
  induction l as [|y l IH]; simpl; [reflexivity|].
  destruct (key_leb (key x) (key y)); [reflexivity|].
  rewrite perm_swap. now constructor.
Qed.

Lemma sort_rows_perm (l : list A) : Permutation l (sort_rows key l).
Proof.
  induction l as [|x l IH]; simpl; [constructor|].
  etransitivity; [|apply insert_row_perm]. now constructor.
Qed.

Lemma insert_row_sorted (x : A) (l : list A) :
  StronglySorted (by_key key) l -> StronglySorted (by_key key) (insert_row key x l).
Proof.
  induction 1 as [|y l Hs IH Hall]; simpl.
  - repeat constructor.
  - destruct (key_leb (key x) (key y)) eqn:E.
    + constructor; [now constructor|].
      constructor; [exact E|].
      eapply Forall_impl; [|exact Hall].
      intros z Hz. eapply key_leb_trans; eassumption.
    + constructor; [exact IH|].
      eapply Permutation_Forall; [apply insert_row_perm|].
      constructor; [|exact Hall].
      destruct (key_leb_total (key x) (key y)); [congruence|assumption].
Qed.

Lemma sort_rows_sorted (l : list A) : StronglySorted (by_key key) (sort_rows key l).
Proof.
  induction l; simpl; [constructor|now apply insert_row_sorted].
Qed.
End SortFacts.

Lemma cell_eqb_eq (a b : option string) : cell_eqb a b = true <-> a = b.
Proof.
  destruct a, b; simpl; try (split; congruence).
  rewrite String.eqb_eq. split; congruence.
Qed.

Lemma rowid_matches_string (truth_df results_df : DataFrame) (r : list string)
    (x : string) :
  cell truth_df "rowid" r = Some x ->
  rowid_matches truth_df results_df r = true <->
  In (Some x) (series results_df "rowid").
Proof.
  intros H. unfold rowid_matches, isin. rewrite H, existsb_exists. split.
  - intros (c & Hc & E). apply cell_eqb_eq in E. now subst.
  - intros Hin. exists (Some x). split; [assumption|]. now apply cell_eqb_eq.
Qed.

(** C3. Reconciliation keeps exactly the ground-truth rows whose rowid,
    the string read from the file, occurs among the rowids of the
    predictions (each row as often as it stood in the file), keeps every
    prediction row, and leaves both tables sorted ascending by rowid
    (byte-wise string order; a null rowid sorts last). *)
Theorem reconcile_filters_and_sorts (truth_df results_df : DataFrame) :
  let truth' := fst (reconcile truth_df results_df) in
  let results' := snd (reconcile truth_df results_df) in
  Permutation (rows truth')
    (filter (rowid_matches truth_df results_df) (rows truth_df)) /\
  (forall r x, cell truth_df "rowid" r = Some x ->
     (In r (rows truth') <->
      In r (rows truth_df) /\ In (Some x) (series results_df "rowid"))) /\
  Permutation (rows results') (rows results_df) /\
  StronglySorted (fun r1 r2 => key_leb (cell truth' "rowid" r1) (cell truth' "rowid" r2) = true)
    (rows truth') /\
  StronglySorted (fun r1 r2 => key_leb (cell results' "rowid" r1) (cell results' "rowid" r2) = true)
    (rows results').
Proof.
  simpl.
  assert (P : Permutation
                (sort_rows (cell (match_truth truth_df results_df) "rowid")
                   (rows (match_truth truth_df results_df)))
                (rows (match_truth truth_df results_df)))
    by (symmetry; apply sort_rows_perm).
  split; [exact P|].
  split.
  - intros r x Hx. split.
    + intros H. apply (Permutation_in _ P) in H. simpl in H.
      apply filter_In in H. now rewrite (rowid_matches_string _ _ _ _ Hx) in H.
    + intros [H1 H2]. apply (Permutation_in _ (Permutation_sym P)). simpl.
      apply filter_In. now rewrite (rowid_matches_string _ _ _ _ Hx).
  - split; [symmetry; apply sort_rows_perm|].
    split.
    + exact (sort_rows_sorted (cell (match_truth truth_df results_df) "rowid") _).
    + exact (sort_rows_sorted (cell results_df "rowid") _).
Qed.

Lemma reconcile_filters_and_sorts_witness :
  let truth := pandas_DataFrame truth_cols Examples.ground_truth in
  let results := pandas_DataFrame results_cols Examples.predictions in
  rows (fst (reconcile truth results)) = [["1"; "a b"]; ["2"; "b c"]; ["3"; "a c"]] /\
  rows (snd (reconcile truth results)) =
    [["1"; "b a"; "1 0.125"]; ["2"; "b c"; "0.75 0.5"]; ["3"; "a b"; "0.5 0.25"]] /\
  Permutation (rows (snd (reconcile truth results))) (rows results) /\
  (In ["4"; "a c"] (rows (fst (reconcile truth results))) <->
   In ["4"; "a c"] (rows truth) /\ In (Some "4") (series results "rowid")).
Proof.
  intros truth results.
  split; [reflexivity|]. split; [reflexivity|].
  destruct (reconcile_filters_and_sorts truth results) as (_ & H & P & _).
  split; [exact P|exact (H ["4"; "a c"] "4" eq_refl)].
Defined.

(* ------------------------------------------------------------------ *)
(** ** Computations and dictionaries *)

Lemma bind_ok {A B} (c : M A) (k : A -> M B) (t : list event) (b : B) :
  bind c k = (t, Ok b) ->
  exists t1 a t2, c = (t1, Ok a) /\ k a = (t2, Ok b) /\ t = (t1 ++ t2)%list.
Proof.
  destruct c as [t1 [a|e]]; simpl; [|discriminate].
  destruct (k a) as [t2 r] eqn:E. intros H. inversion H; subst.
  now exists t1, a, t2.
Qed.

Lemma trace_bind {A B} (c : M A) (k : A -> M B) :
  trace (bind c k) =
  (trace c ++ match outcome c with Ok a => trace (k a) | Raised _ => [] end)%list.
Proof.
  destruct c as [t [a|e]]; simpl.
  - now destruct (k a).
  - now rewrite app_nil_r.
Qed.

Lemma outcome_bind {A B} (c : M A) (k : A -> M B) :
  outcome (bind c k) =
  match outcome c with Ok a => outcome (k a) | Raised e => Raised e end.
Proof.
  destruct c as [t [a|e]]; simpl; [now destruct (k a)|reflexivity].
Qed.

Lemma surjective_run {A} (c : M A) : c = (trace c, outcome c).
Proof. now destruct c. Qed.

Lemma get_set_same {V} (d : Py.dict V) (k : string) (v : V) :
  Py.get (Py.set d k v) k = Some v.
Proof.
  induction d as [|[k' v'] d IH]; simpl.
  - now rewrite String.eqb_refl.
  - destruct (String.eqb k k') eqn:E; simpl; [now rewrite String.eqb_refl|].
    now rewrite E.
Qed.

Lemma get_set_other {V} (d : Py.dict V) (k k0 : string) (v : V) :
  k0 <> k -> Py.get (Py.set d k v) k0 = Py.get d k0.
Proof.
  intros N. induction d as [|[k' v'] d IH]; simpl.
  - apply String.eqb_neq in N. now rewrite N.
  - destruct (String.eqb k k') eqn:E; simpl.
    + apply String.eqb_eq in E. subst k'.
      apply String.eqb_neq in N. now rewrite N.
    + now rewrite IH.
Qed.

Lemma keys_set_in {V} (d : Py.dict V) (k k0 : string) (v : V) :
  In k0 (Py.keys (Py.set d k v)) <-> k0 = k \/ In k0 (Py.keys d).
Proof.
  induction d as [|[k' v'] d IH]; simpl.
  - intuition.
  - destruct (String.eqb k k') eqn:E; simpl.
    + apply String.eqb_eq in E. subst. intuition.
    + unfold Py.keys in IH. rewrite IH. intuition.
Qed.

Lemma keys_set_nodup {V} (d : Py.dict V) (k : string) (v : V) :
  NoDup (Py.keys d) -> NoDup (Py.keys (Py.set d k v)).
Proof.
  induction d as [|[k' v'] d IH]; simpl; intros H.
  - repeat constructor. intros [].
  - inversion H as [|? ? Hn Hd]; subst.
    destruct (String.eqb k k') eqn:E; simpl.
    + apply String.eqb_eq in E. subst. now constructor.
    + constructor; [|now apply IH].
      intros Hin. apply (keys_set_in d k k' v) in Hin.
      destruct Hin as [->|Hin]; [|contradiction].
      now rewrite String.eqb_refl in E.
Qed.

Lemma get_in_keys {V} (d : Py.dict V) (k : string) :
  Py.get d k <> None <-> In k (Py.keys d).
Proof.
  induction d as [|[k' v'] d IH]; simpl; [intuition|].
  destruct (String.eqb k k') eqn:E.
  - apply String.eqb_eq in E. subst. intuition discriminate.
  - apply String.eqb_neq in E. unfold Py.keys in IH. rewrite IH. intuition congruence.
Qed.

Lemma forall_values_set {V} (P : V -> Prop) (d : Py.dict V) (k : string) (v : V) :
  Forall (fun kv => P (snd kv)) d -> P v ->
  Forall (fun kv => P (snd kv)) (Py.set d k v).
Proof.
  induction 1 as [|[k' v'] d Hx Hd IH]; simpl; intros Hv.
  - now repeat constructor.
  - destruct (String.eqb k k'); constructor; auto.
Qed.

Lemma forall_values_get {V} (P : V -> Prop) (d : Py.dict V) (k : string) (v : V) :
  Forall (fun kv => P (snd kv)) d -> Py.get d k = Some v -> P v.
Proof.
  induction 1 as [|[k' v'] d Hx Hd IH]; simpl; [discriminate|].
  destruct (String.eqb k k'); [|assumption].
  intros E. now inversion E; subst.
Qed.

(* ------------------------------------------------------------------ *)
(** ** The format guard *)

Lemma check_format_passes (eval_input_format : string) :
  Py.str_in eval_input_format "predictions" = true ->
  check_format eval_input_format = ret tt.
Proof. unfold check_format. now intros ->. Qed.

(** A format that is no substring of ["predictions"] ends the run with
    one logged error, before any file is touched. *)
Lemma unsupported_format_raises_first (w : World)
    (eval_type eval_input_path eval_input_format ground_truth_path evaluation_path : string) :
  Py.str_in eval_input_format "predictions" = false ->
  perform_assessment w eval_type eval_input_path eval_input_format
    ground_truth_path evaluation_path =
  ([Log ERROR (unsupported_msg eval_input_format)],
   Raised (Py.StdException "Exception" (unsupported_msg eval_input_format))).
Proof.
  intros H. unfold perform_assessment, check_format. now rewrite H.
Qed.

(** C2 (the code departs from the claim). The guard tests
    [eval_input_format not in "predictions"], a substring test: the
    format ["pred"], which is not the string ["predictions"], passes it,
    as does the empty string; the run with ["pred"] opens the
    predictions file and writes a report instead of raising. *)
Theorem format_guard_accepts_substrings :
  check_format "pred" = ret tt /\
  check_format "" = ret tt /\
  (exists st, outcome (Examples.run Examples.predictions
                         ["sklearn.metrics.accuracy_score"] "pred") = Ok st) /\
  existsb is_file_access
    (trace (Examples.run Examples.predictions
              ["sklearn.metrics.accuracy_score"] "pred")) = true /\
  existsb is_write
    (trace (Examples.run Examples.predictions
              ["sklearn.metrics.accuracy_score"] "pred")) = true.
Proof.
  split; [reflexivity|]. split; [reflexivity|].
  split; [eexists; vm_compute; reflexivity|].
  split; vm_compute; reflexivity.
Qed.

(* ------------------------------------------------------------------ *)
(** ** A package that cannot be imported *)

(** [importlib.import_module] raises for a package it cannot resolve, and
    nothing around line 182 catches it: the loop ends there. *)
Lemma unresolvable_package_raises (w : World) (eval_type : string) (dt : Data)
    (counter : nat) (ref : string) (rest : list string) (st : State) (metric : Metric) :
  Py.get (metric_objects st) ref = Some metric ->
  Py.get (modules_cache st) (package metric) = None ->
  import_module w (package metric) = None ->
  run_metrics w eval_type dt counter (ref :: rest) st =
  ([Log INFO (package metric ++ " : " ++ method metric)],
   Raised (Py.StdException "ModuleNotFoundError"
             ("No module named '" ++ package metric ++ "'"))).
Proof.
  intros H1 H2 H3. simpl. unfold process_metric, resolve_module.
  rewrite H1, H2, H3. reflexivity.
Qed.

(** C1 (the code departs from the claim). With the selected metrics
    [nopkg.score] and [sklearn.metrics.accuracy_score], where [nopkg]
    cannot be imported, the run ends with ModuleNotFoundError: no
    warning is logged for the package, [accuracy_score] is never called
    and no report is written. *)
Theorem unresolvable_package_aborts_run :
  let r := Examples.run Examples.predictions
             ["nopkg.score"; "sklearn.metrics.accuracy_score"] "predictions" in
  outcome r = Raised (Py.StdException "ModuleNotFoundError" "No module named 'nopkg'") /\
  existsb is_call (trace r) = false /\
  existsb is_write (trace r) = false /\
  existsb (fun ev => match ev with Log WARN _ => true | _ => false end) (trace r) = false.
Proof. vm_compute. repeat split. Qed.

(* ------------------------------------------------------------------ *)
(** ** One iteration of the dispatch loop *)

Lemma bind_arg_cases (param : option string) (available : bool) (v : arg_value)
    (args : Py.dict arg_value) :
  bind_arg param available v args = args \/
  exists name, bind_arg param available v args = Py.set args name v.
Proof.
  unfold bind_arg. destruct (Py.truthy_str param); [|now left].
  destruct available; [right; eauto|now left].
Qed.

(** Binding the data emits nothing. *)
Lemma bind_data_silent (dt : Data) (dp : DataParameters) (args : Py.dict arg_value) :
  trace (bind_data dt dp args) = [].
Proof.
  unfold bind_data.
  destruct (Py.truthy_str (prediction_scores dp)); [|reflexivity].
  destruct (has_column _ _ && negb _); [|reflexivity].
  destruct (confidence_matrix _); reflexivity.
Qed.

Lemma bind_data_total (dt : Data) (dp : DataParameters) (args : Py.dict arg_value) :
  confidence_ready dt -> exists args', bind_data dt dp args = ([], Ok args').
Proof.
  intros R. unfold bind_data.
  destruct (Py.truthy_str (prediction_scores dp)); [|eexists; reflexivity].
  destruct (has_column _ _ && negb _) eqn:E; [|eexists; reflexivity].
  specialize (R E).
  destruct (confidence_matrix _); [eexists; reflexivity|congruence].
Qed.

Lemma scores_free_set (args : Py.dict arg_value) (k : string) (v : arg_value) :
  scores_free args = true -> binds_scores v = false ->
  scores_free (Py.set args k v) = true.
Proof.
  unfold scores_free. intros H Hv.
  induction args as [|[k' v'] args IH]; simpl in *.
  - now rewrite Hv.
  - apply andb_true_iff in H. destruct H as [H1 H2].
    destruct (String.eqb k k'); simpl.
    + now rewrite Hv, H2.
    + now rewrite H1, IH.
Qed.

Lemma bind_arg_scores_free (param : option string) (available : bool) (v : arg_value)
    (args : Py.dict arg_value) :
  scores_free args = true -> binds_scores v = false ->
  scores_free (bind_arg param available v args) = true.
Proof.
  intros H Hv.
  destruct (bind_arg_cases param available v args) as [->|[name ->]];
    auto using scores_free_set.
Qed.

(** With a null in the confidence column, the assignments of lines
    197-210 never store the confidence matrix. *)
Lemma bind_data_scores_free (dt : Data) (dp : DataParameters)
    (args args' : Py.dict arg_value) (t : list event) :
  hasnans (results_df dt) "confidence" = true ->
  scores_free args = true ->
  bind_data dt dp args = (t, Ok args') ->
  scores_free args' = true.
Proof.
  intros Hn Ha. unfold bind_data. rewrite Hn, andb_false_r.
  destruct (Py.truthy_str (prediction_scores dp)); simpl;
    intros E; inversion E; subst;
    repeat apply bind_arg_scores_free; auto.
Qed.

Lemma initial_args_scores_free (metric : Metric) :
  metric_scores_free metric -> scores_free (initial_args metric) = true.
Proof.
  unfold metric_scores_free, initial_args.
  destruct (default_args metric) as [d|]; [|reflexivity].
  now destruct (Py.truthy_dict d).
Qed.

#[local] Arguments bind_data : simpl never.
#[local] Arguments normalize : simpl never.
#[local] Arguments store_args : simpl never.
#[local] Arguments String.append : simpl never.
#[local] Arguments Py.str_of_nat : simpl never.

(** Case analysis of one iteration, following its control flow. *)
Ltac call_cases dt metric module :=
  let f := fresh "f" in
  let tb := fresh "tb" in
  let args := fresh "args" in
  let Hsilent := fresh "Hsilent" in
  destruct (module (method metric)) as [f|] eqn:Hattr; simpl;
  [ pose proof (bind_data_silent dt (data_parameters metric) (initial_args metric))
      as Hsilent;
    destruct (bind_data dt (data_parameters metric) (initial_args metric))
      as [tb [args|?e]] eqn:Hbind;
    simpl in Hsilent; subst tb; simpl;
    [ destruct (f args) as [?r|?e] eqn:Hcall; simpl;
      [ | destruct (Py.isinstance_Exception e) eqn:Hexc; simpl ] | ]
  | ].

Ltac step_cases w dt ref st :=
  unfold process_metric, resolve_module, call_metric, module_truthy;
  let metric := fresh "metric" in
  let module := fresh "module" in
  destruct (Py.get (metric_objects st) ref) as [metric|] eqn:Hmetric; simpl;
  [ destruct (Py.get (modules_cache st) (package metric)) as [module|] eqn:Hcache; simpl;
    [ call_cases dt metric module
    | destruct (import_module w (package metric)) as [module|] eqn:Himport; simpl;
      [ call_cases dt metric module | ] ]
  | ].

Lemma eval_dict_store_args (ref : string) (metric : Metric)
    (args : Py.dict arg_value) (st : State) :
  eval_dict (store_args ref metric args st) = eval_dict st.
Proof. unfold store_args. now destruct (args_aliased metric). Qed.

Lemma modules_cache_store_args (ref : string) (metric : Metric)
    (args : Py.dict arg_value) (st : State) :
  modules_cache (store_args ref metric args st) = modules_cache st.
Proof. unfold store_args. now destruct (args_aliased metric). Qed.

(** An iteration that completes leaves under each method name what the
    last call of that name returned in it, normalised, or else what was
    there before. *)
Lemma process_metric_eval_dict (w : World) (eval_type : string) (dt : Data)
    (counter : nat) (ref : string) (st st' : State) (t : list event) (meth : string) :
  process_metric w eval_type dt counter ref st = (t, Ok st') ->
  Py.get (eval_dict st') meth =
  match last_return meth t with
  | Some r => Some (normalize eval_type (label_classes (matrices dt)) r)
  | None => Py.get (eval_dict st) meth
  end.
Proof.
  step_cases w dt ref st; intros E; inversion E; subst; clear E; simpl;
    rewrite ?eval_dict_store_args; try reflexivity.
  all: destruct (String.eqb (method metric) meth) eqn:Em;
    [ apply String.eqb_eq in Em; subst meth; apply get_set_same
    | apply String.eqb_neq in Em; rewrite get_set_other by congruence;
      now rewrite ?eval_dict_store_args ].
Qed.

Lemma metric_objects_store_args_get (ref ref0 : string) (metric : Metric)
    (args : Py.dict arg_value) (st : State) :
  Py.get (metric_objects st) ref = Some metric ->
  option_map descriptor (Py.get (metric_objects (store_args ref metric args st)) ref0) =
  option_map descriptor (Py.get (metric_objects st) ref0).
Proof.
  intros H. unfold store_args. destruct (args_aliased metric); [|reflexivity]. simpl.
  destruct (String.eqb ref0 ref) eqn:E.
  - apply String.eqb_eq in E. subst ref0. now rewrite get_set_same, H.
  - apply String.eqb_neq in E. now rewrite get_set_other.
Qed.

(** An iteration keeps the cache sound and assigns no descriptor's
    package, method or data parameters. *)
Lemma process_metric_invariants (w : World) (eval_type : string) (dt : Data)
    (counter : nat) (ref : string) (st st' : State) (t : list event) :
  process_metric w eval_type dt counter ref st = (t, Ok st') ->
  cache_sound w st ->
  cache_sound w st' /\ same_descriptors (metric_objects st) (metric_objects st').
Proof.
  intros E C. revert E.
  assert (C' : forall module metric,
               import_module w (package metric) = Some module ->
               cache_sound w {| eval_dict := eval_dict st;
                                modules_cache := Py.set (modules_cache st) (package metric) module;
                                metric_objects := metric_objects st |}).
  { intros module metric Hi pkg m. simpl.
    destruct (String.eqb pkg (package metric)) eqn:Ep.
    - apply String.eqb_eq in Ep. subst pkg. rewrite get_set_same. congruence.
    - apply String.eqb_neq in Ep. rewrite get_set_other by assumption. apply C. }
  step_cases w dt ref st; intros E; inversion E; subst; clear E;
    (split;
     [ unfold cache_sound; simpl; rewrite ?modules_cache_store_args; simpl;
       first [ exact C | exact (C' _ _ Himport) ]
     | intros ref0; simpl;
       first [ reflexivity
             | exact (metric_objects_store_args_get ref ref0 _ _ _ Hmetric)
             | exact (metric_objects_store_args_get ref ref0 _ _
                        {| eval_dict := eval_dict st;
                           modules_cache := Py.set (modules_cache st) (package metric) module0;
                           metric_objects := metric_objects st |} Hmetric) ] ]).
Qed.

Lemma process_metric_keys_nodup (w : World) (eval_type : string) (dt : Data)
    (counter : nat) (ref : string) (st st' : State) (t : list event) :
  process_metric w eval_type dt counter ref st = (t, Ok st') ->
  NoDup (Py.keys (eval_dict st)) -> NoDup (Py.keys (eval_dict st')).
Proof.
  step_cases w dt ref st; intros E; inversion E; subst; clear E; simpl;
    rewrite ?eval_dict_store_args; auto using keys_set_nodup.
Qed.

(** An iteration completes when the package can be imported and the
    call, if it raises, raises an [Exception]. *)
Lemma process_metric_total (w : World) (eval_type : string) (dt : Data)
    (counter : nat) (ref : string) (st : State) :
  confidence_ready dt ->
  cache_sound w st ->
  importable w (metric_objects st) ref = true ->
  forallb raises_only_Exception
    (trace (process_metric w eval_type dt counter ref st)) = true ->
  exists st', outcome (process_metric w eval_type dt counter ref st) = Ok st'.
Proof.
  intros R C. unfold importable.
  step_cases w dt ref st; intros I T; eauto; try discriminate.
  all: try (rewrite Hexc in T; discriminate).
  all: destruct (bind_data_total dt (data_parameters metric) (initial_args metric) R);
    congruence.
Qed.

Lemma called_refl (pkg meth : string) (args : Py.dict arg_value) (o : call_outcome) :
  called pkg meth (Call pkg meth args o) = true.
Proof. simpl. now rewrite !String.eqb_refl. Qed.

(** An iteration that completes has called the method its module has. *)
Lemma process_metric_calls (w : World) (eval_type : string) (dt : Data)
    (counter : nat) (ref : string) (st st' : State) (t : list event)
    (metric : Metric) (module : module) (f : callable) :
  process_metric w eval_type dt counter ref st = (t, Ok st') ->
  cache_sound w st ->
  Py.get (metric_objects st) ref = Some metric ->
  import_module w (package metric) = Some module ->
  module (method metric) = Some f ->
  existsb (called (package metric) (method metric)) t = true.
Proof.
  intros E C Hm Hi Hf. revert E.
  step_cases w dt ref st; intros E; inversion E; subst; clear E;
    inversion Hm; subst; simpl; rewrite ?String.eqb_refl; simpl; try reflexivity.
  - apply C in Hcache. congruence.
  - congruence.
Qed.

(** With a null in the confidence column, no call of the iteration is
    handed the confidence matrix and no descriptor comes to hold it. *)
Lemma process_metric_scores_free (w : World) (eval_type : string) (dt : Data)
    (counter : nat) (ref : string) (st : State) :
  hasnans (results_df dt) "confidence" = true ->
  store_scores_free (metric_objects st) ->
  forallb call_without_scores
    (trace (process_metric w eval_type dt counter ref st)) = true /\
  (forall st', outcome (process_metric w eval_type dt counter ref st) = Ok st' ->
               store_scores_free (metric_objects st')).
Proof.
  intros Hn S.
  assert (A : forall metric args t,
             Py.get (metric_objects st) ref = Some metric ->
             bind_data dt (data_parameters metric) (initial_args metric) = (t, Ok args) ->
             scores_free args = true).
  { intros metric args t Hm Hb.
    eapply bind_data_scores_free; [exact Hn| |exact Hb].
    apply initial_args_scores_free.
    exact (forall_values_get metric_scores_free _ _ _ S Hm). }
  assert (B : forall metric args st1,
             metric_objects st1 = metric_objects st ->
             scores_free args = true ->
             store_scores_free (metric_objects (store_args ref metric args st1))).
  { intros metric args st1 E Ha. unfold store_args.
    destruct (args_aliased metric); simpl; rewrite E; [|exact S].
    apply forall_values_set; [exact S|exact Ha]. }
  step_cases w dt ref st; (split; [|intros st' E; inversion E; subst; clear E]);
    simpl; rewrite ?andb_true_r; eauto.
Qed.

(* ------------------------------------------------------------------ *)
(** ** The whole loop *)

Lemma last_return_app (meth : string) (t1 t2 : list event) :
  last_return meth (t1 ++ t2) =
  match last_return meth t2 with
  | Some r => Some r
  | None => last_return meth t1
  end.
Proof.
  induction t1 as [|ev t1 IH]; simpl.
  - now destruct (last_return meth t2).
  - rewrite IH. now destruct (last_return meth t2).
Qed.

Lemma last_return_none (meth : string) (t : list event) :
  last_return meth t = None <-> existsb (returned meth) t = false.
Proof.
  induction t as [|ev t IH]; simpl; [tauto|].
  rewrite orb_false_iff, <- IH.
  destruct (last_return meth t); [intuition discriminate|].
  destruct ev as [| | |p m a [r|e]| |]; simpl; try tauto.
  destruct (String.eqb m meth); intuition discriminate.
Qed.

Lemma run_metrics_eval_dict (w : World) (eval_type : string) (dt : Data)
    (metrics_list : list string) (meth : string) :
  forall (counter : nat) (st stf : State) (t : list event),
  run_metrics w eval_type dt counter metrics_list st = (t, Ok stf) ->
  Py.get (eval_dict stf) meth =
  match last_return meth t with
  | Some r => Some (normalize eval_type (label_classes (matrices dt)) r)
  | None => Py.get (eval_dict st) meth
  end.
Proof.
  induction metrics_list as [|ref rest IH]; simpl; intros counter st stf t E.
  - inversion E; subst. reflexivity.
  - apply bind_ok in E. destruct E as (t1 & st1 & t2 & E1 & E2 & ->).
    rewrite last_return_app, (IH _ _ _ _ E2).
    destruct (last_return meth t2); [reflexivity|].
    exact (process_metric_eval_dict _ _ _ _ _ _ _ _ _ E1).
Qed.

Lemma run_metrics_keys_nodup (w : World) (eval_type : string) (dt : Data)
    (metrics_list : list string) :
  forall (counter : nat) (st stf : State) (t : list event),
  run_metrics w eval_type dt counter metrics_list st = (t, Ok stf) ->
  NoDup (Py.keys (eval_dict st)) -> NoDup (Py.keys (eval_dict stf)).
Proof.
  induction metrics_list as [|ref rest IH]; simpl; intros counter st stf t E N.
  - inversion E; subst. exact N.
  - apply bind_ok in E. destruct E as (t1 & st1 & t2 & E1 & E2 & ->).
    eapply IH; [exact E2|]. eapply process_metric_keys_nodup; eassumption.
Qed.

Lemma importable_same_descriptors (w : World) (objects objects' : Py.dict Metric)
    (ref : string) :
  same_descriptors objects objects' ->
  importable w objects' ref = importable w objects ref.
Proof.
  intros S. specialize (S ref). unfold importable.
  destruct (Py.get objects' ref) as [m'|], (Py.get objects ref) as [m|];
    simpl in S; try discriminate; [|reflexivity].
  unfold descriptor in S. inversion S as [[Hp Hm Hd]]. now rewrite Hp.
Qed.

(** The loop completes when every selected package can be imported and
    every call that raises raises an [Exception]. *)
Lemma run_metrics_total (w : World) (eval_type : string) (dt : Data)
    (metrics_list : list string) :
  confidence_ready dt ->
  forall (counter : nat) (st : State),
  cache_sound w st ->
  forallb (importable w (metric_objects st)) metrics_list = true ->
  forallb raises_only_Exception
    (trace (run_metrics w eval_type dt counter metrics_list st)) = true ->
  exists stf, outcome (run_metrics w eval_type dt counter metrics_list st) = Ok stf.
Proof.
  intros R.
  induction metrics_list as [|ref rest IH]; simpl; intros counter st C I T.
  - eexists; reflexivity.
  - apply andb_true_iff in I. destruct I as [I1 I2].
    rewrite trace_bind, forallb_app in T.
    apply andb_true_iff in T. destruct T as [T1 T2].
    destruct (process_metric_total w eval_type dt counter ref st R C I1 T1) as [st1 E1].
    rewrite outcome_bind. rewrite E1 in T2 |- *.
    pose proof (surjective_run (process_metric w eval_type dt counter ref st)) as Es.
    rewrite E1 in Es.
    destruct (process_metric_invariants _ _ _ _ _ _ _ _ Es C) as [C1 S1].
    apply IH; [exact C1| |exact T2].
    apply forallb_forall. intros r Hr.
    rewrite (importable_same_descriptors w _ _ r S1).
    rewrite forallb_forall in I2. now apply I2.
Qed.

(** Every selected metric whose module has its method is called. *)
Lemma run_metrics_calls (w : World) (eval_type : string) (dt : Data)
    (metrics_list : list string) :
  forall (counter : nat) (st stf : State) (t : list event),
  run_metrics w eval_type dt counter metrics_list st = (t, Ok stf) ->
  cache_sound w st ->
  forall (ref : string) (metric : Metric) (module : module) (f : callable),
  In ref metrics_list ->
  Py.get (metric_objects st) ref = Some metric ->
  import_module w (package metric) = Some module ->
  module (method metric) = Some f ->
  existsb (called (package metric) (method metric)) t = true.
Proof.
  induction metrics_list as [|ref0 rest IH]; simpl;
    intros counter st stf t E C ref metric module f Hin Hm Hi Hf; [contradiction|].
  apply bind_ok in E. destruct E as (t1 & st1 & t2 & E1 & E2 & ->).
  rewrite existsb_app. apply orb_true_iff.
  destruct (process_metric_invariants _ _ _ _ _ _ _ _ E1 C) as [C1 S1].
  destruct Hin as [->|Hin].
  - left. eapply process_metric_calls; eassumption.
  - right. specialize (S1 ref). rewrite Hm in S1.
    destruct (Py.get (metric_objects st1) ref) as [metric1|] eqn:Hm1; [|discriminate].
    simpl in S1. unfold descriptor in S1. inversion S1 as [[Hp Hme Hd]].
    specialize (IH _ _ _ _ E2 C1 ref metric1 module f Hin Hm1).
    replace (package metric1) with (package metric) in IH by congruence.
    replace (method metric1) with (method metric) in IH by congruence.
    rewrite ?Hp, ?Hme. exact (IH Hi Hf).
Qed.

(** With a null in the confidence column, no call of the loop is handed
    the confidence matrix. *)
Lemma run_metrics_scores_free (w : World) (eval_type : string) (dt : Data)
    (metrics_list : list string) :
  hasnans (results_df dt) "confidence" = true ->
  forall (counter : nat) (st : State),
  store_scores_free (metric_objects st) ->
  forallb call_without_scores
    (trace (run_metrics w eval_type dt counter metrics_list st)) = true.
Proof.
  intros Hn.
  induction metrics_list as [|ref rest IH]; simpl; intros counter st S; [reflexivity|].
  destruct (process_metric_scores_free w eval_type dt counter ref st Hn S) as [T1 S1].
  rewrite trace_bind, forallb_app, T1. simpl.
  destruct (outcome (process_metric w eval_type dt counter ref st)) as [st1|e];
    [|reflexivity].
  apply IH. now apply S1.
Qed.

(* ------------------------------------------------------------------ *)
(** ** Before the loop: ingestion, matrices, configuration *)

Lemma no_calls_ret {A} (a : A) : no_calls (ret a).
Proof. reflexivity. Qed.

Lemma no_calls_raise {A} (e : Py.exc) : no_calls (@raise A e).
Proof. reflexivity. Qed.

Lemma no_calls_emit (ev : event) : is_call ev = false -> no_calls (emit ev).
Proof. unfold no_calls. simpl. now intros ->. Qed.

Lemma no_calls_bind {A B} (c : M A) (k : A -> M B) :
  no_calls c -> (forall a, no_calls (k a)) -> no_calls (bind c k).
Proof.
  unfold no_calls. intros Hc Hk. rewrite trace_bind, existsb_app, Hc. simpl.
  destruct (outcome c); [apply Hk|reflexivity].
Qed.

Create HintDb quiet.
#[local] Hint Resolve no_calls_ret no_calls_raise : quiet.

Ltac quiet :=
  repeat first
    [ solve [auto with quiet]
    | apply no_calls_ret
    | apply no_calls_raise
    | apply no_calls_emit; reflexivity
    | apply no_calls_bind; [|intros]
    | match goal with
      | |- no_calls (match ?x with _ => _ end) => destruct x
      end
    | progress cbv beta zeta ].

Lemma iterable_rows_quiet (y : list (option (list string))) : no_calls (iterable_rows y).
Proof. induction y as [|[row|] y IH]; simpl; quiet. Qed.
#[local] Hint Resolve iterable_rows_quiet : quiet.

Lemma parsed_column_quiet (df : DataFrame) (name : string) : no_calls (parsed_column df name).
Proof. unfold parsed_column. quiet. Qed.
#[local] Hint Resolve parsed_column_quiet : quiet.

Lemma np_append_axis0_quiet (a b : shape * list (option (list string))) :
  no_calls (np_append_axis0 a b).
Proof. unfold np_append_axis0. quiet. Qed.
#[local] Hint Resolve np_append_axis0_quiet : quiet.

Lemma fill_confidence_row_quiet (w : World) (label_classes confs row : list string) :
  forall col_index confidence_row,
  no_calls (fill_confidence_row w label_classes confs row col_index confidence_row).
Proof. induction row as [|col row IH]; simpl; intros; quiet. Qed.
#[local] Hint Resolve fill_confidence_row_quiet : quiet.

Lemma build_confidence_quiet (w : World) (label_classes : list string)
    (labels : list (list string)) :
  forall confs, no_calls (build_confidence w label_classes labels confs).
Proof. induction labels as [|row labels IH]; simpl; intros; quiet. Qed.
#[local] Hint Resolve build_confidence_quiet : quiet.

Lemma float_tokens_quiet (w : World) (ts : list string) : no_calls (float_tokens w ts).
Proof. induction ts as [|tok ts IH]; simpl; quiet. Qed.
#[local] Hint Resolve float_tokens_quiet : quiet.

Lemma float_rows_quiet (w : World) (cells : list (option string)) :
  no_calls (float_rows w cells).
Proof. induction cells as [|[s|] cells IH]; simpl; quiet. Qed.
#[local] Hint Resolve float_rows_quiet : quiet.

Lemma build_matrices_quiet (w : World) (eval_type : string) (truth results : DataFrame) :
  no_calls (build_matrices w eval_type truth results).
Proof. unfold build_matrices, regression_column. quiet. Qed.
#[local] Hint Resolve build_matrices_quiet : quiet.

Lemma csv_rows_quiet (has_header : bool) (lines : list (list string)) :
  no_calls (csv_rows has_header lines).
Proof. unfold csv_rows. quiet. Qed.
#[local] Hint Resolve csv_rows_quiet : quiet.

Lemma read_table_quiet (w : World) (what path : string) (cols : list string) :
  no_calls (read_table w what path cols).
Proof. unfold read_table. quiet. Qed.
#[local] Hint Resolve read_table_quiet : quiet.

Lemma load_config_quiet (w : World) : no_calls (load_config w).
Proof. unfold load_config. quiet. Qed.
#[local] Hint Resolve load_config_quiet : quiet.

Lemma prepare_quiet (w : World) (eval_type eval_input_path ground_truth_path : string) :
  no_calls (prepare w eval_type eval_input_path ground_truth_path).
Proof. unfold prepare. quiet. Qed.

Lemma no_calls_forallb {A} (c : M A) (p : event -> bool) :
  (forall ev, is_call ev = false -> p ev = true) ->
  no_calls c -> forallb p (trace c) = true.
Proof.
  unfold no_calls. intros Hp H. apply forallb_forall. intros ev Hin.
  apply Hp. destruct (is_call ev) eqn:E; [|reflexivity].
  assert (existsb is_call (trace c) = true) by (apply existsb_exists; eauto).
  congruence.
Qed.

Ltac invert_bind E :=
  apply bind_ok in E;
  let E1 := fresh "E" in
  destruct E as (?t & ?a & ?t & E1 & E & ?Et).

Ltac invert_ret E := unfold ret in E; inversion E; subst; clear E.

Lemma read_table_ok (w : World) (what path : string) (cols : list string)
    (t : list event) (df : DataFrame) :
  read_table w what path cols = (t, Ok df) ->
  exists has_header lines data,
    csv_files w path = Some (has_header, lines) /\
    outcome (csv_rows has_header lines) = Ok data /\
    df = pandas_DataFrame cols data.
Proof.
  unfold read_table. intros E. invert_bind E. invert_bind E.
  destruct (csv_files w path) as [[has_header lines]|]; [|discriminate].
  invert_bind E. invert_ret E.
  exists has_header, lines, a1. rewrite E2. now repeat split.
Qed.

Lemma build_matrices_confidence_ready (w : World) (eval_type : string)
    (truth results : DataFrame) (t : list event) (mx : Matrices) :
  build_matrices w eval_type truth results = (t, Ok mx) ->
  has_column results "confidence" && negb (hasnans results "confidence") = true ->
  confidence_matrix mx <> None.
Proof.
  unfold build_matrices. intros E Hc.
  destruct (is_classification eval_type).
  - repeat invert_bind E. invert_ret E. simpl.
    match goal with
    | H : (if has_column _ _ && _ then _ else _) = _ |- _ =>
        rewrite Hc in H; repeat invert_bind H; invert_ret H
    end.
    discriminate.
  - destruct (String.eqb eval_type "Regression").
    + do 3 invert_bind E. invert_ret E. discriminate.
    + invert_ret E. discriminate.
Qed.

Lemma deserialize_model_scores_free (metric_dict : MetricDict) :
  metric_scores_free (deserialize_model metric_dict).
Proof.
  unfold metric_scores_free, deserialize_model. simpl.
  destruct (json_default_args metric_dict) as [d|]; simpl; [|exact I].
  unfold scores_free. induction d as [|kv d IH]; simpl; auto.
Qed.

Lemma load_metric_objects_scores_free (metric_dict_list : list MetricDict) :
  store_scores_free (load_metric_objects metric_dict_list).
Proof.
  unfold load_metric_objects, store_scores_free.
  assert (G : forall l d, Forall (fun kv => metric_scores_free (snd kv)) d ->
              Forall (fun kv => metric_scores_free (snd kv))
                (fold_left (fun d metric_dict =>
                              let metric_object := deserialize_model metric_dict in
                              Py.set d (metric_key metric_object) metric_object) l d)).
  { induction l as [|m l IH]; simpl; intros d H; [exact H|].
    apply IH. apply forall_values_set; [exact H|apply deserialize_model_scores_free]. }
  apply G. constructor.
Qed.

(** What a completed preparation hands to the loop. *)
Lemma prepare_ok (w : World) (eval_type eval_input_path ground_truth_path : string)
    (t0 : list event) (dt : Data) (metrics_list : list string) (st0 : State) :
  prepare w eval_type eval_input_path ground_truth_path = (t0, Ok (dt, metrics_list, st0)) ->
  (exists has_header lines data,
     csv_files w (Py.path_join eval_input_path "predictions.csv") = Some (has_header, lines) /\
     outcome (csv_rows has_header lines) = Ok data /\
     results_df dt = sort_values (pandas_DataFrame results_cols data) "rowid") /\
  (exists tm, build_matrices w eval_type (truth_df dt) (results_df dt) = (tm, Ok (matrices dt))) /\
  eval_dict st0 = [] /\
  modules_cache st0 = [] /\
  store_scores_free (metric_objects st0) /\
  existsb is_call t0 = false.
Proof.
  intros E.
  pose proof (prepare_quiet w eval_type eval_input_path ground_truth_path) as Q.
  unfold no_calls in Q. rewrite E in Q. simpl in Q.
  unfold prepare in E. do 4 invert_bind E. invert_ret E. simpl.
  apply read_table_ok in E0. destruct E0 as (h & lines & data & H1 & H2 & ->).
  split; [exists h, lines, data; auto|].
  split; [eexists; exact E2|].
  repeat split; auto using load_metric_objects_scores_free.
Qed.

Lemma confidence_ready_prepared (w : World)
    (eval_type eval_input_path ground_truth_path : string)
    (t0 : list event) (dt : Data) (metrics_list : list string) (st0 : State) :
  prepare w eval_type eval_input_path ground_truth_path = (t0, Ok (dt, metrics_list, st0)) ->
  confidence_ready dt.
Proof.
  intros E. apply prepare_ok in E. destruct E as (_ & [tm E] & _).
  unfold confidence_ready. eapply build_matrices_confidence_ready. exact E.
Qed.

(** The run once the guard has passed and the preparation completed. *)
Lemma perform_assessment_prepared (w : World)
    (eval_type eval_input_path eval_input_format ground_truth_path evaluation_path : string)
    (t0 : list event) (dt : Data) (metrics_list : list string) (st0 : State) :
  Py.str_in eval_input_format "predictions" = true ->
  prepare w eval_type eval_input_path ground_truth_path = (t0, Ok (dt, metrics_list, st0)) ->
  perform_assessment w eval_type eval_input_path eval_input_format
    ground_truth_path evaluation_path =
  ((t0 ++ trace (run_metrics w eval_type dt 0 metrics_list st0) ++
    match outcome (run_metrics w eval_type dt 0 metrics_list st0) with
    | Ok st => [Log INFO ("Writing eval results to " ++ report_filename w evaluation_path);
                WriteFile (report_filename w evaluation_path) (eval_dict st)]
    | Raised _ => []
    end)%list,
   outcome (run_metrics w eval_type dt 0 metrics_list st0)).
Proof.
  intros F P. unfold perform_assessment.
  rewrite (check_format_passes _ F), P. simpl.
  destruct (run_metrics w eval_type dt 0 metrics_list st0) as [t [st|e]]; simpl.
  - reflexivity.
  - now rewrite app_nil_r.
Qed.

(* ------------------------------------------------------------------ *)
(** ** Containment of a failing metric *)

(** C4, as the claim states it, fails: [except Exception] does not catch
    an exception that derives from [BaseException] only.  With the
    selected metrics [slow_score] and [accuracy_score], where the call of
    [slow_score] is interrupted (KeyboardInterrupt), the exception
    escapes the run, [accuracy_score] is never called and no report is
    written. *)
Lemma interrupt_escapes_run :
  let r := Examples.run Examples.predictions
             ["sklearn.metrics.slow_score"; "sklearn.metrics.accuracy_score"]
             "predictions" in
  existsb (called "sklearn.metrics" "slow_score") (trace r) = true /\
  outcome r = Raised Py.KeyboardInterrupt /\
  existsb (called "sklearn.metrics" "accuracy_score") (trace r) = false /\
  existsb is_write (trace r) = false.
Proof. vm_compute. repeat split. Qed.

(** C4, amended. When ingestion and configuration loading succeed, every
    selected package can be imported and every exception a metric call
    raises is an instance of [Exception], no exception escapes: the run
    completes and writes the report; every selected metric whose module
    has its method is called; and a method name is a key of the report
    exactly when some call of that name returned, so a call that raised
    only leaves its own entry out. *)
Theorem raising_metric_is_contained (w : World)
    (eval_type eval_input_path eval_input_format ground_truth_path evaluation_path : string)
    (t0 : list event) (dt : Data) (metrics_list : list string) (st0 : State) :
  Py.str_in eval_input_format "predictions" = true ->
  prepare w eval_type eval_input_path ground_truth_path = (t0, Ok (dt, metrics_list, st0)) ->
  forallb (importable w (metric_objects st0)) metrics_list = true ->
  forallb raises_only_Exception
    (trace (perform_assessment w eval_type eval_input_path eval_input_format
              ground_truth_path evaluation_path)) = true ->
  exists t stf,
    perform_assessment w eval_type eval_input_path eval_input_format
      ground_truth_path evaluation_path = (t, Ok stf) /\
    In (WriteFile (report_filename w evaluation_path) (eval_dict stf)) t /\
    (forall ref metric module f,
       In ref metrics_list ->
       Py.get (metric_objects st0) ref = Some metric ->
       import_module w (package metric) = Some module ->
       module (method metric) = Some f ->
       existsb (called (package metric) (method metric)) t = true) /\
    (forall meth, Py.mem (eval_dict stf) meth = existsb (returned meth) t).
Proof.
  intros F P I T.
  rewrite (perform_assessment_prepared _ _ _ _ _ _ _ _ _ _ F P) in T |- *.
  simpl in T. rewrite !forallb_app in T.
  apply andb_true_iff in T. destruct T as [_ T].
  apply andb_true_iff in T. destruct T as [T _].
  destruct (prepare_ok _ _ _ _ _ _ _ _ P) as (_ & _ & Hd & Hc & _ & Q).
  assert (C : cache_sound w st0) by (intros pkg m; rewrite Hc; discriminate).
  destruct (run_metrics_total w eval_type dt metrics_list
              (confidence_ready_prepared _ _ _ _ _ _ _ _ P) 0 st0 C I T) as [stf E].
  pose proof (surjective_run (run_metrics w eval_type dt 0 metrics_list st0)) as Er.
  rewrite E in Er |- *.
  eexists; exists stf. split; [reflexivity|].
  split; [apply in_or_app; right; apply in_or_app; right; simpl; auto|].
  split.
  - intros ref metric module f Hin Hm Hi Hf.
    rewrite !existsb_app. apply orb_true_iff. right. apply orb_true_iff. left.
    eapply run_metrics_calls; eassumption.
  - intros meth. unfold Py.mem.
    rewrite (run_metrics_eval_dict _ _ _ _ meth _ _ _ _ Er), Hd.
    rewrite !existsb_app. simpl. rewrite !orb_false_r.
    assert (Q0 : existsb (returned meth) t0 = false).
    { apply not_true_is_false. intros H. apply existsb_exists in H.
      destruct H as (ev & Hin & Hev).
      assert (existsb is_call t0 = true).
      { apply existsb_exists. exists ev. split; [exact Hin|].
        destruct ev as [| | |p m a o| |]; try discriminate. reflexivity. }
      congruence. }
    rewrite Q0. simpl.
    destruct (last_return meth (trace (run_metrics w eval_type dt 0 metrics_list st0)))
      as [r|] eqn:L.
    + symmetry. apply not_false_is_true. intros H.
      apply last_return_none in H. congruence.
    + symmetry. now apply last_return_none.
Qed.

Lemma raising_metric_is_contained_witness :
  exists t stf,
    Examples.run Examples.predictions
      ["sklearn.metrics.accuracy_score"; "sklearn.metrics.hamming_loss";
       "sklearn.metrics.f1_score"] "predictions" = (t, Ok stf) /\
    In (WriteFile "out/eval_results_1540000000.json" (eval_dict stf)) t /\
    existsb (called "sklearn.metrics" "hamming_loss") t = true /\
    existsb (called "sklearn.metrics" "f1_score") t = true /\
    Py.mem (eval_dict stf) "hamming_loss" = false /\
    Py.mem (eval_dict stf) "accuracy_score" = true /\
    Py.mem (eval_dict stf) "f1_score" = true.
Proof.
  destruct (raising_metric_is_contained
              (Examples.world Examples.predictions
                 ["sklearn.metrics.accuracy_score"; "sklearn.metrics.hamming_loss";
                  "sklearn.metrics.f1_score"])
              "MultilabelClassification" "in" "predictions" "gt" "out"
              _ _ _ _ eq_refl eq_refl eq_refl eq_refl)
    as (t & stf & E & W & Hcalls & Hkeys).
  exists t, stf. split; [exact E|]. split; [exact W|].
  split.
  { refine (Hcalls "sklearn.metrics.hamming_loss" _ Examples.sklearn_metrics _ _ eq_refl eq_refl eq_refl).
    simpl; auto. }
  split.
  { refine (Hcalls "sklearn.metrics.f1_score" _ Examples.sklearn_metrics _ _ eq_refl eq_refl eq_refl).
    simpl; auto. }
  rewrite !Hkeys.
  assert (Et : t = trace (Examples.run Examples.predictions
      ["sklearn.metrics.accuracy_score"; "sklearn.metrics.hamming_loss";
       "sklearn.metrics.f1_score"] "predictions")).
  { unfold Examples.run. now rewrite E. }
  rewrite Et. vm_compute. repeat split.
Defined.

(* ------------------------------------------------------------------ *)
(** ** The all-or-nothing confidence column *)

Lemma hasnans_sorted (df : DataFrame) (name by_ : string) :
  hasnans (sort_values df by_) name = hasnans df name.
Proof.
  unfold hasnans, series. simpl.
  apply eq_true_iff_eq. rewrite !existsb_exists.
  pose proof (sort_rows_perm (cell df by_) (rows df)) as P.
  split; intros (c & Hin & Hc); exists c; (split; [|exact Hc]);
    apply in_map_iff in Hin; destruct Hin as (r & <- & Hr); apply in_map_iff; exists r;
    (split; [reflexivity|]).
  - exact (Permutation_in _ (Permutation_sym P) Hr).
  - exact (Permutation_in _ P Hr).
Qed.

Lemma scores_free_spec (args : Py.dict arg_value) :
  scores_free args = true ->
  forall name m, ~ In (name, PredictionScores m) args.
Proof.
  unfold scores_free. rewrite forallb_forall. intros H name m Hin.
  specialize (H _ Hin). discriminate.
Qed.

(** C5. In every run whose predictions file has a row without a
    confidence field, whatever the evaluation type and whatever the
    descriptors declare, no metric call receives the confidence matrix
    under any argument name. *)
Theorem null_confidence_never_bound (w : World)
    (eval_type eval_input_path eval_input_format ground_truth_path evaluation_path : string)
    (has_header : bool) (lines data : list (list string)) (row : list string) :
  csv_files w (Py.path_join eval_input_path "predictions.csv") = Some (has_header, lines) ->
  outcome (csv_rows has_header lines) = Ok data ->
  In row data ->
  cell (pandas_DataFrame results_cols data) "confidence" row = None ->
  forall pkg meth args o,
    In (Call pkg meth args o)
      (trace (perform_assessment w eval_type eval_input_path eval_input_format
                ground_truth_path evaluation_path)) ->
    forall name m, ~ In (name, PredictionScores m) args.
Proof.
  intros Hf Hd Hrow Hnull pkg meth args o Hin.
  apply scores_free_spec.
  assert (G : forallb call_without_scores
                (trace (perform_assessment w eval_type eval_input_path eval_input_format
                          ground_truth_path evaluation_path)) = true).
  { destruct (Py.str_in eval_input_format "predictions") eqn:F;
      [|now rewrite unsupported_format_raises_first].
    pose proof (prepare_quiet w eval_type eval_input_path ground_truth_path) as Q.
    assert (Q' : forallb call_without_scores
                   (trace (prepare w eval_type eval_input_path ground_truth_path)) = true).
    { apply no_calls_forallb; [|exact Q]. now intros [| | |? ? ? ?| |]. }
    destruct (prepare w eval_type eval_input_path ground_truth_path)
      as [t0 [[[dt metrics_list] st0]|e]] eqn:P.
    - rewrite (perform_assessment_prepared _ _ _ _ _ _ _ _ _ _ F P). simpl.
      rewrite !forallb_app. simpl in Q'. rewrite Q'. simpl.
      destruct (prepare_ok _ _ _ _ _ _ _ _ P)
        as ((h & lines' & data' & H1 & H2 & H3) & _ & _ & _ & S & _).
      rewrite Hf in H1. inversion H1; subst h lines'. rewrite Hd in H2.
      inversion H2; subst data'.
      rewrite run_metrics_scores_free; [|rewrite H3, hasnans_sorted|exact S].
      + simpl. now destruct (outcome (run_metrics w eval_type dt 0 metrics_list st0)).
      + unfold hasnans, series. apply existsb_exists.
        exists None. split; [|reflexivity].
        rewrite <- Hnull. now apply in_map.
    - unfold perform_assessment. rewrite (check_format_passes _ F), P. exact Q'. }
  rewrite forallb_forall in G. exact (G _ Hin).
Qed.

Lemma null_confidence_never_bound_witness :
  In ["1"; "b a"] Examples.predictions_missing_confidence /\
  existsb (called "sklearn.metrics" "roc_auc_score")
    (trace (Examples.run Examples.predictions_missing_confidence
              ["sklearn.metrics.roc_auc_score"] "predictions")) = true /\
  forall pkg meth args o,
    In (Call pkg meth args o)
      (trace (Examples.run Examples.predictions_missing_confidence
                ["sklearn.metrics.roc_auc_score"] "predictions")) ->
    forall name m, ~ In (name, PredictionScores m) args.
Proof.
  split; [simpl; auto|]. split; [vm_compute; reflexivity|].
  apply (null_confidence_never_bound
           (Examples.world Examples.predictions_missing_confidence
              ["sklearn.metrics.roc_auc_score"])
           "MultilabelClassification" "in" "predictions" "gt" "out"
           false Examples.predictions_missing_confidence
           Examples.predictions_missing_confidence ["1"; "b a"]).
  - reflexivity.
  - reflexivity.
  - simpl; auto.
  - reflexivity.
Defined.

(* ------------------------------------------------------------------ *)
(** ** The result mapping is keyed by method name *)

(** C10. The result mapping is keyed by the method name alone.  When a
    run of the loop, starting from the empty mapping, calls a method
    named [meth] of package [pkg1] and later one of the same name of
    another package [pkg2], both calls return and no later call of that
    name returns, the mapping holds under [meth] the normalised result of
    the later call, and [meth] occurs once among its keys. *)
Theorem later_same_method_overwrites (w : World) (eval_type : string) (dt : Data)
    (counter : nat) (metrics_list : list string) (st stf : State)
    (t t1 t2 : list event) (pkg1 pkg2 meth : string)
    (args1 args2 : Py.dict arg_value) (r1 r2 : raw_result) :
  eval_dict st = [] ->
  run_metrics w eval_type dt counter metrics_list st = (t, Ok stf) ->
  t = (t1 ++ Call pkg2 meth args2 (Returns r2) :: t2)%list ->
  In (Call pkg1 meth args1 (Returns r1)) t1 ->
  pkg1 <> pkg2 ->
  existsb (returned meth) t2 = false ->
  Py.get (eval_dict stf) meth =
    Some (normalize eval_type (label_classes (matrices dt)) r2) /\
  count_occ string_dec (Py.keys (eval_dict stf)) meth = 1.
Proof.
  intros H0 E -> Hin Hp Hlast.
  assert (G : Py.get (eval_dict stf) meth =
              Some (normalize eval_type (label_classes (matrices dt)) r2)).
  { rewrite (run_metrics_eval_dict _ _ _ _ meth _ _ _ _ E).
    rewrite last_return_app. simpl.
    apply last_return_none in Hlast. rewrite Hlast.
    now rewrite String.eqb_refl. }
  split; [exact G|].
  assert (N : NoDup (Py.keys (eval_dict stf))).
  { eapply run_metrics_keys_nodup; [exact E|]. rewrite H0. constructor. }
  assert (K : In meth (Py.keys (eval_dict stf))).
  { apply get_in_keys. congruence. }
  rewrite (NoDup_count_occ string_dec) in N. specialize (N meth).
  apply (count_occ_In string_dec) in K. lia.
Qed.

Lemma later_same_method_overwrites_witness :
  let r := run_metrics (Examples.world Examples.predictions [])
             "MultilabelClassification" Examples.no_rows 0
             ["sklearn.metrics.accuracy_score"; "sklearn.metrics.hamming_loss";
              "other.metrics.accuracy_score"] Examples.state0 in
  exists t stf,
    r = (t, Ok stf) /\
    Py.get (eval_dict stf) "accuracy_score" = Some (Py.VFloat 0.25) /\
    count_occ string_dec (Py.keys (eval_dict stf)) "accuracy_score" = 1.
Proof.
  intros r. eexists. eexists. split; [vm_compute; reflexivity|].
  eapply (later_same_method_overwrites
            (Examples.world Examples.predictions [])
            "MultilabelClassification" Examples.no_rows 0
            ["sklearn.metrics.accuracy_score"; "sklearn.metrics.hamming_loss";
             "other.metrics.accuracy_score"] Examples.state0 _
            (trace r) (firstn 13 (trace r)) (skipn 14 (trace r))
            "sklearn.metrics" "other.metrics" "accuracy_score"
            [("normalize", Default (Py.VBool true));
             ("y_true", TruthLabels []); ("y_pred", PredictionLabels [])]
            [("y_true", TruthLabels []); ("y_pred", PredictionLabels [])]
            (NpGeneric (Py.VFloat 0.5)) (Native (Py.VFloat 0.25))).
  - reflexivity.
  - vm_compute. reflexivity.
  - vm_compute. reflexivity.
  - vm_compute. do 2 right. left. reflexivity.
  - discriminate.
  - vm_compute. reflexivity.
Defined.

(* ------------------------------------------------------------------ *)
(** ** Descriptors and the call arguments *)

(** A descriptor without [default_args], or with an empty one, is left
    as it was: [args] is then a new dictionary. *)
Lemma fresh_args_leave_descriptor (ref : string) (metric : Metric)
    (args : Py.dict arg_value) (st : State) :
  args_aliased metric = false -> store_args ref metric args st = st.
Proof. unfold store_args. now intros ->. Qed.

(** A descriptor with a non-empty [default_args] comes to hold every
    argument bound for the call: [args] is that very dictionary. *)
Lemma aliased_args_reach_descriptor (ref : string) (metric : Metric)
    (args : Py.dict arg_value) (st : State) :
  args_aliased metric = true ->
  option_map default_args
    (Py.get (metric_objects (store_args ref metric args st)) ref) = Some (Some args).
Proof.
  unfold store_args. intros ->. simpl. now rewrite get_set_same.
Qed.

(** C8 (the code departs from the claim). The descriptor of
    [sklearn.metrics.accuracy_score] is loaded with the [default_args]
    [{normalize: true}]; after the run its [default_args] also holds the
    two label matrices under [y_true] and [y_pred], because line 196 uses
    the descriptor's own dictionary as [args] and lines 198 and 204
    assign into it. *)
Theorem default_args_mutated_by_run :
  exists st metric,
    outcome (Examples.run Examples.predictions
               ["sklearn.metrics.accuracy_score"] "predictions") = Ok st /\
    Py.get (load_metric_objects Examples.catalog) "sklearn.metrics.accuracy_score" =
      Some (deserialize_model
              (Examples.entry "sklearn.metrics" "accuracy_score"
                 (Some [("normalize", Py.VBool true)]) Examples.labels_dp)) /\
    default_args
      (deserialize_model
         (Examples.entry "sklearn.metrics" "accuracy_score"
            (Some [("normalize", Py.VBool true)]) Examples.labels_dp)) =
      Some [("normalize", Default (Py.VBool true))] /\
    Py.get (metric_objects st) "sklearn.metrics.accuracy_score" = Some metric /\
    default_args metric =
      Some [("normalize", Default (Py.VBool true));
            ("y_true", TruthLabels [Indicator [true; true; false];
                                    Indicator [false; true; true];
                                    Indicator [true; false; true]]);
            ("y_pred", PredictionLabels [Indicator [true; true; false];
                                         Indicator [false; true; true];
                                         Indicator [true; true; false]])].
Proof.
  eexists. eexists.
  split; [vm_compute; reflexivity|].
  split; [vm_compute; reflexivity|].
  split; [reflexivity|].
  split; vm_compute; reflexivity.
Qed.

(* ------------------------------------------------------------------ *)
(** ** The label vocabulary *)

Lemma compare_gt_lt (x y : string) :
  String.compare x y = Gt -> String_as_OT.lt y x.
Proof.
  intros H. apply String_as_OT.cmp_lt. unfold String_as_OT.cmp.
  rewrite String.compare_antisym, H. reflexivity.
Qed.

Lemma insert_label_in (x y : string) (l : list string) :
  In y (insert_label x l) <-> y = x \/ In y l.
Proof.
  induction l as [|z l IH]; simpl; [intuition|].
  destruct (String.compare x z) eqn:E; simpl.
  - apply String_as_OT.cmp_eq in E. subst z. intuition.
  - intuition.
  - rewrite IH. intuition.
Qed.

Lemma sorted_set_in (x : string) (tokens : list string) :
  In x (sorted_set tokens) <-> In x tokens.
Proof.
  induction tokens as [|y tokens IH]; simpl; [tauto|].
  rewrite insert_label_in, IH. intuition.
Qed.

Lemma insert_label_sorted (x : string) (l : list string) :
  StronglySorted String_as_OT.lt l -> StronglySorted String_as_OT.lt (insert_label x l).
Proof.
  induction 1 as [|y l Hs IH Hall]; simpl.
  - repeat constructor.
  - destruct (String.compare x y) eqn:E.
    + now constructor.
    + apply String_as_OT.cmp_lt in E.
      constructor; [now constructor|].
      constructor; [exact E|].
      eapply Forall_impl; [|exact Hall].
      intros z Hz. eapply String_as_OT.lt_trans; eassumption.
    + constructor; [exact IH|].
      apply Forall_forall. intros z Hz. apply insert_label_in in Hz.
      destruct Hz as [->|Hz]; [now apply compare_gt_lt|].
      rewrite Forall_forall in Hall. now apply Hall.
Qed.

Lemma sorted_set_sorted (tokens : list string) :
  StronglySorted String_as_OT.lt (sorted_set tokens).
Proof.
  induction tokens; simpl; [constructor|now apply insert_label_sorted].
Qed.

(** The vocabulary lists each label once. *)
Lemma mlb_fit_nodup (y : list (list string)) : NoDup (mlb_fit y).
Proof.
  unfold mlb_fit. generalize (sorted_set_sorted (concat y)).
  induction 1 as [|x l Hs IH Hall]; constructor; [|exact IH].
  intros Hin. rewrite Forall_forall in Hall.
  exact (String_as_OT.lt_not_eq _ _ (Hall _ Hin) eq_refl).
Qed.

Lemma mlb_fit_in (y : list (list string)) (row : list string) (col : string) :
  In row y -> In col row -> In col (mlb_fit y).
Proof.
  intros Hr Hc. unfold mlb_fit. apply sorted_set_in.
  apply in_concat. eauto.
Qed.

Lemma list_index_in (x : string) (l : list string) :
  In x l -> exists pos, list_index x l = Some pos.
Proof.
  induction l as [|y l IH]; simpl; [contradiction|].
  intros H. destruct (String.eqb x y) eqn:E; [eauto|].
  apply String.eqb_neq in E.
  destruct H as [H|H]; [congruence|].
  destruct (IH H) as [pos ->]. simpl. eauto.
Qed.

Lemma list_index_nth (x : string) (l : list string) (pos : nat) :
  list_index x l = Some pos -> nth_error l pos = Some x /\ pos < length l.
Proof.
  revert pos. induction l as [|y l IH]; simpl; intros pos; [discriminate|].
  destruct (String.eqb x y) eqn:E.
  - apply String.eqb_eq in E. intros H. inversion H; subst. simpl. split; [reflexivity|lia].
  - destruct (list_index x l) as [p|]; simpl; [|discriminate].
    intros H. inversion H; subst. destruct (IH p eq_refl). simpl. split; [assumption|lia].
Qed.

Lemma length_set_nth {A} (n : nat) (v : A) (a : list A) :
  length (set_nth n v a) = length a.
Proof.
  revert n. induction a as [|x a IH]; intros [|n]; simpl; auto.
Qed.

Lemma nth_set_nth_same {A} (n : nat) (v : A) (a : list A) :
  n < length a -> nth_error (set_nth n v a) n = Some v.
Proof.
  revert n. induction a as [|x a IH]; intros [|n]; simpl; try lia; auto.
  intros H. apply IH. lia.
Qed.

Lemma nth_set_nth_other {A} (n m : nat) (v : A) (a : list A) :
  m <> n -> nth_error (set_nth n v a) m = nth_error a m.
Proof.
  revert n m. induction a as [|x a IH]; intros [|n] [|m]; simpl; try congruence; auto.
Qed.

(* ------------------------------------------------------------------ *)
(** ** The confidence matrix *)

(** The inner loop: the row keeps its length; a column no token of the
    row maps to keeps its entry; the column of a token holds the
    confidence that stands where the token occurs last. *)
Lemma fill_confidence_row_spec (w : World) (label_classes confs : list string) :
  forall (row : list string) (col_index : nat) (acc out : list float) (t : list event),
  fill_confidence_row w label_classes confs row col_index acc = (t, Ok out) ->
  length acc = length label_classes ->
  length out = length acc /\
  (forall pos, (forall tok, In tok row -> list_index tok label_classes <> Some pos) ->
               nth_error out pos = nth_error acc pos) /\
  (forall k tok, last_occurrence row k tok ->
     exists pos conf x,
       list_index tok label_classes = Some pos /\
       nth_error confs (col_index + k) = Some conf /\
       np_float64 w conf = Some x /\
       nth_error out pos = Some x).
Proof.
  induction row as [|col row IH]; simpl; intros col_index acc out t E L.
  - inversion E; subst. split; [reflexivity|]. split; [reflexivity|].
    intros k tok [H _]. now destruct k.
  - destruct (list_index col label_classes) as [label_pos|] eqn:Hi; [|discriminate].
    destruct (nth_error confs col_index) as [conf|] eqn:Hc; [|discriminate].
    destruct (np_float64 w conf) as [x|] eqn:Hx; [|discriminate].
    apply IH in E; [|now rewrite length_set_nth].
    destruct E as (E1 & E2 & E3). rewrite length_set_nth in E1.
    split; [exact E1|]. split.
    + intros pos Hpos. rewrite E2 by (intros tok Ht; apply Hpos; now right).
      apply nth_set_nth_other. intros ->. apply (Hpos col); [now left|exact Hi].
    + intros [|k] tok [Hk Hlast]; simpl in Hk.
      * inversion Hk; subst tok. exists label_pos, conf, x.
        rewrite Nat.add_0_r. repeat split; try assumption.
        rewrite E2.
        -- apply nth_set_nth_same. destruct (list_index_nth _ _ _ Hi). lia.
        -- intros tok Ht Hidx.
           destruct (list_index_nth _ _ _ Hi) as [N1 _].
           destruct (list_index_nth _ _ _ Hidx) as [N2 _].
           assert (tok = col) by congruence. subst tok.
           apply In_nth_error in Ht. destruct Ht as [k' Hk'].
           apply (Hlast (S k')); [lia|exact Hk'].
      * destruct (E3 k tok) as (pos & conf' & x' & H1 & H2 & H3 & H4).
        { split; [exact Hk|]. intros k' Hlt. apply (Hlast (S k')). lia. }
        exists pos, conf', x'. rewrite Nat.add_succ_r. now repeat split.
Qed.

Lemma nth_repeat_zero (n pos : nat) :
  pos < n -> nth_error (repeat 0%float n) pos = Some 0%float.
Proof.
  revert pos. induction n as [|n IH]; intros [|pos] H; simpl; try lia; auto.
  apply IH. lia.
Qed.

(** The outer loop: one row of floats per row of labels, filled from the
    confidences of the same row. *)
Lemma build_confidence_spec (w : World) (label_classes : list string) :
  forall (labels confs : list (list string)) (cm : matrix) (t : list event),
  build_confidence w label_classes labels confs = (t, Ok cm) ->
  length cm = length labels /\
  forall i row, nth_error labels i = Some row ->
    exists cs xs t',
      nth_error confs i = Some cs /\
      nth_error cm i = Some (Floats xs) /\
      fill_confidence_row w label_classes cs row 0
        (repeat 0%float (length label_classes)) = (t', Ok xs).
Proof.
  induction labels as [|row labels IH]; simpl; intros confs cm t E.
  - inversion E; subst. split; [reflexivity|]. intros [|i] r H; discriminate.
  - destruct confs as [|cs confs]; [discriminate|].
    invert_bind E. invert_bind E. invert_ret E.
    apply IH in E1. destruct E1 as [L R].
    split; [simpl; now rewrite L|].
    intros [|i] r H; simpl in H.
    + inversion H; subst r. exists cs, a, t0. now repeat split.
    + exact (R i r H).
Qed.

Lemma iterable_rows_ok (y : list (option (list string))) :
  forall (rows : list (list string)) (t : list event),
  iterable_rows y = (t, Ok rows) -> y = map Some rows.
Proof.
  induction y as [|[row|] y IH]; simpl; intros rows t E.
  - inversion E; subst. reflexivity.
  - invert_bind E. invert_ret E. simpl. f_equal. eapply IH. exact E0.
  - discriminate.
Qed.

Lemma parsed_column_ok (df : DataFrame) (name : string)
    (p : shape * list (option (list string))) (t : list event) :
  parsed_column df name = (t, Ok p) ->
  snd p = map (option_map Py.split) (series df name).
Proof.
  unfold parsed_column, series.
  destruct (dtype_object df name); [intros E; now inversion E|].
  destruct (rows df); intros E; now inversion E.
Qed.

Lemma np_append_axis0_ok (a b : shape * list (option (list string)))
    (y : list (option (list string))) (t : list event) :
  np_append_axis0 a b = (t, Ok y) -> y = (snd a ++ snd b)%list.
Proof.
  unfold np_append_axis0.
  destruct (fst a) as [|k], (fst b) as [|k']; try discriminate.
  - intros E. now inversion E.
  - destruct (k =? k')%nat; [|discriminate]. intros E. now inversion E.
Qed.

Lemma map_Some_app {A} (l : list A) (l1 l2 : list (option A)) :
  (l1 ++ l2)%list = map Some l ->
  exists r1 r2, l1 = map Some r1 /\ l2 = map Some r2 /\ l = (r1 ++ r2)%list.
Proof.
  revert l. induction l1 as [|x l1 IH]; simpl; intros l E.
  - exists [], l. auto.
  - destruct l as [|a l]; [discriminate|]. simpl in E. inversion E; subst.
    destruct (IH _ H1) as (r1 & r2 & -> & -> & ->).
    exists (a :: r1), r2. auto.
Qed.

Lemma map_Some_inj {A} (l l' : list A) : map Some l = map Some l' -> l = l'.
Proof.
  revert l'. induction l as [|a l IH]; intros [|a' l'] E; try discriminate; auto.
  simpl in E. inversion E. f_equal. auto.
Qed.

(** What a completed classification branch leaves behind. *)
Lemma build_matrices_classification (w : World) (eval_type : string)
    (truth results : DataFrame) (t : list event) (mx : Matrices) :
  is_classification eval_type = true ->
  build_matrices w eval_type truth results = (t, Ok mx) ->
  exists truth_rows results_rows,
    map Some truth_rows = map (option_map Py.split) (series truth "labels") /\
    map Some results_rows = map (option_map Py.split) (series results "labels") /\
    label_classes mx = mlb_fit (truth_rows ++ results_rows) /\
    truth_labels_matrix mx = mlb_transform (label_classes mx) truth_rows /\
    results_labels_matrix mx = mlb_transform (label_classes mx) results_rows /\
    (has_column results "confidence" && negb (hasnans results "confidence") = true ->
     exists conf_rows cm tc,
       map Some conf_rows = map (option_map Py.split) (series results "confidence") /\
       build_confidence w (label_classes mx) results_rows conf_rows = (tc, Ok cm) /\
       confidence_matrix mx = Some cm).
Proof.
  intros C E. unfold build_matrices in E. rewrite C in E.
  repeat invert_bind E. invert_ret E. simpl.
  match goal with
  | Hpt : parsed_column truth _ = (_, Ok ?pt),
    Hpr : parsed_column results _ = (_, Ok ?pr),
    Ha : np_append_axis0 ?pt ?pr = (_, Ok ?app),
    Hy : iterable_rows ?app = (_, Ok ?y),
    Ht : iterable_rows (snd ?pt) = (_, Ok ?yt),
    Hr : iterable_rows (snd ?pr) = (_, Ok ?yr) |- _ =>
      apply parsed_column_ok in Hpt, Hpr;
      apply np_append_axis0_ok in Ha;
      apply iterable_rows_ok in Hy, Ht, Hr;
      assert (Hsplit : y = (yt ++ yr)%list)
        by (apply map_Some_inj; rewrite <- Hy, Ha, map_app; congruence);
      subst y; exists yt, yr
  end.
  split; [congruence|]. split; [congruence|].
  split; [reflexivity|]. split; [reflexivity|]. split; [reflexivity|].
  intros Hc.
  match goal with
  | H : (if has_column _ _ && _ then _ else _) = _ |- _ =>
      rewrite Hc in H; repeat invert_bind H; invert_ret H
  end.
  match goal with
  | Hpc : parsed_column results "confidence" = (_, Ok ?pc),
    Hyc : iterable_rows (snd ?pc) = (_, Ok ?yc),
    Hb : build_confidence _ _ _ ?yc = (?tc, Ok ?cm) |- _ =>
      apply parsed_column_ok in Hpc; apply iterable_rows_ok in Hyc;
      exists yc, cm, tc
  end.
  split; [congruence|]. split; [assumption|reflexivity].
Qed.

Lemma rows_of_column (df : DataFrame) (name : string) (parsed : list (list string))
    (i : nat) (r : list string) :
  map Some parsed = map (option_map Py.split) (series df name) ->
  nth_error (rows df) i = Some r ->
  exists s, cell df name r = Some s /\ nth_error parsed i = Some (Py.split s).
Proof.
  intros E Hr.
  assert (H : nth_error (map Some parsed) i = Some (option_map Py.split (cell df name r))).
  { rewrite E. unfold series. rewrite map_map.
    exact (map_nth_error (fun x => option_map Py.split (cell df name x)) i (rows df) Hr). }
  rewrite nth_error_map in H.
  destruct (nth_error parsed i) as [ls|]; [|discriminate]. simpl in H.
  destruct (cell df name r) as [s|]; [|discriminate]. simpl in H.
  exists s. split; congruence.
Qed.

(** C7, as the claim states it, fails for a row that names a label twice:
    the row [a a] with the confidences [0.125 1] gets the entry 1 in the
    column of [a], so the column of its first label token does not hold
    its first confidence token. *)
Lemma repeated_label_breaks_alignment :
  let w := Examples.world Examples.predictions_repeated_label [] in
  let results := pandas_DataFrame results_cols Examples.predictions_repeated_label in
  let truth := pandas_DataFrame truth_cols Examples.ground_truth in
  exists mx,
    outcome (build_matrices w "MultilabelClassification"
               (fst (reconcile truth results)) (snd (reconcile truth results))) = Ok mx /\
    label_classes mx = ["a"; "b"] /\
    confidence_matrix mx = Some [Floats [1%float; 0%float]] /\
    ~ positionally_aligned w ["a"; "b"] (Py.split "a a") (Py.split "0.125 1")
        [1%float; 0%float].
Proof.
  eexists. split; [vm_compute; reflexivity|].
  split; [reflexivity|]. split; [reflexivity|].
  intros H. destruct (H 0 "a" "0.125" eq_refl eq_refl) as (pos & x & H1 & H2 & H3).
  vm_compute in H1, H2. inversion H1; subst pos. inversion H2; subst x.
  simpl in H3. inversion H3.
Qed.

(** C7, amended. In a multilabel or multiclass run whose confidence
    column has no null, the confidence matrix has one row per prediction
    row and one column per vocabulary label, as the label-indicator
    matrix has, in the same column order; in each row, the entry of a
    label that is not among the row's label tokens is zero, and the entry
    of a label token holds the confidence token that stands where the
    label occurs last in the row, as a number (for a row of distinct
    label tokens: the k-th confidence token for the k-th label token). *)
Theorem confidence_matrix_aligned (w : World) (eval_type : string)
    (truth results : DataFrame) (t : list event) (mx : Matrices) :
  is_classification eval_type = true ->
  columns results = results_cols ->
  hasnans results "confidence" = false ->
  build_matrices w eval_type truth results = (t, Ok mx) ->
  exists cm,
    confidence_matrix mx = Some cm /\
    length cm = length (results_labels_matrix mx) /\
    forall i r, nth_error (rows results) i = Some r ->
      exists labels conf xs,
        cell results "labels" r = Some labels /\
        cell results "confidence" r = Some conf /\
        nth_error (results_labels_matrix mx) i =
          Some (Indicator (map (fun c => existsb (String.eqb c) (Py.split labels))
                             (label_classes mx))) /\
        nth_error cm i = Some (Floats xs) /\
        length xs = length (label_classes mx) /\
        (forall pos c, nth_error (label_classes mx) pos = Some c ->
                       ~ In c (Py.split labels) ->
                       nth_error xs pos = Some 0%float) /\
        (forall k tok, last_occurrence (Py.split labels) k tok ->
           exists pos c x,
             list_index tok (label_classes mx) = Some pos /\
             nth_error (Py.split conf) k = Some c /\
             np_float64 w c = Some x /\
             nth_error xs pos = Some x).
Proof.
  intros C Hcols Hn E.
  destruct (build_matrices_classification _ _ _ _ _ _ C E)
    as (truth_rows & results_rows & Ht & Hr & Hcl & Htm & Hrm & Hconf).
  destruct Hconf as (conf_rows & cm & tc & Hc & Hb & Hcm).
  { unfold has_column. rewrite Hcols, Hn. reflexivity. }
  apply build_confidence_spec in Hb. destruct Hb as [Hlen Hrows].
  exists cm. split; [exact Hcm|].
  split; [rewrite Hrm; unfold mlb_transform; now rewrite length_map|].
  intros i r Hi.
  destruct (rows_of_column _ _ _ _ _ Hr Hi) as (labels & Hl1 & Hl2).
  destruct (rows_of_column _ _ _ _ _ Hc Hi) as (conf & Hc1 & Hc2).
  destruct (Hrows _ _ Hl2) as (cs & xs & t' & Hcs & Hxs & Hfill).
  assert (cs = Py.split conf) by congruence. subst cs.
  apply fill_confidence_row_spec in Hfill; [|apply repeat_length].
  destruct Hfill as (F1 & F2 & F3). rewrite repeat_length in F1.
  exists labels, conf, xs.
  split; [exact Hl1|]. split; [exact Hc1|].
  split; [rewrite Hrm; unfold mlb_transform; now rewrite (map_nth_error _ _ _ Hl2)|].
  split; [exact Hxs|]. split; [exact F1|]. split.
  - intros pos c Hp Hnot. rewrite F2.
    + apply nth_repeat_zero. apply nth_error_Some. congruence.
    + intros tok Ht' Hidx. apply list_index_nth in Hidx. destruct Hidx as [Hidx _].
      assert (tok = c) by congruence. subst tok. contradiction.
  - intros k tok Hk. exact (F3 k tok Hk).
Qed.

Lemma confidence_matrix_aligned_witness :
  let w := Examples.world Examples.predictions [] in
  let results := pandas_DataFrame results_cols Examples.predictions in
  let truth := pandas_DataFrame truth_cols Examples.ground_truth in
  hasnans (snd (reconcile truth results)) "confidence" = false /\
  exists mx cm,
    outcome (build_matrices w "MultilabelClassification"
               (fst (reconcile truth results)) (snd (reconcile truth results))) = Ok mx /\
    confidence_matrix mx = Some cm /\
    length cm = length (results_labels_matrix mx).
Proof.
  intros w results truth. split; [reflexivity|].
  destruct (confidence_matrix_aligned w "MultilabelClassification"
              (fst (reconcile truth results)) (snd (reconcile truth results))
              _ _ eq_refl eq_refl eq_refl eq_refl) as (cm & H1 & H2 & _).
  eexists. exists cm. split; [reflexivity|]. split; [exact H1|exact H2].
Defined.

(* ------------------------------------------------------------------ *)
(** ** The vocabulary lookup *)

Lemma lookup_safe_ret {A} (a : A) : lookup_safe (ret a).
Proof. intros e H. discriminate. Qed.

Lemma lookup_safe_raise {A} (e : Py.exc) :
  is_not_in_list e = false -> lookup_safe (@raise A e).
Proof. intros H e' E. simpl in E. now inversion E; subst. Qed.

Lemma lookup_safe_bind {A B} (c : M A) (k : A -> M B) :
  lookup_safe c -> (forall a, outcome c = Ok a -> lookup_safe (k a)) ->
  lookup_safe (bind c k).
Proof.
  intros Hc Hk e E. rewrite outcome_bind in E.
  destruct (outcome c) as [a|e'] eqn:O.
  - exact (Hk a eq_refl e E).
  - inversion E; subst. now apply Hc.
Qed.

Create HintDb lookup.
#[local] Hint Resolve lookup_safe_ret : lookup.

Ltac lookup :=
  repeat first
    [ solve [auto with lookup]
    | apply lookup_safe_ret
    | apply lookup_safe_raise; reflexivity
    | apply lookup_safe_bind; [|intros ? ?]
    | match goal with
      | |- lookup_safe (match ?x with _ => _ end) => destruct x
      end
    | progress cbv beta zeta ].

Lemma iterable_rows_lookup_safe (y : list (option (list string))) :
  lookup_safe (iterable_rows y).
Proof. induction y as [|[row|] y IH]; simpl; lookup. Qed.
#[local] Hint Resolve iterable_rows_lookup_safe : lookup.

Lemma parsed_column_lookup_safe (df : DataFrame) (name : string) :
  lookup_safe (parsed_column df name).
Proof. unfold parsed_column. lookup. Qed.
#[local] Hint Resolve parsed_column_lookup_safe : lookup.

Lemma np_append_axis0_lookup_safe (a b : shape * list (option (list string))) :
  lookup_safe (np_append_axis0 a b).
Proof. unfold np_append_axis0. lookup. Qed.
#[local] Hint Resolve np_append_axis0_lookup_safe : lookup.

Lemma float_tokens_lookup_safe (w : World) (ts : list string) :
  lookup_safe (float_tokens w ts).
Proof. induction ts as [|tok ts IH]; simpl; lookup. Qed.
#[local] Hint Resolve float_tokens_lookup_safe : lookup.

Lemma float_rows_lookup_safe (w : World) (cells : list (option string)) :
  lookup_safe (float_rows w cells).
Proof. induction cells as [|[s|] cells IH]; simpl; lookup. Qed.
#[local] Hint Resolve float_rows_lookup_safe : lookup.

(** With every token of the row in the vocabulary, the inner loop does
    not end in the lookup error. *)
Lemma fill_confidence_row_lookup_safe (w : World) (label_classes confs : list string) :
  forall (row : list string) (col_index : nat) (acc : list float),
  Forall (fun col => In col label_classes) row ->
  lookup_safe (fill_confidence_row w label_classes confs row col_index acc).
Proof.
  induction row as [|col row IH]; simpl; intros col_index acc H; [lookup|].
  inversion H as [|? ? Hcol Hrow]; subst.
  destruct (list_index_in _ _ Hcol) as [pos ->].
  destruct (nth_error confs col_index); [|lookup].
  destruct (np_float64 w s); [|lookup].
  now apply IH.
Qed.

Lemma build_confidence_lookup_safe (w : World) (label_classes : list string) :
  forall (labels confs : list (list string)),
  Forall (Forall (fun col => In col label_classes)) labels ->
  lookup_safe (build_confidence w label_classes labels confs).
Proof.
  induction labels as [|row labels IH]; simpl; intros confs H; [lookup|].
  inversion H; subst.
  destruct confs as [|cs confs]; [lookup|].
  apply lookup_safe_bind; [now apply fill_confidence_row_lookup_safe|].
  intros xs _. apply lookup_safe_bind; [now apply IH|]. intros; lookup.
Qed.

Lemma build_matrices_lookup_safe (w : World) (eval_type : string)
    (truth results : DataFrame) :
  lookup_safe (build_matrices w eval_type truth results).
Proof.
  unfold build_matrices, regression_column.
  destruct (is_classification eval_type); [|lookup].
  apply lookup_safe_bind; [lookup|]. intros pt _.
  apply lookup_safe_bind; [lookup|]. intros pr _.
  apply lookup_safe_bind; [lookup|]. intros appended Ha.
  apply lookup_safe_bind; [lookup|]. intros y Hy. cbv zeta.
  apply lookup_safe_bind; [lookup|]. intros yt Ht.
  apply lookup_safe_bind; [lookup|]. intros yr Hr.
  apply lookup_safe_bind; [|intros; lookup].
  destruct (has_column results "confidence" && negb (hasnans results "confidence"));
    [|lookup].
  apply lookup_safe_bind; [lookup|]. intros pc _.
  apply lookup_safe_bind; [lookup|]. intros yc _.
  apply lookup_safe_bind; [|intros; lookup].
  apply build_confidence_lookup_safe.
  pose proof (surjective_run (np_append_axis0 pt pr)) as E0. rewrite Ha in E0.
  pose proof (surjective_run (iterable_rows appended)) as E1. rewrite Hy in E1.
  pose proof (surjective_run (iterable_rows (snd pt))) as E2. rewrite Ht in E2.
  pose proof (surjective_run (iterable_rows (snd pr))) as E3. rewrite Hr in E3.
  apply np_append_axis0_ok in E0. apply iterable_rows_ok in E1, E2, E3.
  assert (y = (yt ++ yr)%list).
  { apply map_Some_inj. rewrite <- E1, E0, map_app. congruence. }
  subst y. apply Forall_forall. intros row Hrow.
  apply Forall_forall. intros col Hcol.
  eapply mlb_fit_in; [apply in_or_app; right; exact Hrow|exact Hcol].
Qed.

(** C9. The vocabulary is fitted over the label rows of the ground truth
    followed by those of the predictions, so every label token of a
    prediction row has a position in it; and building the matrices never
    ends in the error of a failed lookup, [ValueError: 'col' is not in
    list]. *)
Theorem vocabulary_lookup_succeeds :
  (forall (truth_rows results_rows : list (list string)) (row : list string) (col : string),
      In row results_rows -> In col row ->
      exists pos,
        list_index col (mlb_fit (truth_rows ++ results_rows)) = Some pos /\
        pos < length (mlb_fit (truth_rows ++ results_rows))) /\
  (forall (w : World) (eval_type : string) (truth results : DataFrame) (col : string),
      outcome (build_matrices w eval_type truth results) <> Raised (not_in_list col)).
Proof.
  split.
  - intros truth_rows results_rows row col Hrow Hcol.
    destruct (list_index_in col (mlb_fit (truth_rows ++ results_rows))) as [pos Hpos].
    { eapply mlb_fit_in; [apply in_or_app; right; exact Hrow|exact Hcol]. }
    exists pos. split; [exact Hpos|]. now apply list_index_nth in Hpos.
  - intros w eval_type truth results col E.
    apply build_matrices_lookup_safe in E. vm_compute in E. discriminate.
Qed.

Lemma vocabulary_lookup_succeeds_witness :
  In ["a"; "b"] [["a"]; ["a"; "b"]] /\ In "b" ["a"; "b"] /\
  exists pos,
    list_index "b" (mlb_fit ([["a"]; ["b"]] ++ [["a"]; ["a"; "b"]])) = Some pos /\
    pos < length (mlb_fit ([["a"]; ["b"]] ++ [["a"]; ["a"; "b"]])).
Proof.
  split; [simpl; auto|]. split; [simpl; auto|].
  apply (proj1 vocabulary_lookup_succeeds [["a"]; ["b"]] [["a"]; ["a"; "b"]] ["a"; "b"] "b");
    simpl; auto.
Defined.

(* ------------------------------------------------------------------ *)
(** ** Normalising an array result *)

Lemma set_fresh {V} (d : Py.dict V) (k : string) (v : V) :
  ~ In k (Py.keys d) -> Py.set d k v = (d ++ [(k, v)])%list.
Proof.
  induction d as [|[k' v'] d IH]; simpl; intros H; [reflexivity|].
  destruct (String.eqb k k') eqn:E.
  - apply String.eqb_eq in E. subst. tauto.
  - rewrite IH by tauto. reflexivity.
Qed.

Lemma fold_set_combine (labels : list string) :
  forall (vs : list Py.value) (d : Py.dict Py.value),
  NoDup labels ->
  (forall k, In k labels -> ~ In k (Py.keys d)) ->
  fold_left (fun d lv => Py.set d (fst lv) (snd lv)) (combine labels vs) d =
  (d ++ combine labels vs)%list.
Proof.
  induction labels as [|label labels IH]; simpl; intros vs d N F.
  - now rewrite app_nil_r.
  - destruct vs as [|v vs]; simpl; [now rewrite app_nil_r|].
    inversion N as [|? ? Hn Hd]; subst.
    rewrite set_fresh by (apply F; now left).
    rewrite IH; [now rewrite <- app_assoc|exact Hd|].
    intros k Hk Hin. unfold Py.keys in Hin. rewrite map_app, in_app_iff in Hin.
    destruct Hin as [Hin|[<-|[]]]; [|contradiction].
    apply (F k); [now right|exact Hin].
Qed.

Lemma label_dict_combine (labels : list string) (vs : list Py.value) :
  NoDup labels -> label_dict labels vs = combine labels vs.
Proof.
  intros N. unfold label_dict. now rewrite fold_set_combine.
Qed.

Lemma keys_combine {V} (labels : list string) :
  forall vs : list V, length vs = length labels ->
  Py.keys (combine labels vs) = labels.
Proof.
  induction labels as [|label labels IH]; intros [|v vs] H; simpl in *;
    try discriminate; [reflexivity|].
  f_equal. apply IH. lia.
Qed.

Lemma get_combine {V} (labels : list string) :
  forall (vs : list V) (i : nat) (label : string),
  NoDup labels -> length vs = length labels ->
  nth_error labels i = Some label ->
  Py.get (combine labels vs) label = nth_error vs i.
Proof.
  induction labels as [|l labels IH]; intros [|v vs] i label N L H; simpl in *;
    try discriminate; [now destruct i|].
  inversion N as [|? ? Hn Hd]; subst.
  destruct i as [|i]; simpl in *.
  - inversion H; subst. now rewrite String.eqb_refl.
  - destruct (String.eqb label l) eqn:E.
    + apply String.eqb_eq in E. subst. apply nth_error_In in H. contradiction.
    + apply IH; auto.
Qed.

(** C6. In a multilabel or multiclass run, an array result as long as
    the fitted vocabulary becomes a mapping whose keys are the vocabulary
    labels, in vocabulary order, each with the array element at the
    label's vocabulary index; an array result of another length becomes
    the plain list of its elements. *)
Theorem array_result_normalized (w : World) (eval_type : string)
    (truth results : DataFrame) (t : list event) (mx : Matrices)
    (evalResultAsList : list Py.value) :
  is_classification eval_type = true ->
  build_matrices w eval_type truth results = (t, Ok mx) ->
  (length evalResultAsList = length (label_classes mx) ->
   exists d,
     normalize eval_type (label_classes mx) (NdArray evalResultAsList) = Py.VDict d /\
     Py.keys d = label_classes mx /\
     forall i label, nth_error (label_classes mx) i = Some label ->
                     Py.get d label = nth_error evalResultAsList i) /\
  (length evalResultAsList <> length (label_classes mx) ->
   normalize eval_type (label_classes mx) (NdArray evalResultAsList) =
   Py.VList evalResultAsList).
Proof.
  intros C E.
  destruct (build_matrices_classification _ _ _ _ _ _ C E)
    as (truth_rows & results_rows & _ & _ & Hcl & _).
  assert (N : NoDup (label_classes mx)) by (rewrite Hcl; apply mlb_fit_nodup).
  unfold normalize. rewrite C. split; intros L.
  - apply Nat.eqb_eq in L as L'. rewrite L'.
    exists (label_dict (label_classes mx) evalResultAsList).
    rewrite label_dict_combine by exact N.
    split; [reflexivity|]. split; [now apply keys_combine|].
    intros i label H. now apply get_combine.
  - apply Nat.eqb_neq in L. now rewrite L.
Qed.

Lemma array_result_normalized_witness :
  let w := Examples.world Examples.predictions [] in
  let results := pandas_DataFrame results_cols Examples.predictions in
  let truth := pandas_DataFrame truth_cols Examples.ground_truth in
  exists mx,
    outcome (build_matrices w "MultilabelClassification"
               (fst (reconcile truth results)) (snd (reconcile truth results))) = Ok mx /\
    label_classes mx = ["a"; "b"; "c"] /\
    normalize "MultilabelClassification" (label_classes mx)
      (NdArray [Py.VFloat 1; Py.VFloat 0.5; Py.VFloat 0.25]) =
      Py.VDict [("a", Py.VFloat 1); ("b", Py.VFloat 0.5); ("c", Py.VFloat 0.25)] /\
    normalize "MultilabelClassification" (label_classes mx)
      (NdArray [Py.VFloat 1; Py.VFloat 0.5]) =
      Py.VList [Py.VFloat 1; Py.VFloat 0.5].
Proof.
  intros w results truth. eexists.
  split; [reflexivity|]. split; [reflexivity|].
  split.
  - destruct (array_result_normalized w "MultilabelClassification"
                (fst (reconcile truth results)) (snd (reconcile truth results))
                _ _ [Py.VFloat 1; Py.VFloat 0.5; Py.VFloat 0.25] eq_refl eq_refl) as [H _].
    destruct (H eq_refl) as (d & Hd & _). reflexivity.
  - destruct (array_result_normalized w "MultilabelClassification"
                (fst (reconcile truth results)) (snd (reconcile truth results))
                _ _ [Py.VFloat 1; Py.VFloat 0.5] eq_refl eq_refl) as [_ H].
    apply H. vm_compute. discriminate.
Defined.

(* ================================================================== *)
(** * Further properties of the run *)

(* ------------------------------------------------------------------ *)
(** ** Fatal errors and the report *)

Lemma no_writes_ret {A} (a : A) : no_writes (ret a).
Proof. reflexivity. Qed.

Lemma no_writes_raise {A} (e : Py.exc) : no_writes (@raise A e).
Proof. reflexivity. Qed.

Lemma no_writes_emit (ev : event) : is_write ev = false -> no_writes (emit ev).
Proof. unfold no_writes. simpl. now intros ->. Qed.

Lemma no_writes_bind {A B} (c : M A) (k : A -> M B) :
  no_writes c -> (forall a, no_writes (k a)) -> no_writes (bind c k).
Proof.
  unfold no_writes. intros Hc Hk. rewrite trace_bind, existsb_app, Hc. simpl.
  destruct (outcome c); [apply Hk|reflexivity].
Qed.

Create HintDb dry.
#[local] Hint Resolve no_writes_ret no_writes_raise : dry.

Ltac dry :=
  repeat first
    [ solve [auto with dry]
    | apply no_writes_ret
    | apply no_writes_raise
    | apply no_writes_emit; reflexivity
    | apply no_writes_bind; [|intros]
    | match goal with
      | |- no_writes (match ?x with _ => _ end) => destruct x
      end
    | progress cbv beta zeta ].

Lemma iterable_rows_dry (y : list (option (list string))) : no_writes (iterable_rows y).
Proof. induction y as [|[row|] y IH]; simpl; dry. Qed.
#[local] Hint Resolve iterable_rows_dry : dry.

Lemma parsed_column_dry (df : DataFrame) (name : string) : no_writes (parsed_column df name).
Proof. unfold parsed_column. dry. Qed.
#[local] Hint Resolve parsed_column_dry : dry.

Lemma np_append_axis0_dry (a b : shape * list (option (list string))) :
  no_writes (np_append_axis0 a b).
Proof. unfold np_append_axis0. dry. Qed.
#[local] Hint Resolve np_append_axis0_dry : dry.

Lemma fill_confidence_row_dry (w : World) (label_classes confs row : list string) :
  forall col_index confidence_row,
  no_writes (fill_confidence_row w label_classes confs row col_index confidence_row).
Proof. induction row as [|col row IH]; simpl; intros; dry. Qed.
#[local] Hint Resolve fill_confidence_row_dry : dry.

Lemma build_confidence_dry (w : World) (label_classes : list string)
    (labels : list (list string)) :
  forall confs, no_writes (build_confidence w label_classes labels confs).
Proof. induction labels as [|row labels IH]; simpl; intros; dry. Qed.
#[local] Hint Resolve build_confidence_dry : dry.

Lemma float_tokens_dry (w : World) (ts : list string) : no_writes (float_tokens w ts).
Proof. induction ts as [|tok ts IH]; simpl; dry. Qed.
#[local] Hint Resolve float_tokens_dry : dry.

Lemma float_rows_dry (w : World) (cells : list (option string)) :
  no_writes (float_rows w cells).
Proof. induction cells as [|[s|] cells IH]; simpl; dry. Qed.
#[local] Hint Resolve float_rows_dry : dry.

Lemma build_matrices_dry (w : World) (eval_type : string) (truth results : DataFrame) :
  no_writes (build_matrices w eval_type truth results).
Proof. unfold build_matrices, regression_column. dry. Qed.
#[local] Hint Resolve build_matrices_dry : dry.

Lemma csv_rows_dry (has_header : bool) (lines : list (list string)) :
  no_writes (csv_rows has_header lines).
Proof. unfold csv_rows. dry. Qed.
#[local] Hint Resolve csv_rows_dry : dry.

Lemma read_table_dry (w : World) (what path : string) (cols : list string) :
  no_writes (read_table w what path cols).
Proof. unfold read_table. dry. Qed.
#[local] Hint Resolve read_table_dry : dry.

Lemma load_config_dry (w : World) : no_writes (load_config w).
Proof. unfold load_config. dry. Qed.
#[local] Hint Resolve load_config_dry : dry.

Lemma prepare_dry (w : World) (eval_type eval_input_path ground_truth_path : string) :
  no_writes (prepare w eval_type eval_input_path ground_truth_path).
Proof. unfold prepare. dry. Qed.

Lemma process_metric_dry (w : World) (eval_type : string) (dt : Data)
    (counter : nat) (ref : string) (st : State) :
  no_writes (process_metric w eval_type dt counter ref st).
Proof. unfold no_writes. step_cases w dt ref st; reflexivity. Qed.

Lemma run_metrics_dry (w : World) (eval_type : string) (dt : Data)
    (metrics_list : list string) :
  forall (counter : nat) (st : State),
  no_writes (run_metrics w eval_type dt counter metrics_list st).
Proof.
  induction metrics_list as [|ref rest IH]; simpl; intros counter st; [reflexivity|].
  apply no_writes_bind; [apply process_metric_dry|intros; apply IH].
Qed.

Lemma perform_assessment_unprepared (w : World)
    (eval_type eval_input_path eval_input_format ground_truth_path evaluation_path : string)
    (t0 : list event) (e : Py.exc) :
  Py.str_in eval_input_format "predictions" = true ->
  prepare w eval_type eval_input_path ground_truth_path = (t0, Raised e) ->
  perform_assessment w eval_type eval_input_path eval_input_format
    ground_truth_path evaluation_path = (t0, Raised e).
Proof.
  intros F P. unfold perform_assessment.
  now rewrite (check_format_passes _ F), P.
Qed.

(** X1. The report is written only by a run that completes, and then as
    its last act: a run that ends in an exception has written no file;
    a run that completes has written one file, named after the output
    directory and the clock, holding the final result mapping, and
    nothing before that. *)
Theorem report_written_only_on_completion (w : World)
    (eval_type eval_input_path eval_input_format ground_truth_path evaluation_path : string) :
  match outcome (perform_assessment w eval_type eval_input_path eval_input_format
                   ground_truth_path evaluation_path) with
  | Ok st =>
      exists t',
        trace (perform_assessment w eval_type eval_input_path eval_input_format
                 ground_truth_path evaluation_path) =
        (t' ++ [Log INFO ("Writing eval results to " ++ evaluation_path ++
                          "/eval_results_" ++ Py.str_of_Z (time_time w) ++ ".json");
                WriteFile (evaluation_path ++ "/eval_results_" ++
                           Py.str_of_Z (time_time w) ++ ".json") (eval_dict st)])%list /\
        existsb is_write t' = false
  | Raised _ =>
      existsb is_write
        (trace (perform_assessment w eval_type eval_input_path eval_input_format
                  ground_truth_path evaluation_path)) = false
  end.
Proof.
  destruct (Py.str_in eval_input_format "predictions") eqn:F;
    [|now rewrite unsupported_format_raises_first].
  pose proof (prepare_dry w eval_type eval_input_path ground_truth_path) as D.
  destruct (prepare w eval_type eval_input_path ground_truth_path)
    as [t0 [[[dt metrics_list] st0]|e]] eqn:P.
  - rewrite (perform_assessment_prepared _ _ _ _ _ _ _ _ _ _ F P). simpl.
    pose proof (run_metrics_dry w eval_type dt metrics_list 0 st0) as R.
    unfold no_writes in D, R. simpl in D.
    destruct (outcome (run_metrics w eval_type dt 0 metrics_list st0)) as [st|e].
    + exists (t0 ++ trace (run_metrics w eval_type dt 0 metrics_list st0))%list.
      split; [now rewrite <- app_assoc|].
      now rewrite existsb_app, D, R.
    + now rewrite app_nil_r, existsb_app, D, R.
  - rewrite (perform_assessment_unprepared _ _ _ _ _ _ _ _ F P). exact D.
Qed.

(** X2. A format that is no substring of ["predictions"] is fatal at
    once: the run logs the one error, raises [Exception] with the same
    message, and has touched no file and called no metric. *)
Theorem non_substring_format_is_fatal (w : World)
    (eval_type eval_input_path eval_input_format ground_truth_path evaluation_path : string) :
  Py.str_in eval_input_format "predictions" = false ->
  let r := perform_assessment w eval_type eval_input_path eval_input_format
             ground_truth_path evaluation_path in
  outcome r = Raised (Py.StdException "Exception" (unsupported_msg eval_input_format)) /\
  trace r = [Log ERROR (unsupported_msg eval_input_format)] /\
  existsb is_file_access (trace r) = false /\
  existsb is_call (trace r) = false.
Proof.
  intros F r. unfold r. rewrite (unsupported_format_raises_first _ _ _ _ _ _ F).
  repeat split.
Qed.

Lemma non_substring_format_is_fatal_witness :
  Py.str_in "json" "predictions" = false /\
  outcome (Examples.run Examples.predictions ["sklearn.metrics.accuracy_score"] "json") =
  Raised (Py.StdException "Exception" (unsupported_msg "json")).
Proof.
  split; [reflexivity|].
  apply (non_substring_format_is_fatal
           (Examples.world Examples.predictions ["sklearn.metrics.accuracy_score"])
           "MultilabelClassification" "in" "json" "gt" "out" eq_refl).
Defined.

(** X3. A predictions file that cannot be opened is fatal: the run ends
    with the error of [open] after the one log line, and has not looked
    at the ground truth, the configuration or any metric. *)
Theorem missing_predictions_file_is_fatal (w : World)
    (eval_type eval_input_path eval_input_format ground_truth_path evaluation_path : string) :
  Py.str_in eval_input_format "predictions" = true ->
  csv_files w (Py.path_join eval_input_path "predictions.csv") = None ->
  perform_assessment w eval_type eval_input_path eval_input_format
    ground_truth_path evaluation_path =
  ([Log INFO ("Reading results from " ++ Py.path_join eval_input_path "predictions.csv");
    OpenRead (Py.path_join eval_input_path "predictions.csv")],
   Raised (Py.StdException "OSError" (Py.path_join eval_input_path "predictions.csv"))).
Proof.
  intros F H. apply perform_assessment_unprepared; [exact F|].
  unfold prepare, read_table. now rewrite H.
Qed.

Lemma missing_predictions_file_is_fatal_witness :
  outcome (perform_assessment
             (Examples.world Examples.predictions ["sklearn.metrics.accuracy_score"])
             "MultilabelClassification" "elsewhere" "predictions" "gt" "out") =
  Raised (Py.StdException "OSError" "elsewhere/predictions.csv").
Proof.
  now rewrite (missing_predictions_file_is_fatal
                 (Examples.world Examples.predictions ["sklearn.metrics.accuracy_score"])
                 "MultilabelClassification" "elsewhere" "predictions" "gt" "out"
                 eq_refl eq_refl).
Defined.

(** X4. A ground-truth file that cannot be opened is fatal once the
    predictions have been read: the run ends with the error of [open],
    having opened the two files only. *)
Theorem missing_ground_truth_file_is_fatal (w : World)
    (eval_type eval_input_path eval_input_format ground_truth_path evaluation_path : string)
    (has_header : bool) (lines data : list (list string)) :
  Py.str_in eval_input_format "predictions" = true ->
  csv_files w (Py.path_join eval_input_path "predictions.csv") = Some (has_header, lines) ->
  csv_rows has_header lines = ([], Ok data) ->
  csv_files w (Py.path_join ground_truth_path "ground_truth.csv") = None ->
  perform_assessment w eval_type eval_input_path eval_input_format
    ground_truth_path evaluation_path =
  ([Log INFO ("Reading results from " ++ Py.path_join eval_input_path "predictions.csv");
    OpenRead (Py.path_join eval_input_path "predictions.csv");
    Log INFO ("Reading ground truth from " ++
              Py.path_join ground_truth_path "ground_truth.csv");
    OpenRead (Py.path_join ground_truth_path "ground_truth.csv")],
   Raised (Py.StdException "OSError" (Py.path_join ground_truth_path "ground_truth.csv"))).
Proof.
  intros F H1 H2 H3. apply perform_assessment_unprepared; [exact F|].
  unfold prepare, read_table. now rewrite H1, H2, H3.
Qed.

Lemma missing_ground_truth_file_is_fatal_witness :
  outcome (perform_assessment
             (Examples.world Examples.predictions ["sklearn.metrics.accuracy_score"])
             "MultilabelClassification" "in" "predictions" "elsewhere" "out") =
  Raised (Py.StdException "OSError" "elsewhere/ground_truth.csv").
Proof.
  now rewrite (missing_ground_truth_file_is_fatal
                 (Examples.world Examples.predictions ["sklearn.metrics.accuracy_score"])
                 "MultilabelClassification" "in" "predictions" "elsewhere" "out"
                 false Examples.predictions Examples.predictions
                 eq_refl eq_refl eq_refl eq_refl).
Defined.

(* ------------------------------------------------------------------ *)
(** ** Configuration and the selected metrics *)

Lemma load_config_ok (w : World) (t : list event)
    (cfg : Py.dict (list string) * list MetricDict) :
  load_config w = (t, Ok cfg) ->
  defaults_json w = Some (fst cfg) /\ metrics_json w = Some (snd cfg).
Proof.
  unfold load_config. intros E. invert_bind E.
  destruct (defaults_json w) as [dm|]; [|discriminate].
  invert_bind E.
  destruct (metrics_json w) as [cat|]; [|discriminate].
  invert_ret E. now split.
Qed.

(** What a completed preparation selected, and from which catalog. *)
Lemma prepare_selection (w : World) (eval_type eval_input_path ground_truth_path : string)
    (t0 : list event) (dt : Data) (metrics_list : list string) (st0 : State) :
  prepare w eval_type eval_input_path ground_truth_path = (t0, Ok (dt, metrics_list, st0)) ->
  exists default_metrics metric_dict_list,
    defaults_json w = Some default_metrics /\
    metrics_json w = Some metric_dict_list /\
    metrics_list = select_metrics default_metrics eval_type
                     (load_metric_objects metric_dict_list) /\
    metric_objects st0 = load_metric_objects metric_dict_list.
Proof.
  intros E. unfold prepare in E. do 4 invert_bind E. invert_ret E.
  match goal with
  | H : load_config w = (_, Ok ?cfg) |- _ =>
      apply load_config_ok in H; destruct H as [H1 H2];
      exists (fst cfg), (snd cfg)
  end.
  now repeat split.
Qed.

(** X5. A configuration resource that is missing or malformed is fatal:
    the run ends in an exception, has called no metric and has written
    no report. *)
Theorem missing_configuration_is_fatal (w : World)
    (eval_type eval_input_path eval_input_format ground_truth_path evaluation_path : string) :
  defaults_json w = None \/ metrics_json w = None ->
  let r := perform_assessment w eval_type eval_input_path eval_input_format
             ground_truth_path evaluation_path in
  (exists e, outcome r = Raised e) /\
  existsb is_call (trace r) = false /\
  existsb is_write (trace r) = false.
Proof.
  intros H r. unfold r.
  destruct (Py.str_in eval_input_format "predictions") eqn:F.
  - pose proof (prepare_quiet w eval_type eval_input_path ground_truth_path) as Q.
    pose proof (prepare_dry w eval_type eval_input_path ground_truth_path) as D.
    destruct (prepare w eval_type eval_input_path ground_truth_path)
      as [t0 [[[dt metrics_list] st0]|e]] eqn:P.
    + apply prepare_selection in P. destruct P as (dm & cat & H1 & H2 & _).
      destruct H; congruence.
    + rewrite (perform_assessment_unprepared _ _ _ _ _ _ _ _ F P).
      split; [now exists e|]. split; [exact Q|exact D].
  - rewrite (unsupported_format_raises_first _ _ _ _ _ _ F).
    split; [eexists; reflexivity|]. split; reflexivity.
Qed.

Lemma missing_configuration_is_fatal_witness :
  let w := {| csv_files := csv_files (Examples.world Examples.predictions []);
              defaults_json := Some [];
              metrics_json := None;
              import_module := Examples.imports;
              time_time := 0;
              np_float64 := Examples.parse_float |} in
  outcome (perform_assessment w "MultilabelClassification" "in" "predictions" "gt" "out") =
    Raised (Py.StdException "OSError" "metrics.json") /\
  exists e, outcome (perform_assessment w "MultilabelClassification" "in" "predictions"
                       "gt" "out") = Raised e.
Proof.
  intros w. split; [reflexivity|].
  apply (missing_configuration_is_fatal w "MultilabelClassification" "in" "predictions"
           "gt" "out"). now right.
Defined.

(** X6. When the default metric sets have no entry for the evaluation
    type, or an entry none of whose keys is in the catalog, a run that
    gets past ingestion calls no metric and writes the empty mapping. *)
Theorem no_selected_metric_gives_empty_report (w : World)
    (eval_type eval_input_path eval_input_format ground_truth_path evaluation_path : string)
    (t0 : list event) (dt : Data) (metrics_list : list string) (st0 : State)
    (default_metrics : Py.dict (list string)) (metric_dict_list : list MetricDict) :
  Py.str_in eval_input_format "predictions" = true ->
  prepare w eval_type eval_input_path ground_truth_path = (t0, Ok (dt, metrics_list, st0)) ->
  defaults_json w = Some default_metrics ->
  metrics_json w = Some metric_dict_list ->
  (forall names name,
      Py.get default_metrics eval_type = Some names -> In name names ->
      Py.mem (load_metric_objects metric_dict_list) name = false) ->
  perform_assessment w eval_type eval_input_path eval_input_format
    ground_truth_path evaluation_path =
  ((t0 ++ [Log INFO ("Writing eval results to " ++ report_filename w evaluation_path);
           WriteFile (report_filename w evaluation_path) []])%list,
   Ok st0) /\
  existsb is_call t0 = false.
Proof.
  intros F P Hd Hm Hnone.
  destruct (prepare_selection _ _ _ _ _ _ _ _ P) as (dm & cat & H1 & H2 & Hs & _).
  destruct (prepare_ok _ _ _ _ _ _ _ _ P) as (_ & _ & He & _ & _ & Q).
  rewrite Hd in H1. rewrite Hm in H2. inversion H1; inversion H2; subst dm cat.
  assert (Hnil : select_metrics default_metrics eval_type
                   (load_metric_objects metric_dict_list) = []).
  { unfold select_metrics.
    destruct (Py.get default_metrics eval_type) as [names|] eqn:G; [|reflexivity].
    specialize (Hnone names). clear - Hnone.
    induction names as [|n names IH]; simpl; [reflexivity|].
    rewrite (Hnone n eq_refl (or_introl eq_refl)).
    apply IH. intros name _ Hin. apply Hnone; [reflexivity|now right]. }
  rewrite (perform_assessment_prepared _ _ _ _ _ _ _ _ _ _ F P).
  rewrite Hs, Hnil. simpl. rewrite He. split; [reflexivity|exact Q].
Qed.

Lemma no_selected_metric_gives_empty_report_witness :
  let r := perform_assessment
             (Examples.world Examples.predictions ["sklearn.metrics.accuracy_score"])
             "BinaryClassification" "in" "predictions" "gt" "out" in
  Py.get [("MultilabelClassification", ["sklearn.metrics.accuracy_score"])]
    "BinaryClassification" = None /\
  In (WriteFile "out/eval_results_1540000000.json" []) (trace r) /\
  existsb is_call (trace r) = false.
Proof.
  intros r. split; [reflexivity|].
  destruct (no_selected_metric_gives_empty_report
              (Examples.world Examples.predictions ["sklearn.metrics.accuracy_score"])
              "BinaryClassification" "in" "predictions" "gt" "out"
              _ _ _ _ _ _ eq_refl eq_refl eq_refl eq_refl) as [E Q].
  { intros names name H. discriminate. }
  unfold r. rewrite E. split.
  - apply in_or_app. right. simpl. auto.
  - vm_compute. reflexivity.
Defined.

Lemma load_fold_other (l : list MetricDict) (k : string) :
  forall d : Py.dict Metric,
  (forall m, In m l -> metric_key (deserialize_model m) <> k) ->
  Py.get (fold_left (fun d metric_dict =>
                       let metric_object := deserialize_model metric_dict in
                       Py.set d (metric_key metric_object) metric_object) l d) k =
  Py.get d k.
Proof.
  induction l as [|m l IH]; simpl; intros d H; [reflexivity|].
  rewrite IH by (intros m' Hm'; apply H; now right).
  apply get_set_other. intros E. apply (H m); [now left|now symmetry].
Qed.

(** X7. The catalog is keyed by [package.method]: looking a key up gives
    the last catalog entry with that key, whatever stood before it under
    the same key, and a key no entry has is not found. *)
Theorem catalog_keeps_last_entry_per_key :
  (forall (before after : list MetricDict) (m : MetricDict),
      (forall m', In m' after ->
                  metric_key (deserialize_model m') <> metric_key (deserialize_model m)) ->
      Py.get (load_metric_objects (before ++ m :: after)%list)
        (metric_key (deserialize_model m)) = Some (deserialize_model m)) /\
  (forall (metric_dict_list : list MetricDict) (k : string),
      (forall m, In m metric_dict_list -> metric_key (deserialize_model m) <> k) ->
      Py.get (load_metric_objects metric_dict_list) k = None).
Proof.
  split.
  - intros before after m H. unfold load_metric_objects.
    rewrite fold_left_app. simpl.
    rewrite load_fold_other by exact H. apply get_set_same.
  - intros l k H. unfold load_metric_objects. now rewrite load_fold_other.
Qed.

Lemma catalog_keeps_last_entry_per_key_witness :
  let old := Examples.entry "sklearn.metrics" "f1_score" None Examples.labels_dp in
  let new := Examples.entry "sklearn.metrics" "f1_score"
               (Some [("average", Py.VStr "micro")]) Examples.labels_dp in
  Py.get (load_metric_objects ([old] ++ new :: []))
    "sklearn.metrics.f1_score" = Some (deserialize_model new) /\
  Py.get (load_metric_objects [old; new]) "sklearn.metrics.recall" = None.
Proof.
  intros old new. split.
  - apply (proj1 catalog_keeps_last_entry_per_key [old] [] new). intros m' [].
  - apply (proj2 catalog_keeps_last_entry_per_key [old; new] "sklearn.metrics.recall").
    intros m [<-|[<-|[]]]; discriminate.
Defined.

(* ------------------------------------------------------------------ *)
(** ** Ingestion *)

Lemma row_within_width (cols : list string) (data : list (list string)) (r : list string) :
  In r data -> length r <= width (pandas_DataFrame cols data).
Proof.
  simpl. induction data as [|r' data IH]; simpl; [contradiction|].
  intros [->|H]; [lia|]. specialize (IH H). lia.
Qed.

(** X8. A schema column the file does not supply, because no row is long
    enough to reach it, is null in every row; so it has a null as soon as
    there is a row. *)
Theorem unsupplied_column_is_null (cols : list string) (data : list (list string))
    (name : string) :
  dtype_object (pandas_DataFrame cols data) name = false ->
  (forall r, In r data -> cell (pandas_DataFrame cols data) name r = None) /\
  hasnans (pandas_DataFrame cols data) name =
    match data with [] => false | _ :: _ => true end.
Proof.
  intros H. unfold dtype_object in H. apply Nat.ltb_ge in H.
  assert (G : forall r, In r data -> cell (pandas_DataFrame cols data) name r = None).
  { intros r Hr. unfold cell. apply nth_error_None.
    pose proof (row_within_width cols data r Hr). lia. }
  split; [exact G|].
  unfold hasnans, series. simpl rows.
  destruct data as [|r data]; [reflexivity|].
  simpl. now rewrite (G r (or_introl eq_refl)).
Qed.

Lemma unsupplied_column_is_null_witness :
  dtype_object (pandas_DataFrame results_cols [["1"; "a"]; ["2"; "b"; "0.5"]]) "bounds" = false /\
  cell (pandas_DataFrame results_cols [["1"; "a"]; ["2"; "b"; "0.5"]]) "bounds"
    ["2"; "b"; "0.5"] = None /\
  hasnans (pandas_DataFrame results_cols [["1"; "a"]; ["2"; "b"; "0.5"]]) "bounds" = true.
Proof.
  split; [reflexivity|].
  destruct (unsupplied_column_is_null results_cols [["1"; "a"]; ["2"; "b"; "0.5"]]
              "bounds" eq_refl) as [H1 H2].
  split; [apply H1; simpl; auto|exact H2].
Defined.

(* ------------------------------------------------------------------ *)
(** ** What the loop leaves of the descriptors and the cache *)

Lemma same_descriptors_trans (a b c : Py.dict Metric) :
  same_descriptors a b -> same_descriptors b c -> same_descriptors a c.
Proof. intros H1 H2 ref. now rewrite H2, H1. Qed.

Lemma run_metrics_invariants (w : World) (eval_type : string) (dt : Data)
    (metrics_list : list string) :
  forall (counter : nat) (st stf : State) (t : list event),
  run_metrics w eval_type dt counter metrics_list st = (t, Ok stf) ->
  cache_sound w st ->
  cache_sound w stf /\ same_descriptors (metric_objects st) (metric_objects stf).
Proof.
  induction metrics_list as [|ref rest IH]; simpl; intros counter st stf t E C.
  - inversion E; subst. split; [exact C|]. intros ref. reflexivity.
  - apply bind_ok in E. destruct E as (t1 & st1 & t2 & E1 & E2 & ->).
    destruct (process_metric_invariants _ _ _ _ _ _ _ _ E1 C) as [C1 S1].
    destruct (IH _ _ _ _ E2 C1) as [C2 S2].
    split; [exact C2|]. eapply same_descriptors_trans; eassumption.
Qed.

(** A run that completes passed the guard, completed its preparation and
    completed the loop. *)
Lemma perform_assessment_ok (w : World)
    (eval_type eval_input_path eval_input_format ground_truth_path evaluation_path : string)
    (t : list event) (stf : State) :
  perform_assessment w eval_type eval_input_path eval_input_format
    ground_truth_path evaluation_path = (t, Ok stf) ->
  Py.str_in eval_input_format "predictions" = true /\
  exists t0 dt metrics_list st0 t1,
    prepare w eval_type eval_input_path ground_truth_path = (t0, Ok (dt, metrics_list, st0)) /\
    run_metrics w eval_type dt 0 metrics_list st0 = (t1, Ok stf).
Proof.
  intros E.
  destruct (Py.str_in eval_input_format "predictions") eqn:F;
    [|rewrite (unsupported_format_raises_first _ _ _ _ _ _ F) in E; discriminate].
  split; [reflexivity|].
  destruct (prepare w eval_type eval_input_path ground_truth_path)
    as [t0 [[[dt metrics_list] st0]|e]] eqn:P;
    [|rewrite (perform_assessment_unprepared _ _ _ _ _ _ _ _ F P) in E; discriminate].
  rewrite (perform_assessment_prepared _ _ _ _ _ _ _ _ _ _ F P) in E.
  injection E as Ht Ho.
  exists t0, dt, metrics_list, st0, (trace (run_metrics w eval_type dt 0 metrics_list st0)).
  split; [reflexivity|].
  pose proof (surjective_run (run_metrics w eval_type dt 0 metrics_list st0)) as S.
  now rewrite Ho in S.
Qed.

(** X9. A run that completes leaves the catalog's descriptors in place:
    under every key there is a descriptor after the run exactly when the
    catalog had one, with the package, method and data parameters it was
    loaded with. *)
Theorem run_keeps_descriptor_identity (w : World)
    (eval_type eval_input_path eval_input_format ground_truth_path evaluation_path : string)
    (t : list event) (stf : State) :
  perform_assessment w eval_type eval_input_path eval_input_format
    ground_truth_path evaluation_path = (t, Ok stf) ->
  exists metric_dict_list,
    metrics_json w = Some metric_dict_list /\
    forall ref,
      option_map descriptor (Py.get (metric_objects stf) ref) =
      option_map descriptor (Py.get (load_metric_objects metric_dict_list) ref).
Proof.
  intros E. apply perform_assessment_ok in E.
  destruct E as (_ & t0 & dt & metrics_list & st0 & t1 & P & R).
  destruct (prepare_selection _ _ _ _ _ _ _ _ P) as (dm & cat & _ & Hm & _ & Hs).
  destruct (prepare_ok _ _ _ _ _ _ _ _ P) as (_ & _ & _ & Hc & _).
  exists cat. split; [exact Hm|].
  assert (C : cache_sound w st0) by (intros pkg m; rewrite Hc; discriminate).
  destruct (run_metrics_invariants _ _ _ _ _ _ _ _ R C) as [_ S].
  intros ref. rewrite <- Hs. apply S.
Qed.

Lemma run_keeps_descriptor_identity_witness :
  exists t stf,
    Examples.run Examples.predictions
      ["sklearn.metrics.accuracy_score"; "sklearn.metrics.hamming_loss"] "predictions" =
      (t, Ok stf) /\
    option_map descriptor (Py.get (metric_objects stf) "sklearn.metrics.accuracy_score") =
      Some ("sklearn.metrics", "accuracy_score", Examples.labels_dp).
Proof.
  eexists. eexists. split; [reflexivity|].
  destruct (run_keeps_descriptor_identity
              (Examples.world Examples.predictions
                 ["sklearn.metrics.accuracy_score"; "sklearn.metrics.hamming_loss"])
              "MultilabelClassification" "in" "predictions" "gt" "out" _ _ eq_refl)
    as (cat & Hc & H).
  rewrite H. inversion Hc. reflexivity.
Defined.

(** X10. The module cache stays sound: after a run that completes, every
    module in the cache is the one importing its package gives. *)
Theorem run_keeps_cache_sound (w : World)
    (eval_type eval_input_path eval_input_format ground_truth_path evaluation_path : string)
    (t : list event) (stf : State) :
  perform_assessment w eval_type eval_input_path eval_input_format
    ground_truth_path evaluation_path = (t, Ok stf) ->
  forall pkg m, Py.get (modules_cache stf) pkg = Some m -> import_module w pkg = Some m.
Proof.
  intros E. apply perform_assessment_ok in E.
  destruct E as (_ & t0 & dt & metrics_list & st0 & t1 & P & R).
  destruct (prepare_ok _ _ _ _ _ _ _ _ P) as (_ & _ & _ & Hc & _).
  assert (C : cache_sound w st0) by (intros pkg m; rewrite Hc; discriminate).
  exact (proj1 (run_metrics_invariants _ _ _ _ _ _ _ _ R C)).
Qed.

Lemma run_keeps_cache_sound_witness :
  exists t stf,
    Examples.run Examples.predictions
      ["sklearn.metrics.accuracy_score"; "other.metrics.accuracy_score"] "predictions" =
      (t, Ok stf) /\
    Py.keys (modules_cache stf) = ["sklearn.metrics"; "other.metrics"] /\
    forall pkg m, Py.get (modules_cache stf) pkg = Some m ->
                  Examples.imports pkg = Some m.
Proof.
  eexists. eexists. split; [reflexivity|]. split; [reflexivity|].
  exact (run_keeps_cache_sound
           (Examples.world Examples.predictions
              ["sklearn.metrics.accuracy_score"; "other.metrics.accuracy_score"])
           "MultilabelClassification" "in" "predictions" "gt" "out" _ _ eq_refl).
Defined.

Lemma process_metric_keeps_unaliased (w : World) (eval_type : string) (dt : Data)
    (counter : nat) (ref : string) (st st' : State) (t : list event)
    (ref0 : string) (metric0 : Metric) :
  process_metric w eval_type dt counter ref st = (t, Ok st') ->
  Py.get (metric_objects st) ref0 = Some metric0 ->
  args_aliased metric0 = false ->
  Py.get (metric_objects st') ref0 = Some metric0.
Proof.
  intros E H0 A. revert E.
  assert (G : forall metric args st1,
             metric_objects st1 = metric_objects st ->
             Py.get (metric_objects st) ref = Some metric ->
             Py.get (metric_objects (store_args ref metric args st1)) ref0 = Some metric0).
  { intros metric args st1 E1 Hm. unfold store_args.
    destruct (args_aliased metric) eqn:Am; [|now rewrite E1].
    simpl. rewrite E1.
    rewrite get_set_other; [exact H0|].
    intros ->. rewrite H0 in Hm. inversion Hm; subst. congruence. }
  step_cases w dt ref st; intros E; inversion E; subst; clear E; simpl;
    first [ exact H0 | now apply G ].
Qed.

(** X11. A descriptor whose [default_args] is absent or empty comes out
    of the loop exactly as it went in, whatever metrics were run. *)
Theorem descriptor_without_defaults_unchanged (w : World) (eval_type : string) (dt : Data)
    (metrics_list : list string) (ref0 : string) (metric0 : Metric) :
  forall (counter : nat) (st stf : State) (t : list event),
  run_metrics w eval_type dt counter metrics_list st = (t, Ok stf) ->
  Py.get (metric_objects st) ref0 = Some metric0 ->
  args_aliased metric0 = false ->
  Py.get (metric_objects stf) ref0 = Some metric0.
Proof.
  induction metrics_list as [|ref rest IH]; simpl; intros counter st stf t E H0 A.
  - inversion E; subst. exact H0.
  - apply bind_ok in E. destruct E as (t1 & st1 & t2 & E1 & E2 & ->).
    eapply IH; [exact E2| |exact A].
    eapply process_metric_keeps_unaliased; eassumption.
Qed.

Lemma descriptor_without_defaults_unchanged_witness :
  let r := run_metrics (Examples.world Examples.predictions [])
             "MultilabelClassification" Examples.no_rows 0
             ["sklearn.metrics.accuracy_score"; "sklearn.metrics.hamming_loss";
              "sklearn.metrics.roc_auc_score"] Examples.state0 in
  exists t stf,
    r = (t, Ok stf) /\
    Py.get (metric_objects stf) "sklearn.metrics.roc_auc_score" =
      Some (deserialize_model
              (Examples.entry "sklearn.metrics" "roc_auc_score" (Some []) Examples.scores_dp)).
Proof.
  intros r. eexists. eexists. split; [reflexivity|].
  eapply (descriptor_without_defaults_unchanged
            (Examples.world Examples.predictions [])
            "MultilabelClassification" Examples.no_rows
            ["sklearn.metrics.accuracy_score"; "sklearn.metrics.hamming_loss";
             "sklearn.metrics.roc_auc_score"] "sklearn.metrics.roc_auc_score" _
            0 Examples.state0 _ _ eq_refl); reflexivity.
Defined.

(* ------------------------------------------------------------------ *)
(** ** The call arguments *)

Lemma keys_set {V} (d : Py.dict V) (k : string) (v : V) :
  Py.keys (Py.set d k v) = (Py.keys d ++ if Py.mem d k then [] else [k])%list.
Proof.
  unfold Py.mem. induction d as [|[k' v'] d IH]; simpl; [reflexivity|].
  destruct (String.eqb k k') eqn:E; simpl.
  - apply String.eqb_eq in E. subst. now rewrite app_nil_r.
  - now rewrite IH.
Qed.

Lemma bind_arg_frame (param : option string) (available : bool) (v : arg_value)
    (args : Py.dict arg_value) (names : list string) :
  (forall name, Py.truthy_str param = Some name -> In name names) ->
  (exists extra, Py.keys (bind_arg param available v args) = (Py.keys args ++ extra)%list /\
                 incl extra names) /\
  (forall k, ~ In k names -> Py.get (bind_arg param available v args) k = Py.get args k).
Proof.
  intros H. unfold bind_arg.
  destruct (Py.truthy_str param) as [name|];
    [|split; [exists []; split; [now rewrite app_nil_r|intros x []]|reflexivity]].
  destruct available;
    [|split; [exists []; split; [now rewrite app_nil_r|intros x []]|reflexivity]].
  split.
  - rewrite keys_set. eexists. split; [reflexivity|].
    destruct (Py.mem args name); intros x Hx; [contradiction|].
    destruct Hx as [<-|[]]. now apply H.
  - intros k Hk. apply get_set_other. intros ->. apply Hk. now apply H.
Qed.

Lemma truthy_in_names (dp : DataParameters) (param : option string) (name : string) :
  In param [truth_labels dp; truth_bounds dp; prediction_labels dp;
            prediction_scores dp; prediction_bounds dp] ->
  Py.truthy_str param = Some name ->
  In name (data_parameter_names dp).
Proof.
  intros Hin Ht. unfold data_parameter_names. apply in_concat.
  exists [name]. split; [|now left].
  apply in_map_iff. exists param. now rewrite Ht.
Qed.

(** X12. Binding the data never drops or reorders what [args] held: the
    keys it had stay first, in order; every key added is the name of one
    of the descriptor's data parameters; and a key that is no such name
    keeps its value. *)
Theorem bound_data_follows_defaults (dt : Data) (dp : DataParameters)
    (args args' : Py.dict arg_value) (t : list event) :
  bind_data dt dp args = (t, Ok args') ->
  (exists extra, Py.keys args' = (Py.keys args ++ extra)%list /\
                 incl extra (data_parameter_names dp)) /\
  (forall k, ~ In k (data_parameter_names dp) -> Py.get args' k = Py.get args k).
Proof.
  intros E. unfold bind_data in E.
  set (names := data_parameter_names dp) in *.
  assert (N : forall param name,
             In param [truth_labels dp; truth_bounds dp; prediction_labels dp;
                       prediction_scores dp; prediction_bounds dp] ->
             Py.truthy_str param = Some name -> In name names)
    by (intros; eapply truthy_in_names; eassumption).
  set (a1 := bind_arg (truth_labels dp) true
               (TruthLabels (truth_labels_matrix (matrices dt))) args) in *.
  set (a2 := bind_arg (truth_bounds dp) (negb (hasnans (truth_df dt) "bounds"))
               (TruthBounds (values (truth_df dt) "bounds")) a1) in *.
  set (a3 := bind_arg (prediction_labels dp) true
               (PredictionLabels (results_labels_matrix (matrices dt))) a2) in *.
  destruct (bind_arg_frame (truth_labels dp) true
              (TruthLabels (truth_labels_matrix (matrices dt))) args names)
    as [(x1 & K1 & I1) G1]; [intros n; apply N; simpl; auto|].
  destruct (bind_arg_frame (truth_bounds dp) (negb (hasnans (truth_df dt) "bounds"))
              (TruthBounds (values (truth_df dt) "bounds")) a1 names)
    as [(x2 & K2 & I2) G2]; [intros n; apply N; simpl; auto|].
  destruct (bind_arg_frame (prediction_labels dp) true
              (PredictionLabels (results_labels_matrix (matrices dt))) a2 names)
    as [(x3 & K3 & I3) G3]; [intros n; apply N; simpl; auto|].
  fold a1 in K1, G1. fold a2 in K2, G2. fold a3 in K3, G3.
  assert (S : exists a4,
             (exists x4, Py.keys a4 = (Py.keys a3 ++ x4)%list /\ incl x4 names) /\
             (forall k, ~ In k names -> Py.get a4 k = Py.get a3 k) /\
             args' = bind_arg (prediction_bounds dp)
                       (negb (hasnans (results_df dt) "bounds"))
                       (PredictionBounds (values (results_df dt) "bounds")) a4).
  { destruct (Py.truthy_str (prediction_scores dp)) as [name|] eqn:Ts.
    - destruct (has_column (results_df dt) "confidence" &&
                negb (hasnans (results_df dt) "confidence")).
      + destruct (confidence_matrix (matrices dt)) as [cm|]; [|discriminate].
        simpl in E. inversion E; subst. eexists. split; [|split; [|reflexivity]].
        * rewrite keys_set. eexists. split; [reflexivity|].
          destruct (Py.mem a3 name); intros x Hx; [contradiction|].
          destruct Hx as [<-|[]]. apply (N (prediction_scores dp)); simpl; auto.
        * intros k Hk. apply get_set_other. intros ->. apply Hk.
          apply (N (prediction_scores dp)); simpl; auto.
      + simpl in E. inversion E; subst. exists a3.
        split; [exists []; split; [now rewrite app_nil_r|intros x []]|].
        split; reflexivity.
    - simpl in E. inversion E; subst. exists a3.
      split; [exists []; split; [now rewrite app_nil_r|intros x []]|].
      split; reflexivity. }
  destruct S as (a4 & (x4 & K4 & I4) & G4 & ->).
  destruct (bind_arg_frame (prediction_bounds dp) (negb (hasnans (results_df dt) "bounds"))
              (PredictionBounds (values (results_df dt) "bounds")) a4 names)
    as [(x5 & K5 & I5) G5]; [intros n; apply N; simpl; auto 6|].
  split.
  - exists (x1 ++ x2 ++ x3 ++ x4 ++ x5)%list. split.
    + rewrite K5, K4, K3, K2, K1. now rewrite <- !app_assoc.
    + repeat apply incl_app; assumption.
  - intros k Hk. now rewrite G5, G4, G3, G2, G1.
Qed.

Lemma bound_data_follows_defaults_witness :
  let dp := Bounds.bounds_dp in
  let args := [("threshold", Default (Py.VFloat 0.5)); ("y_pred", Default Py.VNone)] in
  exists args',
    outcome (bind_data Examples.no_rows dp args) = Ok args' /\
    Py.keys args' = ["threshold"; "y_pred"; "y_true"; "true_boxes"; "y_score"; "pred_boxes"] /\
    Py.get args' "threshold" = Some (Default (Py.VFloat 0.5)).
Proof.
  intros dp args. eexists. split; [reflexivity|]. split; [reflexivity|].
  destruct (bound_data_follows_defaults Examples.no_rows dp args _ _ eq_refl) as [_ H].
  rewrite H; [reflexivity|].
  simpl. intros [H1|[H1|[H1|[H1|[H1|[]]]]]]; discriminate.
Defined.

(* ------------------------------------------------------------------ *)
(** ** The all-or-nothing bounds columns *)

Section Slot.
Variable p : arg_value -> bool.
Variable dt : Data.

(** The assignments of lines 197-210 store no value that satisfies [p]. *)
Hypothesis bind_data_free :
  forall dp args args' t,
    slot_free p args = true ->
    bind_data dt dp args = (t, Ok args') ->
    slot_free p args' = true.

Lemma process_metric_slot_free (w : World) (eval_type : string)
    (counter : nat) (ref : string) (st : State) :
  store_slot_free p (metric_objects st) ->
  forallb (call_free p) (trace (process_metric w eval_type dt counter ref st)) = true /\
  (forall st', outcome (process_metric w eval_type dt counter ref st) = Ok st' ->
               store_slot_free p (metric_objects st')).
Proof.
  intros S.
  assert (A : forall metric args t,
             Py.get (metric_objects st) ref = Some metric ->
             bind_data dt (data_parameters metric) (initial_args metric) = (t, Ok args) ->
             slot_free p args = true).
  { intros metric args t Hm Hb.
    eapply bind_data_free; [|exact Hb].
    pose proof (forall_values_get
                  (fun m => match default_args m with
                            | Some d => slot_free p d = true
                            | None => True
                            end) _ _ _ S Hm) as H.
    cbv beta in H. unfold initial_args. destruct (default_args metric) as [d|]; [|reflexivity].
    now destruct (Py.truthy_dict d). }
  assert (B : forall metric args st1,
             metric_objects st1 = metric_objects st ->
             slot_free p args = true ->
             store_slot_free p (metric_objects (store_args ref metric args st1))).
  { intros metric args st1 E Ha. unfold store_args.
    destruct (args_aliased metric); simpl; rewrite E; [|exact S].
    unfold store_slot_free.
    apply (forall_values_set
             (fun m => match default_args m with
                       | Some d => slot_free p d = true
                       | None => True
                       end)); [exact S|exact Ha]. }
  step_cases w dt ref st; (split; [|intros st' E; inversion E; subst; clear E]);
    simpl; rewrite ?andb_true_r; eauto.
Qed.

Lemma run_metrics_slot_free (w : World) (eval_type : string)
    (metrics_list : list string) :
  forall (counter : nat) (st : State),
  store_slot_free p (metric_objects st) ->
  forallb (call_free p) (trace (run_metrics w eval_type dt counter metrics_list st)) = true.
Proof.
  induction metrics_list as [|ref rest IH]; simpl; intros counter st S; [reflexivity|].
  destruct (process_metric_slot_free w eval_type counter ref st S) as [T1 S1].
  rewrite trace_bind, forallb_app, T1. simpl.
  destruct (outcome (process_metric w eval_type dt counter ref st)) as [st1|e];
    [|reflexivity].
  apply IH. now apply S1.
Qed.

End Slot.

Lemma slot_free_set (p : arg_value -> bool) (args : Py.dict arg_value)
    (k : string) (v : arg_value) :
  slot_free p args = true -> p v = false -> slot_free p (Py.set args k v) = true.
Proof.
  unfold slot_free. intros H Hv.
  induction args as [|[k' v'] args IH]; simpl in *.
  - now rewrite Hv.
  - apply andb_true_iff in H. destruct H as [H1 H2].
    destruct (String.eqb k k'); simpl.
    + now rewrite Hv, H2.
    + now rewrite H1, IH.
Qed.

Lemma bind_arg_slot_free (p : arg_value -> bool) (param : option string)
    (available : bool) (v : arg_value) (args : Py.dict arg_value) :
  slot_free p args = true -> p v = false \/ available = false ->
  slot_free p (bind_arg param available v args) = true.
Proof.
  intros H Hv. unfold bind_arg.
  destruct (Py.truthy_str param); [|exact H].
  destruct available; [|exact H].
  destruct Hv as [Hv|Hv]; [|discriminate]. now apply slot_free_set.
Qed.

Lemma bind_data_bounds_free (p : arg_value -> bool) (dt : Data) (dp : DataParameters)
    (args args' : Py.dict arg_value) (t : list event) :
  (forall m, p (TruthLabels m) = false) ->
  (forall m, p (PredictionLabels m) = false) ->
  (forall m, p (PredictionScores m) = false) ->
  (forall m, p (TruthBounds m) = false) \/ hasnans (truth_df dt) "bounds" = true ->
  (forall m, p (PredictionBounds m) = false) \/ hasnans (results_df dt) "bounds" = true ->
  slot_free p args = true ->
  bind_data dt dp args = (t, Ok args') ->
  slot_free p args' = true.
Proof.
  intros P1 P2 P3 P4 P5 Ha. unfold bind_data.
  assert (H3 : slot_free p
                 (bind_arg (prediction_labels dp) true
                    (PredictionLabels (results_labels_matrix (matrices dt)))
                    (bind_arg (truth_bounds dp) (negb (hasnans (truth_df dt) "bounds"))
                       (TruthBounds (values (truth_df dt) "bounds"))
                       (bind_arg (truth_labels dp) true
                          (TruthLabels (truth_labels_matrix (matrices dt))) args))) = true).
  { apply bind_arg_slot_free; [|now left].
    apply bind_arg_slot_free; [|destruct P4 as [P4|P4]; [now left|right; now rewrite P4]].
    apply bind_arg_slot_free; [exact Ha|now left]. }
  assert (L : forall a, slot_free p a = true ->
              slot_free p (bind_arg (prediction_bounds dp)
                             (negb (hasnans (results_df dt) "bounds"))
                             (PredictionBounds (values (results_df dt) "bounds")) a) = true).
  { intros a H. apply bind_arg_slot_free; [exact H|].
    destruct P5 as [P5|P5]; [now left|right; now rewrite P5]. }
  destruct (Py.truthy_str (prediction_scores dp)) as [name|].
  - destruct (has_column (results_df dt) "confidence" &&
              negb (hasnans (results_df dt) "confidence")).
    + destruct (confidence_matrix (matrices dt)) as [cm|]; [|discriminate].
      simpl. intros E. inversion E; subst. apply L. now apply slot_free_set.
    + simpl. intros E. inversion E; subst. now apply L.
  - simpl. intros E. inversion E; subst. now apply L.
Qed.

Lemma load_metric_objects_slot_free (p : arg_value -> bool)
    (metric_dict_list : list MetricDict) :
  (forall v, p (Default v) = false) ->
  store_slot_free p (load_metric_objects metric_dict_list).
Proof.
  intros Hp. unfold load_metric_objects, store_slot_free.
  assert (D : forall m, match default_args (deserialize_model m) with
                        | Some d => slot_free p d = true
                        | None => True
                        end).
  { intros m. unfold deserialize_model. simpl.
    destruct (json_default_args m) as [d|]; simpl; [|exact I].
    unfold slot_free. induction d as [|kv d IH]; simpl; [reflexivity|].
    now rewrite Hp, IH. }
  assert (G : forall l d,
             Forall (fun kv => match default_args (snd kv) with
                               | Some d => slot_free p d = true
                               | None => True
                               end) d ->
             Forall (fun kv => match default_args (snd kv) with
                               | Some d => slot_free p d = true
                               | None => True
                               end)
               (fold_left (fun d metric_dict =>
                             let metric_object := deserialize_model metric_dict in
                             Py.set d (metric_key metric_object) metric_object) l d)).
  { induction l as [|m l IH]; simpl; intros d H; [exact H|].
    apply IH.
    apply (forall_values_set
             (fun m => match default_args m with
                       | Some d => slot_free p d = true
                       | None => True
                       end)); [exact H|apply D]. }
  apply G. constructor.
Qed.

(** The tables a completed preparation hands to the loop are the
    reconciled tables of the two files. *)
Lemma prepare_frames (w : World) (eval_type eval_input_path ground_truth_path : string)
    (t0 : list event) (dt : Data) (metrics_list : list string) (st0 : State) :
  prepare w eval_type eval_input_path ground_truth_path = (t0, Ok (dt, metrics_list, st0)) ->
  exists h1 lines1 data1 h2 lines2 data2,
    csv_files w (Py.path_join eval_input_path "predictions.csv") = Some (h1, lines1) /\
    outcome (csv_rows h1 lines1) = Ok data1 /\
    csv_files w (Py.path_join ground_truth_path "ground_truth.csv") = Some (h2, lines2) /\
    outcome (csv_rows h2 lines2) = Ok data2 /\
    truth_df dt = fst (reconcile (pandas_DataFrame truth_cols data2)
                         (pandas_DataFrame results_cols data1)) /\
    results_df dt = snd (reconcile (pandas_DataFrame truth_cols data2)
                           (pandas_DataFrame results_cols data1)).
Proof.
  intros E. unfold prepare in E. do 4 invert_bind E. invert_ret E. simpl.
  apply read_table_ok in E0, E1.
  destruct E0 as (h1 & l1 & d1 & A1 & A2 & ->).
  destruct E1 as (h2 & l2 & d2 & B1 & B2 & ->).
  exists h1, l1, d1, h2, l2, d2. now repeat split.
Qed.

(** The calls of a run are free of [p] when the loop's assignments are. *)
Lemma perform_assessment_slot_free (p : arg_value -> bool) (w : World)
    (eval_type eval_input_path eval_input_format ground_truth_path evaluation_path : string) :
  (forall v, p (Default v) = false) ->
  (forall t0 dt metrics_list st0 dp args args' t,
      prepare w eval_type eval_input_path ground_truth_path =
        (t0, Ok (dt, metrics_list, st0)) ->
      slot_free p args = true ->
      bind_data dt dp args = (t, Ok args') ->
      slot_free p args' = true) ->
  forallb (call_free p)
    (trace (perform_assessment w eval_type eval_input_path eval_input_format
              ground_truth_path evaluation_path)) = true.
Proof.
  intros Hd Hb.
  destruct (Py.str_in eval_input_format "predictions") eqn:F;
    [|now rewrite unsupported_format_raises_first].
  pose proof (prepare_quiet w eval_type eval_input_path ground_truth_path) as Q.
  assert (Q' : forallb (call_free p)
                 (trace (prepare w eval_type eval_input_path ground_truth_path)) = true).
  { apply no_calls_forallb; [|exact Q]. now intros [| | |? ? ? ?| |]. }
  destruct (prepare w eval_type eval_input_path ground_truth_path)
    as [t0 [[[dt metrics_list] st0]|e]] eqn:P.
  - rewrite (perform_assessment_prepared _ _ _ _ _ _ _ _ _ _ F P). simpl.
    rewrite !forallb_app. simpl in Q'. rewrite Q'. simpl.
    destruct (prepare_selection _ _ _ _ _ _ _ _ P) as (dm & cat & _ & _ & _ & Hs).
    rewrite (run_metrics_slot_free p dt).
    + simpl. now destruct (outcome (run_metrics w eval_type dt 0 metrics_list st0)).
    + intros dp args args' t. apply (Hb t0 dt metrics_list st0). reflexivity.
    + rewrite Hs. now apply load_metric_objects_slot_free.
  - rewrite (perform_assessment_unprepared _ _ _ _ _ _ _ _ F P). exact Q'.
Qed.

Lemma slot_free_spec (p : arg_value -> bool) (args : Py.dict arg_value) :
  slot_free p args = true -> forall name v, In (name, v) args -> p v = false.
Proof.
  unfold slot_free. rewrite forallb_forall. intros H name v Hin.
  specialize (H _ Hin). simpl in H. now destruct (p v).
Qed.

(** X13. In every run whose predictions file has a row without a bounds
    field, no metric call receives the predictions' bounds column under
    any argument name, whatever the descriptors declare. *)
Theorem null_prediction_bounds_never_bound (w : World)
    (eval_type eval_input_path eval_input_format ground_truth_path evaluation_path : string)
    (has_header : bool) (lines data : list (list string)) (row : list string) :
  csv_files w (Py.path_join eval_input_path "predictions.csv") = Some (has_header, lines) ->
  outcome (csv_rows has_header lines) = Ok data ->
  In row data ->
  cell (pandas_DataFrame results_cols data) "bounds" row = None ->
  forall pkg meth args o,
    In (Call pkg meth args o)
      (trace (perform_assessment w eval_type eval_input_path eval_input_format
                ground_truth_path evaluation_path)) ->
    forall name m, ~ In (name, PredictionBounds m) args.
Proof.
  intros Hf Hd Hrow Hnull pkg meth args o Hin name m Hm.
  assert (G : forallb (call_free binds_prediction_bounds)
                (trace (perform_assessment w eval_type eval_input_path eval_input_format
                          ground_truth_path evaluation_path)) = true).
  { apply perform_assessment_slot_free; [reflexivity|].
    intros t0 dt metrics_list st0 dp a a' t P.
    apply bind_data_bounds_free; try reflexivity; [now left|right].
    destruct (prepare_frames _ _ _ _ _ _ _ _ P)
      as (h1 & l1 & d1 & h2 & l2 & d2 & A1 & A2 & _ & _ & _ & Hr).
    rewrite Hf in A1. inversion A1; subst h1 l1. rewrite Hd in A2. inversion A2; subst d1.
    rewrite Hr. simpl. rewrite hasnans_sorted.
    unfold hasnans, series. apply existsb_exists.
    exists None. split; [|reflexivity]. rewrite <- Hnull. now apply in_map. }
  rewrite forallb_forall in G. specialize (G _ Hin). simpl in G.
  pose proof (slot_free_spec _ _ G _ _ Hm) as C. discriminate.
Qed.

Lemma null_prediction_bounds_never_bound_witness :
  let r := perform_assessment Bounds.world "MultilabelClassification" "in" "predictions"
             "gt" "out" in
  In ["2"; "b c"; "0.5 0.25"] Bounds.predictions /\
  existsb (called "detect.metrics" "iou") (trace r) = true /\
  forall pkg meth args o, In (Call pkg meth args o) (trace r) ->
    forall name m, ~ In (name, PredictionBounds m) args.
Proof.
  intros r. split; [simpl; auto|]. split; [vm_compute; reflexivity|].
  apply (null_prediction_bounds_never_bound Bounds.world
           "MultilabelClassification" "in" "predictions" "gt" "out"
           false Bounds.predictions Bounds.predictions ["2"; "b c"; "0.5 0.25"]).
  - reflexivity.
  - reflexivity.
  - simpl; auto.
  - reflexivity.
Defined.

(** X14. In every run whose ground-truth file has a row without a bounds
    field whose rowid occurs among the predictions' rowids, no metric
    call receives the ground truth's bounds column under any argument
    name. A ground-truth row that reconciliation drops does not count. *)
Theorem null_truth_bounds_never_bound (w : World)
    (eval_type eval_input_path eval_input_format ground_truth_path evaluation_path : string)
    (h1 h2 : bool) (lines1 data1 lines2 data2 : list (list string))
    (row : list string) (rowid : string) :
  csv_files w (Py.path_join eval_input_path "predictions.csv") = Some (h1, lines1) ->
  outcome (csv_rows h1 lines1) = Ok data1 ->
  csv_files w (Py.path_join ground_truth_path "ground_truth.csv") = Some (h2, lines2) ->
  outcome (csv_rows h2 lines2) = Ok data2 ->
  In row data2 ->
  cell (pandas_DataFrame truth_cols data2) "rowid" row = Some rowid ->
  In (Some rowid) (series (pandas_DataFrame results_cols data1) "rowid") ->
  cell (pandas_DataFrame truth_cols data2) "bounds" row = None ->
  forall pkg meth args o,
    In (Call pkg meth args o)
      (trace (perform_assessment w eval_type eval_input_path eval_input_format
                ground_truth_path evaluation_path)) ->
    forall name m, ~ In (name, TruthBounds m) args.
Proof.
  intros Hf1 Hd1 Hf2 Hd2 Hrow Hid Hocc Hnull pkg meth args o Hin name m Hm.
  assert (G : forallb (call_free binds_truth_bounds)
                (trace (perform_assessment w eval_type eval_input_path eval_input_format
                          ground_truth_path evaluation_path)) = true).
  { apply perform_assessment_slot_free; [reflexivity|].
    intros t0 dt metrics_list st0 dp a a' t P.
    apply bind_data_bounds_free; try reflexivity; [right|now left].
    destruct (prepare_frames _ _ _ _ _ _ _ _ P)
      as (a1 & l1 & d1 & a2 & l2 & d2 & A1 & A2 & B1 & B2 & Ht & _).
    rewrite Hf1 in A1. inversion A1; subst a1 l1. rewrite Hd1 in A2. inversion A2; subst d1.
    rewrite Hf2 in B1. inversion B1; subst a2 l2. rewrite Hd2 in B2. inversion B2; subst d2.
    rewrite Ht. simpl. rewrite hasnans_sorted.
    unfold hasnans, series. apply existsb_exists.
    exists None. split; [|reflexivity].
    change (cell (match_truth (pandas_DataFrame truth_cols data2)
                    (pandas_DataFrame results_cols data1)) "bounds")
      with (cell (pandas_DataFrame truth_cols data2) "bounds").
    rewrite <- Hnull. apply in_map. simpl. apply filter_In. split; [exact Hrow|].
    now apply (rowid_matches_string _ _ _ _ Hid). }
  rewrite forallb_forall in G. specialize (G _ Hin). simpl in G.
  pose proof (slot_free_spec _ _ G _ _ Hm) as C. discriminate.
Qed.

Lemma null_truth_bounds_never_bound_witness :
  let r := perform_assessment Bounds.world "MultilabelClassification" "in" "predictions"
             "gt" "out" in
  In ["2"; "b c"] Bounds.ground_truth /\
  forall pkg meth args o, In (Call pkg meth args o) (trace r) ->
    forall name m, ~ In (name, TruthBounds m) args.
Proof.
  intros r. split; [simpl; auto|].
  apply (null_truth_bounds_never_bound Bounds.world
           "MultilabelClassification" "in" "predictions" "gt" "out"
           false false Bounds.predictions Bounds.predictions
           Bounds.ground_truth Bounds.ground_truth ["2"; "b c"] "2").
  - reflexivity.
  - reflexivity.
  - reflexivity.
  - reflexivity.
  - simpl; auto.
  - reflexivity.
  - simpl; auto.
  - reflexivity.
Defined.

(* ------------------------------------------------------------------ *)
(** ** The regression branch *)

Lemma float_tokens_ok (w : World) (ts : list string) :
  forall (xs : list float) (t : list event),
  float_tokens w ts = (t, Ok xs) ->
  Forall2 (fun tok x => np_float64 w tok = Some x) ts xs.
Proof.
  induction ts as [|tok ts IH]; simpl; intros xs t E.
  - inversion E; subst. constructor.
  - destruct (np_float64 w tok) as [x|] eqn:Hx; [|discriminate].
    invert_bind E. invert_ret E. constructor; [exact Hx|]. eapply IH. eassumption.
Qed.

Lemma float_rows_ok (w : World) (cells : list (option string)) :
  forall (m : matrix) (t : list event),
  float_rows w cells = (t, Ok m) ->
  Forall2 (parsed_floats w) cells m.
Proof.
  induction cells as [|[s|] cells IH]; simpl; intros m t E.
  - inversion E; subst. constructor.
  - do 2 invert_bind E. invert_ret E. constructor.
    + simpl. eexists. split; [reflexivity|]. eapply float_tokens_ok. eassumption.
    + eapply IH. eassumption.
  - invert_bind E. invert_ret E. constructor; [reflexivity|]. eapply IH. eassumption.
Qed.

Lemma regression_column_ok (w : World) (df : DataFrame) (name : string)
    (m : matrix) (t : list event) :
  regression_column w df name = (t, Ok m) ->
  if dtype_object df name
  then Forall2 (parsed_floats w) (series df name) m
  else m = values df name.
Proof.
  unfold regression_column. destruct (dtype_object df name).
  - apply float_rows_ok.
  - intros E. now inversion E.
Qed.

(** X15. In a regression run the three matrices follow their columns row
    by row: for a column the file supplied, the row of a cell is the list
    of its blank-separated tokens turned into floats, in order, and the
    row of a null cell is NaN; a column the file did not supply is passed
    on as it is. No vocabulary is fitted and the confidence matrix is
    always there. *)
Theorem regression_matrices_parse_cells (w : World) (truth results : DataFrame)
    (t : list event) (mx : Matrices) :
  build_matrices w "Regression" truth results = (t, Ok mx) ->
  (if dtype_object truth "labels"
   then Forall2 (parsed_floats w) (series truth "labels") (truth_labels_matrix mx)
   else truth_labels_matrix mx = values truth "labels") /\
  (if dtype_object results "labels"
   then Forall2 (parsed_floats w) (series results "labels") (results_labels_matrix mx)
   else results_labels_matrix mx = values results "labels") /\
  (exists cm, confidence_matrix mx = Some cm /\
     if dtype_object results "confidence"
     then Forall2 (parsed_floats w) (series results "confidence") cm
     else cm = values results "confidence") /\
  label_classes mx = [].
Proof.
  intros E. unfold build_matrices in E. simpl in E.
  do 3 invert_bind E. invert_ret E. simpl.
  repeat match goal with
         | H : regression_column _ _ _ = (_, Ok _) |- _ => apply regression_column_ok in H
         end.
  repeat split; try assumption.
  eexists. split; [reflexivity|assumption].
Qed.

Lemma regression_matrices_parse_cells_witness :
  let w := Regression.world Regression.predictions in
  let truth := pandas_DataFrame truth_cols Regression.ground_truth in
  let results := pandas_DataFrame results_cols Regression.predictions in
  exists mx,
    outcome (build_matrices w "Regression"
               (fst (reconcile truth results)) (snd (reconcile truth results))) = Ok mx /\
    results_labels_matrix mx = [Floats [0.5%float]; Floats [0.25%float; 0.75%float]] /\
    Forall2 (parsed_floats w) (series (snd (reconcile truth results)) "labels")
      (results_labels_matrix mx).
Proof.
  intros w truth results. eexists. split; [reflexivity|]. split; [reflexivity|].
  exact (proj1 (proj2 (regression_matrices_parse_cells w
                         (fst (reconcile truth results)) (snd (reconcile truth results))
                         _ _ eq_refl))).
Defined.

Lemma float_tokens_fails (w : World) (ts : list string) :
  (exists tok, In tok ts /\ np_float64 w tok = None) ->
  exists tok, In tok ts /\ np_float64 w tok = None /\
    outcome (float_tokens w ts) =
    Raised (Py.StdException "ValueError" ("could not convert string to float: " ++ tok)).
Proof.
  induction ts as [|tok ts IH]; simpl; intros (bad & Hin & Hbad); [contradiction|].
  destruct (np_float64 w tok) as [x|] eqn:Hx.
  - destruct Hin as [->|Hin]; [congruence|].
    destruct IH as (tok' & H1 & H2 & H3); [eauto|].
    exists tok'. split; [now right|]. split; [exact H2|].
    rewrite outcome_bind, H3. reflexivity.
  - exists tok. split; [now left|]. split; [exact Hx|reflexivity].
Qed.

Lemma float_rows_fails (w : World) (cells : list (option string)) :
  (exists s tok, In (Some s) cells /\ In tok (Py.split s) /\ np_float64 w tok = None) ->
  exists tok, np_float64 w tok = None /\
    outcome (float_rows w cells) =
    Raised (Py.StdException "ValueError" ("could not convert string to float: " ++ tok)).
Proof.
  induction cells as [|[s|] cells IH]; simpl; intros (s0 & bad & Hin & Htok & Hbad);
    [contradiction| |].
  - destruct (outcome (float_tokens w (Py.split s))) as [xs|e] eqn:O.
    + destruct Hin as [Hin|Hin].
      * inversion Hin; subst s0.
        destruct (float_tokens_fails w (Py.split s)) as (tok & _ & _ & H3); [eauto|].
        congruence.
      * destruct IH as (tok & H1 & H2); [eauto|].
        exists tok. split; [exact H1|].
        rewrite outcome_bind, O, outcome_bind, H2. reflexivity.
    + destruct (float_tokens_fails w (Py.split s)) as (tok & _ & H2 & H3).
      * destruct (float_tokens w (Py.split s)) as [t [xs|e']] eqn:F; [discriminate|].
        clear - F. revert t e' F.
        induction (Py.split s) as [|tok ts IHt]; simpl; intros t e' F; [discriminate|].
        destruct (np_float64 w tok) eqn:Hx; [|exists tok; split; [now left|exact Hx]].
        destruct (float_tokens w ts) as [t1 [xs|e1]] eqn:F1; [discriminate|].
        destruct (IHt _ _ eq_refl) as (tok' & H1 & H2).
        exists tok'. split; [now right|exact H2].
      * exists tok. split; [exact H2|]. rewrite outcome_bind, H3. reflexivity.
  - destruct Hin as [Hin|Hin]; [discriminate|].
    destruct IH as (tok & H1 & H2); [eauto|].
    exists tok. split; [exact H1|]. rewrite outcome_bind, H2. reflexivity.
Qed.

(** X16. In a regression run a ground-truth label token that cannot be
    turned into a float is fatal: building the matrices ends in the
    ValueError of the conversion, naming a token that does not convert. *)
Theorem unparsable_regression_label_is_fatal (w : World) (truth results : DataFrame)
    (s tok : string) :
  dtype_object truth "labels" = true ->
  In (Some s) (series truth "labels") ->
  In tok (Py.split s) ->
  np_float64 w tok = None ->
  exists bad,
    np_float64 w bad = None /\
    outcome (build_matrices w "Regression" truth results) =
    Raised (Py.StdException "ValueError" ("could not convert string to float: " ++ bad)).
Proof.
  intros D Hs Ht Hn.
  destruct (float_rows_fails w (series truth "labels")) as (bad & H1 & H2); [eauto|].
  exists bad. split; [exact H1|].
  unfold build_matrices. simpl. unfold regression_column at 1. rewrite D.
  rewrite outcome_bind, H2. reflexivity.
Qed.

Lemma unparsable_regression_label_is_fatal_witness :
  let truth := pandas_DataFrame truth_cols [["1"; "0.5 high"]] in
  let results := pandas_DataFrame results_cols Regression.predictions in
  exists bad,
    Examples.parse_float bad = None /\
    outcome (build_matrices (Regression.world Regression.predictions) "Regression"
               truth results) =
    Raised (Py.StdException "ValueError" ("could not convert string to float: " ++ bad)).
Proof.
  intros truth results.
  apply (unparsable_regression_label_is_fatal (Regression.world Regression.predictions)
           truth results "0.5 high" "high").
  - reflexivity.
  - simpl; auto.
  - simpl; auto.
  - reflexivity.
Defined.

(* ------------------------------------------------------------------ *)
(** ** The classification branch *)

Lemma fill_confidence_row_reads (w : World) (label_classes confs : list string) :
  forall (row : list string) (col_index : nat) (acc out : list float) (t : list event),
  fill_confidence_row w label_classes confs row col_index acc = (t, Ok out) ->
  forall k, k < length row ->
    exists conf x, nth_error confs (col_index + k) = Some conf /\
                   np_float64 w conf = Some x.
Proof.
  induction row as [|col row IH]; simpl; intros col_index acc out t E k Hk; [lia|].
  destruct (list_index col label_classes) as [label_pos|]; [|discriminate].
  destruct (nth_error confs col_index) as [conf|] eqn:Hc; [|discriminate].
  destruct (np_float64 w conf) as [x|] eqn:Hx; [|discriminate].
  destruct k as [|k].
  - exists conf, x. now rewrite Nat.add_0_r.
  - destruct (IH _ _ _ _ E k) as (conf' & x' & H1 & H2); [lia|].
    exists conf', x'. now rewrite Nat.add_succ_r.
Qed.

(** X17. In a multilabel or multiclass run with a fully populated
    confidence column, the matrices are built only if every prediction
    row has at least as many confidence tokens as label tokens and each
    confidence token that stands against a label token converts to a
    float; confidence tokens beyond the labels are not looked at. *)
Theorem confidence_tokens_cover_labels (w : World) (eval_type : string)
    (truth results : DataFrame) (t : list event) (mx : Matrices) :
  is_classification eval_type = true ->
  columns results = results_cols ->
  hasnans results "confidence" = false ->
  build_matrices w eval_type truth results = (t, Ok mx) ->
  forall r, In r (rows results) ->
    exists labels conf,
      cell results "labels" r = Some labels /\
      cell results "confidence" r = Some conf /\
      length (Py.split labels) <= length (Py.split conf) /\
      forall k, k < length (Py.split labels) ->
        exists c x, nth_error (Py.split conf) k = Some c /\ np_float64 w c = Some x.
Proof.
  intros C Hcols Hn E r Hr.
  destruct (build_matrices_classification _ _ _ _ _ _ C E)
    as (truth_rows & results_rows & _ & Hrr & _ & _ & _ & Hconf).
  destruct Hconf as (conf_rows & cm & tc & Hc & Hb & _).
  { unfold has_column. rewrite Hcols, Hn. reflexivity. }
  apply build_confidence_spec in Hb. destruct Hb as [_ Hrows].
  apply In_nth_error in Hr. destruct Hr as [i Hi].
  destruct (rows_of_column _ _ _ _ _ Hrr Hi) as (labels & Hl1 & Hl2).
  destruct (rows_of_column _ _ _ _ _ Hc Hi) as (conf & Hc1 & Hc2).
  destruct (Hrows _ _ Hl2) as (cs & xs & t' & Hcs & _ & Hfill).
  assert (cs = Py.split conf) by congruence. subst cs.
  pose proof (fill_confidence_row_reads _ _ _ _ _ _ _ _ Hfill) as R.
  exists labels, conf. split; [exact Hl1|]. split; [exact Hc1|]. split.
  - destruct (length (Py.split labels)) as [|n] eqn:L; [lia|].
    destruct (R n) as (c & x & H1 & _); [lia|].
    simpl in H1. assert (n < length (Py.split conf)) by (apply nth_error_Some; congruence).
    lia.
  - intros k Hk. exact (R k Hk).
Qed.

Lemma confidence_tokens_cover_labels_witness :
  let w := Examples.world Examples.predictions [] in
  let results := pandas_DataFrame results_cols Examples.predictions in
  let truth := pandas_DataFrame truth_cols Examples.ground_truth in
  In ["1"; "b a"; "1 0.125"] (rows (snd (reconcile truth results))) /\
  exists labels conf,
    cell (snd (reconcile truth results)) "labels" ["1"; "b a"; "1 0.125"] = Some labels /\
    cell (snd (reconcile truth results)) "confidence" ["1"; "b a"; "1 0.125"] = Some conf /\
    length (Py.split labels) <= length (Py.split conf).
Proof.
  intros w results truth. split; [simpl; auto|].
  destruct (confidence_tokens_cover_labels w "MultilabelClassification"
              (fst (reconcile truth results)) (snd (reconcile truth results))
              _ _ eq_refl eq_refl eq_refl eq_refl ["1"; "b a"; "1 0.125"])
    as (labels & conf & H1 & H2 & H3 & _); [simpl; auto|].
  exists labels, conf. auto.
Defined.

(** X18. In a multilabel or multiclass run, the fitted vocabulary is the
    set of the label tokens of the two reconciled tables and nothing
    else: a label is in it exactly when it is a token of some label cell
    of the ground truth or of the predictions; and it lists each label
    once, in ascending order. *)
Theorem vocabulary_is_union_of_tokens (w : World) (eval_type : string)
    (truth results : DataFrame) (t : list event) (mx : Matrices) :
  is_classification eval_type = true ->
  build_matrices w eval_type truth results = (t, Ok mx) ->
  (forall label,
      In label (label_classes mx) <->
      exists s, (In (Some s) (series truth "labels") \/
                 In (Some s) (series results "labels")) /\
                In label (Py.split s)) /\
  NoDup (label_classes mx) /\
  StronglySorted (fun a b => String.ltb a b = true) (label_classes mx).
Proof.
  intros C E.
  destruct (build_matrices_classification _ _ _ _ _ _ C E)
    as (truth_rows & results_rows & Ht & Hr & Hcl & _).
  assert (R : forall df parsed,
             map Some parsed = map (option_map Py.split) (series df "labels") ->
             forall row, In row parsed <->
                         exists s, In (Some s) (series df "labels") /\ row = Py.split s).
  { intros df parsed H row. split.
    - intros Hin. apply (in_map Some) in Hin. rewrite H in Hin.
      apply in_map_iff in Hin. destruct Hin as ([s|] & H1 & H2); [|discriminate].
      exists s. simpl in H1. split; [exact H2|congruence].
    - intros (s & H1 & ->).
      apply (in_map (option_map Py.split)) in H1. rewrite <- H in H1. simpl in H1.
      apply in_map_iff in H1. destruct H1 as (x & Hx & Hin). congruence. }
  split; [|split].
  - intros label. rewrite Hcl. unfold mlb_fit. rewrite sorted_set_in, in_concat. split.
    + intros (row & Hrow & Hl). apply in_app_or in Hrow.
      destruct Hrow as [Hrow|Hrow].
      * apply (R truth) in Hrow; [|exact Ht]. destruct Hrow as (s & H1 & ->). eauto.
      * apply (R results) in Hrow; [|exact Hr]. destruct Hrow as (s & H1 & ->). eauto.
    + intros (s & [H1|H1] & Hl); exists (Py.split s); (split; [|exact Hl]);
        apply in_or_app; [left; apply (R truth)|right; apply (R results)]; eauto.
  - rewrite Hcl. apply mlb_fit_nodup.
  - rewrite Hcl. unfold mlb_fit.
    assert (L : forall a b, String_as_OT.lt a b -> String.ltb a b = true).
    { intros a b H. apply String_as_OT.cmp_lt in H.
      unfold String.ltb, String_as_OT.cmp in *. now rewrite H. }
    generalize (sorted_set_sorted (concat (truth_rows ++ results_rows))).
    induction 1 as [|x l Hs IH Hall]; constructor; [exact IH|].
    eapply Forall_impl; [|exact Hall]. intros b. apply L.
Qed.

Lemma vocabulary_is_union_of_tokens_witness :
  let w := Examples.world Examples.predictions [] in
  let results := pandas_DataFrame results_cols Examples.predictions in
  let truth := pandas_DataFrame truth_cols Examples.ground_truth in
  exists mx,
    outcome (build_matrices w "MultilabelClassification"
               (fst (reconcile truth results)) (snd (reconcile truth results))) = Ok mx /\
    label_classes mx = ["a"; "b"; "c"] /\
    NoDup (label_classes mx).
Proof.
  intros w results truth. eexists. split; [reflexivity|]. split; [reflexivity|].
  exact (proj1 (proj2 (vocabulary_is_union_of_tokens w "MultilabelClassification"
                         (fst (reconcile truth results)) (snd (reconcile truth results))
                         _ _ eq_refl eq_refl))).
Defined.

(** X19. In a multilabel or multiclass run, the ground-truth indicator
    matrix has one row per reconciled ground-truth row and one column per
    vocabulary label, and the entry of a row in the column of a label is
    set exactly when the label is among the tokens of the row's labels
    cell. *)
Theorem truth_indicator_matrix_marks_tokens (w : World) (eval_type : string)
    (truth results : DataFrame) (t : list event) (mx : Matrices) :
  is_classification eval_type = true ->
  build_matrices w eval_type truth results = (t, Ok mx) ->
  length (truth_labels_matrix mx) = length (rows truth) /\
  forall i r, nth_error (rows truth) i = Some r ->
    exists labels bits,
      cell truth "labels" r = Some labels /\
      nth_error (truth_labels_matrix mx) i = Some (Indicator bits) /\
      length bits = length (label_classes mx) /\
      forall pos label, nth_error (label_classes mx) pos = Some label ->
        exists b, nth_error bits pos = Some b /\
                  (b = true <-> In label (Py.split labels)).
Proof.
  intros C E.
  destruct (build_matrices_classification _ _ _ _ _ _ C E)
    as (truth_rows & results_rows & Ht & _ & _ & Htm & _).
  split.
  - rewrite Htm. unfold mlb_transform. rewrite length_map.
    apply (f_equal (@length _)) in Ht. rewrite !length_map in Ht.
    unfold series in Ht. now rewrite length_map in Ht.
  - intros i r Hi.
    destruct (rows_of_column _ _ _ _ _ Ht Hi) as (labels & Hl1 & Hl2).
    exists labels. eexists. split; [exact Hl1|]. split.
    + rewrite Htm. unfold mlb_transform. rewrite (map_nth_error _ _ _ Hl2). reflexivity.
    + split; [now rewrite length_map|].
      intros pos label Hp. eexists. split.
      * exact (map_nth_error _ _ _ Hp).
      * rewrite existsb_exists. split.
        -- intros (x & Hx & Ex). apply String.eqb_eq in Ex. now subst.
        -- intros Hin. exists label. split; [exact Hin|apply String.eqb_refl].
Qed.

Lemma truth_indicator_matrix_marks_tokens_witness :
  let w := Examples.world Examples.predictions [] in
  let results := pandas_DataFrame results_cols Examples.predictions in
  let truth := pandas_DataFrame truth_cols Examples.ground_truth in
  exists mx,
    outcome (build_matrices w "MultilabelClassification"
               (fst (reconcile truth results)) (snd (reconcile truth results))) = Ok mx /\
    truth_labels_matrix mx =
      [Indicator [true; true; false]; Indicator [false; true; true];
       Indicator [true; false; true]] /\
    length (truth_labels_matrix mx) = length (rows (fst (reconcile truth results))).
Proof.
  intros w results truth. eexists. split; [reflexivity|]. split; [reflexivity|].
  exact (proj1 (truth_indicator_matrix_marks_tokens w "MultilabelClassification"
                  (fst (reconcile truth results)) (snd (reconcile truth results))
                  _ _ eq_refl eq_refl)).
Defined.

(* ------------------------------------------------------------------ *)
(** ** Tokens *)

Lemma chars_fold_rev (cs : list ascii) :
  forall acc : string,
  list_ascii_of_string (fold_left (fun acc c => String c acc) cs acc) =
  (rev cs ++ list_ascii_of_string acc)%list.
Proof.
  induction cs as [|c cs IH]; simpl; intros acc; [reflexivity|].
  rewrite IH. simpl. now rewrite <- app_assoc.
Qed.

Lemma chars_rev_string (cs : list ascii) :
  list_ascii_of_string (Py.rev_string cs) = rev cs.
Proof. unfold Py.rev_string. rewrite chars_fold_rev. simpl. apply app_nil_r. Qed.

Lemma flush_words (cur : list ascii) (out : list string) :
  Forall (fun c => Py.isspace c = false) cur ->
  Forall is_word out -> Forall is_word (Py.flush cur out).
Proof.
  intros Hc Ho. destruct cur as [|c cs]; simpl; [exact Ho|].
  constructor; [|exact Ho]. split.
  - intros E. apply (f_equal list_ascii_of_string) in E.
    rewrite chars_rev_string in E. simpl in E.
    destruct (rev cs); discriminate.
  - rewrite chars_rev_string. now apply Forall_rev.
Qed.

Lemma split_go_words (s : string) :
  forall cur, Forall (fun c => Py.isspace c = false) cur ->
              Forall is_word (Py.split_go s cur).
Proof.
  induction s as [|c s IH]; simpl; intros cur H.
  - apply flush_words; [exact H|constructor].
  - destruct (Py.isspace c) eqn:E.
    + apply flush_words; [exact H|]. apply IH. constructor.
    + apply IH. now constructor.
Qed.

Lemma flush_chars (cur : list ascii) (out : list string) :
  concat (map list_ascii_of_string (Py.flush cur out)) =
  (rev cur ++ concat (map list_ascii_of_string out))%list.
Proof.
  destruct cur as [|c cs]; [reflexivity|].
  unfold Py.flush. simpl map. simpl concat. now rewrite chars_rev_string.
Qed.

Lemma split_go_chars (s : string) :
  forall cur,
  concat (map list_ascii_of_string (Py.split_go s cur)) =
  (rev cur ++ filter (fun c => negb (Py.isspace c)) (list_ascii_of_string s))%list.
Proof.
  induction s as [|c s IH]; simpl; intros cur.
  - now rewrite flush_chars.
  - destruct (Py.isspace c) eqn:E; simpl.
    + rewrite flush_chars, IH. reflexivity.
    + rewrite IH. simpl. now rewrite <- app_assoc.
Qed.

(** X20. Splitting a cell gives words: no token is empty, no token holds
    a blank character, and the tokens put end to end are the cell with
    its blank characters taken out. *)
Theorem split_gives_the_words (s : string) :
  Forall is_word (Py.split s) /\
  concat (map list_ascii_of_string (Py.split s)) =
  filter (fun c => negb (Py.isspace c)) (list_ascii_of_string s).
Proof.
  split.
  - apply split_go_words. constructor.
  - unfold Py.split. now rewrite split_go_chars.
Qed.

(* ------------------------------------------------------------------ *)
(** ** Reconciling twice *)








(* ------------------------------------------------------------------ *)
(** ** One iteration: the module and the method *)

(** X22. A metric whose module does not have the method is skipped: the
    iteration completes without calling anything, logs the warning that
    names the method and the package, and leaves the result mapping and
    the descriptors as they were. *)
Theorem missing_method_is_skipped (w : World) (eval_type : string) (dt : Data)
    (counter : nat) (ref : string) (st : State) (metric : Metric) (module : module) :
  Py.get (metric_objects st) ref = Some metric ->
  cache_sound w st ->
  import_module w (package metric) = Some module ->
  module (method metric) = None ->
  exists t st',
    process_metric w eval_type dt counter ref st = (t, Ok st') /\
    eval_dict st' = eval_dict st /\
    metric_objects st' = metric_objects st /\
    existsb is_call t = false /\
    In (Log WARN (method metric ++ " does not exist in " ++ package metric)) t /\
    In (Log INFO ("Completed metric " ++ Py.str_of_nat (counter + 1))) t.
Proof.
  intros Hm C Hi Hf.
  step_cases w dt ref st; inversion Hm; subst.
  all: try (apply C in Hcache).
  all: try (assert (module0 = module) by congruence; subst module0).
  all: try congruence.
  all: eexists; eexists; split; [reflexivity|]; simpl; repeat split; auto.
Qed.

Lemma missing_method_is_skipped_witness :
  let metric := deserialize_model
                  (Examples.entry "other.metrics" "f1_score" None Examples.labels_dp) in
  let st := {| eval_dict := [("accuracy_score", Py.VFloat 0.5)];
               modules_cache := [];
               metric_objects := [("other.metrics.f1_score", metric)] |} in
  exists t st',
    process_metric (Examples.world Examples.predictions []) "MultilabelClassification"
      Examples.no_rows 0 "other.metrics.f1_score" st = (t, Ok st') /\
    eval_dict st' = [("accuracy_score", Py.VFloat 0.5)] /\
    In (Log WARN "f1_score does not exist in other.metrics") t.
Proof.
  intros metric st.
  destruct (missing_method_is_skipped (Examples.world Examples.predictions [])
              "MultilabelClassification" Examples.no_rows 0 "other.metrics.f1_score"
              st metric Examples.other_metrics eq_refl)
    as (t & st' & E & H1 & _ & _ & H2 & _).
  - intros pkg m H. discriminate.
  - reflexivity.
  - reflexivity.
  - exists t, st'. split; [exact E|]. split; [rewrite H1; reflexivity|exact H2].
Defined.

(** X23. An iteration that completes leaves the metric's package in the
    module cache, mapped to the module importing the package gives; what
    the cache held for other packages is untouched. *)
Theorem completed_iteration_caches_module (w : World) (eval_type : string) (dt : Data)
    (counter : nat) (ref : string) (st st' : State) (t : list event) (metric : Metric) :
  process_metric w eval_type dt counter ref st = (t, Ok st') ->
  Py.get (metric_objects st) ref = Some metric ->
  cache_sound w st ->
  (exists module, import_module w (package metric) = Some module /\
                  Py.get (modules_cache st') (package metric) = Some module) /\
  (forall pkg, pkg <> package metric ->
               Py.get (modules_cache st') pkg = Py.get (modules_cache st) pkg).
Proof.
  intros E Hm C. revert E.
  step_cases w dt ref st; intros E; inversion E; subst; clear E;
    inversion Hm; subst; simpl; rewrite ?modules_cache_store_args; simpl.
  all: split;
    [ eexists; split;
      [ first [ exact Himport | exact (C _ _ Hcache) ]
      | first [ exact Hcache | apply get_set_same ] ]
    | intros pkg Hp; first [ reflexivity | now apply get_set_other ] ].
Qed.

Lemma completed_iteration_caches_module_witness :
  let r := process_metric (Examples.world Examples.predictions [])
             "MultilabelClassification" Examples.no_rows 0
             "sklearn.metrics.accuracy_score" Examples.state0 in
  exists t st',
    r = (t, Ok st') /\
    Py.get (modules_cache st') "sklearn.metrics" = Some Examples.sklearn_metrics.
Proof.
  intros r.
  exists (trace r), (match outcome r with Ok s => s | Raised _ => Examples.state0 end).
  assert (E : r = (trace r, Ok (match outcome r with
                                | Ok s => s | Raised _ => Examples.state0 end)))
    by reflexivity.
  split; [exact E|].
  destruct (completed_iteration_caches_module (Examples.world Examples.predictions [])
              "MultilabelClassification" Examples.no_rows 0
              "sklearn.metrics.accuracy_score" Examples.state0 _ _ _ E eq_refl)
    as [(module & H1 & H2) _].
  - intros pkg m H. discriminate.
  - transitivity (Some module); [exact H2|]. rewrite <- H1. reflexivity.
Defined.

(* ------------------------------------------------------------------ *)
(** ** Row counts *)

Lemma build_confidence_length (w : World) (classes : list string) :
  forall (labels confidence : list (list string)) (t : list event) (cm : matrix),
  build_confidence w classes labels confidence = (t, Ok cm) ->
  length cm = length labels.
Proof.
  induction labels as [|row labels IH]; simpl; intros confidence t cm E.
  - inversion E; subst. reflexivity.
  - destruct confidence as [|confs confidence]; [discriminate|].
    do 2 invert_bind E. invert_ret E. simpl. f_equal. eapply IH. eassumption.
Qed.

Lemma float_rows_length (w : World) (cells : list (option string))
    (t : list event) (m : matrix) :
  float_rows w cells = (t, Ok m) -> length m = length cells.
Proof.
  intros E. apply float_rows_ok in E. symmetry. exact (Forall2_length E).
Qed.

Lemma values_length (df : DataFrame) (name : string) :
  length (values df name) = length (rows df).
Proof. unfold values, series. now rewrite !length_map. Qed.

Lemma regression_column_length (w : World) (df : DataFrame) (name : string)
    (t : list event) (m : matrix) :
  regression_column w df name = (t, Ok m) -> length m = length (rows df).
Proof.
  unfold regression_column. destruct (dtype_object df name); intros E.
  - apply float_rows_length in E. unfold series in E. now rewrite length_map in E.
  - inversion E. apply values_length.
Qed.

Lemma token_column_length (df : DataFrame) (name : string) :
  length (token_column df name) = length (rows df).
Proof.
  unfold token_column. destruct (dtype_object df name).
  - unfold series. now rewrite !length_map.
  - apply values_length.
Qed.

Lemma split_rows_length (df : DataFrame) (name : string) (parsed : list (list string)) :
  map Some parsed = map (option_map Py.split) (series df name) ->
  length parsed = length (rows df).
Proof.
  intros H. apply (f_equal (@length _)) in H. unfold series in H.
  now rewrite !length_map in H.
Qed.

Lemma classification_without_confidence (w : World) (eval_type : string)
    (truth results : DataFrame) (t : list event) (mx : Matrices) :
  is_classification eval_type = true ->
  build_matrices w eval_type truth results = (t, Ok mx) ->
  has_column results "confidence" && negb (hasnans results "confidence") = false ->
  confidence_matrix mx = None.
Proof.
  intros C E Hc. unfold build_matrices in E. rewrite C, Hc in E.
  repeat invert_bind E. invert_ret E. simpl.
  match goal with H : ret None = (_, Ok ?c) |- ?c = None => now inversion H end.
Qed.

(** X24. Whatever the evaluation type, matrices that are built have one
    row per table row: the ground-truth labels matrix as many rows as the
    ground-truth table, the prediction labels matrix and, when there is
    one, the confidence matrix as many rows as the predictions table. *)
Theorem matrices_have_a_row_per_table_row (w : World) (eval_type : string)
    (truth results : DataFrame) (t : list event) (mx : Matrices) :
  build_matrices w eval_type truth results = (t, Ok mx) ->
  length (truth_labels_matrix mx) = length (rows truth) /\
  length (results_labels_matrix mx) = length (rows results) /\
  (forall cm, confidence_matrix mx = Some cm -> length cm = length (rows results)).
Proof.
  intros E. destruct (is_classification eval_type) eqn:C.
  - destruct (build_matrices_classification _ _ _ _ _ _ C E)
      as (truth_rows & results_rows & Ht & Hr & _ & Htm & Hrm & Hconf).
    rewrite Htm, Hrm. unfold mlb_transform. rewrite !length_map.
    split; [exact (split_rows_length _ _ _ Ht)|].
    split; [exact (split_rows_length _ _ _ Hr)|].
    intros cm Hcm.
    destruct (has_column results "confidence" && negb (hasnans results "confidence"))
      eqn:Hc.
    + destruct (Hconf eq_refl) as (conf_rows & cm' & tc & _ & Hb & Hs).
      assert (cm' = cm) by congruence. subst cm'.
      rewrite (build_confidence_length _ _ _ _ _ _ Hb).
      exact (split_rows_length _ _ _ Hr).
    + rewrite (classification_without_confidence _ _ _ _ _ _ C E Hc) in Hcm.
      discriminate.
  - unfold build_matrices in E. rewrite C in E.
    destruct (String.eqb eval_type "Regression").
    + repeat invert_bind E. invert_ret E. simpl.
      repeat match goal with
             | H : regression_column _ _ _ = _ |- _ =>
                 apply regression_column_length in H
             end.
      split; [assumption|]. split; [assumption|].
      intros cm Hcm. inversion Hcm; subst. assumption.
    + invert_ret E. simpl. rewrite !token_column_length.
      split; [reflexivity|]. split; [reflexivity|].
      intros cm Hcm. inversion Hcm. apply token_column_length.
Qed.

Lemma matrices_have_a_row_per_table_row_witness :
  let w := Regression.world Regression.predictions in
  let results := pandas_DataFrame results_cols Regression.predictions in
  let truth := pandas_DataFrame truth_cols Regression.ground_truth in
  exists mx,
    outcome (build_matrices w "Regression"
               (fst (reconcile truth results)) (snd (reconcile truth results))) = Ok mx /\
    length (truth_labels_matrix mx) = length (rows (fst (reconcile truth results))) /\
    length (results_labels_matrix mx) = length (rows (snd (reconcile truth results))).
Proof.
  intros w results truth. eexists. split; [reflexivity|].
  destruct (matrices_have_a_row_per_table_row w "Regression"
              (fst (reconcile truth results)) (snd (reconcile truth results))
              _ _ eq_refl) as (H1 & H2 & _).
  split; [exact H1|exact H2].
Defined.
